(** * Public holidays of the United Kingdom

    A shallow embedding of [holidays/countries/united_kingdom.py] and of the
    parts of [datetime], [dateutil.easter] and [dateutil.relativedelta] that
    the class [UnitedKingdom] calls, followed by the properties of the
    holiday calendar that it populates. *)

From Stdlib Require Import ZArith String List Lia Bool.
From stdpp Require Import base decidable option list list_numbers strings gmap.

Local Open Scope string_scope.
Local Open Scope Z_scope.

#[local] Set Warnings "-clear-no-such-hyp".

(** ** Python's [datetime.date]

    A [date] value is represented by its proleptic Gregorian ordinal
    ([date.toordinal()], 0001-01-01 being day 1): comparison, hashing,
    [weekday()] and [timedelta] arithmetic of CPython's [date] all go through
    this number. The functions below follow [Lib/_pydatetime.py]; the
    constructor of [date] is that of the C type of CPython
    ([Modules/_datetimemodule.c]), which the class imports. *)
Module datetime.

Definition MINYEAR : Z := 1.
Definition MAXYEAR : Z := 9999.
(* The C ints, as which the constructor of [date] reads its arguments. *)
Definition INT_MIN : Z := -2147483648.
Definition INT_MAX : Z := 2147483647.
Definition fits_int (x : Z) : bool := (INT_MIN <=? x) && (x <=? INT_MAX).
(* date.max.toordinal() *)
Definition _MAXORDINAL : Z := 3652059.

Definition _DAYS_IN_MONTH : list Z :=
  [-1; 31; 28; 31; 30; 31; 30; 31; 31; 30; 31; 30; 31].

(* The module-level loop that accumulates the days preceding each month. *)
Definition _DAYS_BEFORE_MONTH : list Z :=
  fst (fold_left (fun '(acc, dbm) dim => (acc ++ [dbm], dbm + dim)%Z)
                 (tl _DAYS_IN_MONTH) ([-1], 0))%list.

Definition _is_leap (year : Z) : bool :=
  (year mod 4 =? 0) && (negb (year mod 100 =? 0) || (year mod 400 =? 0)).

Definition _days_before_year (year : Z) : Z :=
  let y := year - 1 in
  y * 365 + y / 4 - y / 100 + y / 400.

Definition _days_in_month (year month : Z) : Z :=
  if (month =? 2) && _is_leap year then 29
  else nth (Z.to_nat month) _DAYS_IN_MONTH 0.

Definition _days_before_month (year month : Z) : Z :=
  nth (Z.to_nat month) _DAYS_BEFORE_MONTH 0
  + (if (2 <? month) && _is_leap year then 1 else 0).

Definition _ymd2ord (year month day : Z) : Z :=
  _days_before_year year + _days_before_month year month + day.

(* The three range tests of [_check_date_fields]; a failed one raises
   ValueError. *)
Definition _check_date_fields (year month day : Z) : bool :=
  (MINYEAR <=? year) && (year <=? MAXYEAR)
  && (1 <=? month) && (month <=? 12)
  && (1 <=? day) && (day <=? _days_in_month year month).

(* date.weekday(): Monday is 0, Sunday is 6. *)
Definition weekday (d : Z) : Z := (d + 6) mod 7.

End datetime.
Export datetime.

(** ** The holiday object and its effects *)

(** Modelled from the spec: the constants of [holidays/constants.py], which is
    not part of the sources: the month numbers, the weekday numbers with
    "Mon=0…Sun=6", and the weekend days "{Saturday, Sunday}". *)
Module constants.
Definition JAN : Z := 1.
Definition FEB : Z := 2.
Definition MAR : Z := 3.
Definition APR : Z := 4.
Definition MAY : Z := 5.
Definition JUN : Z := 6.
Definition JUL : Z := 7.
Definition AUG : Z := 8.
Definition SEP : Z := 9.
Definition OCT : Z := 10.
Definition NOV : Z := 11.
Definition DEC : Z := 12.
Definition MON : Z := 0.
Definition TUE : Z := 1.
Definition WED : Z := 2.
Definition THU : Z := 3.
Definition FRI : Z := 4.
Definition SAT : Z := 5.
Definition SUN : Z := 6.
Definition WEEKEND : list Z := [SAT; SUN].
End constants.
Export constants.

(** The exceptions that the calendar arithmetic can raise. *)
Inductive exn : Set := ValueError | OverflowError.

(** The attributes of [self] that [UnitedKingdom] reads and writes: the
    requested subdivision, the [observed] flag, and the dictionary from dates
    to holiday names that the object itself is. *)
Record Self : Type := mkSelf {
  subdiv : string;
  observed : bool;
  entries : gmap Z string
}.

(** A method body either returns a value and leaves [self] in a new state, or
    raises. *)
Inductive outcome (A : Type) : Type :=
| Returns (a : A) (s : Self)
| Raises (e : exn).
Arguments Returns {A} a s.
Arguments Raises {A} e.

Definition M (A : Type) : Type := Self → outcome A.

#[global] Instance M_ret : MRet M := λ A a s, Returns a s.
#[global] Instance M_bind : MBind M := λ A B f m s,
  match m s with
  | Returns a s' => f a s'
  | Raises e => Raises e
  end.

Definition raise {A} (e : exn) : M A := λ _, Raises e.
Definition self_subdiv : M string := λ s, Returns (subdiv s) s.
Definition self_observed : M bool := λ s, Returns (observed s) s.

(* [if c: body] without an else branch. *)
Definition when (c : bool) (body : M unit) : M unit :=
  if c then body else mret tt.

(* Python's short-circuit [a and b] on conditions that may raise. *)
Definition and_then (a b : M bool) : M bool :=
  x ← a; if x : bool then b else mret false.
Infix "&&&" := and_then (at level 40, left associativity).

(* [for x in xs: body]. *)
Fixpoint for_each {A} (xs : list A) (body : A → M unit) : M unit :=
  match xs with
  | [] => mret tt
  | x :: xs' => body x;; for_each xs' body
  end.

(** [date(year, month, day)]: the constructor reads its three arguments as
    C ints, which raises OverflowError for a number that is no C int, and
    then checks the fields, which raises ValueError. *)
Definition date (year month day : Z) : M Z :=
  if fits_int year && fits_int month && fits_int day then
    if _check_date_fields year month day
    then mret (_ymd2ord year month day)
    else raise ValueError
  else raise OverflowError.

(** [date.__add__] with a [timedelta] of [days] days. *)
Definition date_add_days (d days : Z) : M Z :=
  let o := d + days in
  if (0 <? o) && (o <=? _MAXORDINAL) then mret o else raise OverflowError.

(** Modelled from the spec: [HolidayBase.__setitem__] of
    [holidays/holiday_base.py], which is not part of the sources. The spec has
    "Insert (rawDate → decoratedName) into the result map" and, for a date that
    already holds a name, "last-write-wins per insertion order". *)
Definition setitem (key : Z) (value : string) : M unit :=
  λ s, Returns tt (mkSelf (subdiv s) (observed s) (<[key := value]> (entries s))).

(** [self[key] = value], the key being an expression that may raise. *)
Definition assign (key : M Z) (value : string) : M unit :=
  k ← key; setitem k value.
Notation "'self[' key ']' '::=' value" := (assign key value)
  (at level 61, key at level 99, value at level 60, no associativity).

(* [key.weekday() == wd] and [key.weekday() in wds]. *)
Definition weekday_is (key : M Z) (wd : Z) : M bool :=
  d ← key; mret (weekday d =? wd).
Definition weekday_in (key : M Z) (wds : list Z) : M bool :=
  d ← key; mret (bool_decide (weekday d ∈ wds)).

(** ** [dateutil.relativedelta] *)
Module relativedelta.

(* The class [weekday] of [dateutil._common]: a day of the week and an
   optional occurrence number. *)
Record weekday_t : Type := mk_weekday { wd : Z; n : option Z }.
Definition MO : weekday_t := mk_weekday 0 None.
Definition FR : weekday_t := mk_weekday 4 None.
(* [MO(-1)]: weekday.__call__ *)
Definition nth_of (w : weekday_t) (k : Z) : weekday_t := mk_weekday (wd w) (Some k).

(* [relativedelta(days=..., weekday=...)]; the other keywords keep their
   defaults throughout, so that the [replace] step of [__add__] gives the
   date back unchanged. *)
Record relativedelta : Type := rd { rd_days : Z; rd_weekday : option weekday_t }.
Definition days (k : Z) : relativedelta := rd k None.
Definition on (w : weekday_t) : relativedelta := rd 0 (Some w).

(* relativedelta.__radd__ *)
Definition radd (dt : Z) (r : relativedelta) : M Z :=
  ret ← date_add_days dt (rd_days r);
  match rd_weekday r with
  | Some w =>
      let weekday := wd w in
      (* self.weekday.n or 1 *)
      let nth := match n w with
                 | Some k => if k =? 0 then 1 else k
                 | None => 1
                 end in
      let jumpdays := (Z.abs nth - 1) * 7 in
      let jumpdays :=
        if 0 <? nth
        then jumpdays + (7 - datetime.weekday ret + weekday) mod 7
        else (jumpdays + (datetime.weekday ret - weekday) mod 7) * -1 in
      date_add_days ret jumpdays
  | None => mret ret
  end.

End relativedelta.
Export relativedelta.

(* [date_expression + relativedelta] *)
Definition plus (key : M Z) (r : relativedelta) : M Z := d ← key; radd d r.
Infix ".+" := plus (at level 50, left associativity).

(** ** [dateutil.easter.easter], with its default method [EASTER_WESTERN] *)
Module easter_western.

(* The month and the day that [easter] hands to [datetime.date]. *)
Definition easter_fields (year : Z) : Z * Z :=
  let y := year in
  let g := y mod 19 in
  let e := 0 in
  let c := y / 100 in
  let h := (c - c / 4 - (8 * c + 13) / 25 + 19 * g + 15) mod 30 in
  let i := h - (h / 28) * (1 - (h / 28) * (29 / (h + 1)) * ((21 - g) / 11)) in
  let j := (y + y / 4 + i + 2 - c + c / 4) mod 7 in
  let p := i - j + e in
  let d := 1 + (p + 27 + (p + 6) / 40) mod 31 in
  let m := 3 + (p + 26) / 30 in
  (m, d).

Definition easter (year : Z) : M Z :=
  let '(m, d) := easter_fields year in date year m d.

End easter_western.
Export easter_western.

(** ** The class [UnitedKingdom] *)

Definition special_holidays : gmap Z (list (Z * Z * string)) :=
  list_to_map
    [ (1977, [(JUN, 7, "Silver Jubilee of Elizabeth II")]);
      (1981, [(JUL, 29, "Wedding of Charles and Diana")]);
      (1999, [(DEC, 31, "Millennium Celebrations")]);
      (2002, [(JUN, 3, "Golden Jubilee of Elizabeth II")]);
      (2011, [(APR, 29, "Wedding of William and Catherine")]);
      (2012, [(JUN, 5, "Diamond Jubilee of Elizabeth II")]);
      (2022, [(JUN, 3, "Platinum Jubilee of Elizabeth II");
              (SEP, 19, "State Funeral of Queen Elizabeth II")]) ].

Definition subdivisions : list string :=
  ["UK"; "England"; "Northern Ireland"; "Scotland"; "Wales"].

(** Modelled from the spec: [HolidayBase._populate] of
    [holidays/holiday_base.py], which is not part of the sources and which
    [UnitedKingdom._populate] calls first. The spec has "merge in every
    SpecialOccasion whose year matches, unconditionally, with no subdivision
    filtering and no observed-shift". *)
Definition HolidayBase_populate (year : Z) : M unit :=
  for_each (default [] (special_holidays !! year))
    (λ '(month, day, name), self[date year month day] ::= name).

Section UnitedKingdom.

(** [IsleOfMan._additional_holidays] of [holidays/countries/isle_of_man.py],
    which is not part of the sources; it only runs for the deprecated
    subdivision "Isle of Man". *)
Context (IsleOfMan_additional_holidays : Z → M unit).

(* New Year's Day *)
Definition new_years_day (year : Z) : M unit :=
  when (1974 <=? year) (
    let name := "New Year's Day" in
    self[date year JAN 1] ::= name;;
    c ← self_observed &&& weekday_is (date year JAN 1) SUN;
    if c : bool then
      self[date year JAN 1 .+ days 1] ::= name +:+ " (Observed)"
    else
      c ← self_observed &&& weekday_is (date year JAN 1) SAT;
      when c (self[date year JAN 1 .+ days 2] ::= name +:+ " (Observed)")).

(* New Year Holiday *)
Definition new_year_holiday (year : Z) : M unit :=
  sd ← self_subdiv;
  when (bool_decide (sd ∈ ["UK"; "Scotland"])) (
    let name := "New Year Holiday" in
    let name := if String.eqb sd "UK" then name +:+ " [Scotland]" else name in
    self[date year JAN 2] ::= name;;
    c ← self_observed &&& weekday_in (date year JAN 2) WEEKEND;
    if c : bool then
      self[date year JAN 2 .+ days 2] ::= name +:+ " (Observed)"
    else
      c ← self_observed &&& weekday_is (date year JAN 2) MON;
      when c (self[date year JAN 2 .+ days 1] ::= name +:+ " (Observed)")).

(* St. Patrick's Day *)
Definition st_patricks_day (year : Z) : M unit :=
  sd ← self_subdiv;
  when (bool_decide (sd ∈ ["UK"; "Northern Ireland"])) (
    let name := "St. Patrick's Day" in
    let name := if String.eqb sd "UK" then name +:+ " [Northern Ireland]" else name in
    self[date year MAR 17] ::= name;;
    c ← self_observed &&& weekday_in (date year MAR 17) WEEKEND;
    when c (self[date year MAR 17 .+ on MO] ::= name +:+ " (Observed)")).

(* Battle of the Boyne *)
Definition battle_of_the_boyne (year : Z) : M unit :=
  sd ← self_subdiv;
  when (bool_decide (sd ∈ ["UK"; "Northern Ireland"])) (
    let name := "Battle of the Boyne" in
    let name := if String.eqb sd "UK" then name +:+ " [Northern Ireland]" else name in
    self[date year JUL 12] ::= name).

(* Summer bank holiday (first Monday in August) *)
Definition summer_bank_holiday (year : Z) : M unit :=
  sd ← self_subdiv;
  when (bool_decide (sd ∈ ["UK"; "Scotland"])) (
    let name := "Summer Bank Holiday" in
    let name := if String.eqb sd "UK" then name +:+ " [Scotland]" else name in
    self[date year AUG 1 .+ on MO] ::= name).

(* St. Andrew's Day *)
Definition st_andrews_day (year : Z) : M unit :=
  sd ← self_subdiv;
  when (bool_decide (sd ∈ ["UK"; "Scotland"])) (
    let name := "St. Andrew's Day" in
    let name := if String.eqb sd "UK" then name +:+ " [Scotland]" else name in
    self[date year NOV 30] ::= name).

(* Christmas Day *)
Definition christmas_day (year : Z) : M unit :=
  let name := "Christmas Day" in
  self[date year DEC 25] ::= name;;
  c ← self_observed &&& weekday_is (date year DEC 25) SAT;
  if c : bool then
    self[date year DEC 27] ::= name +:+ " (Observed)"
  else
    c ← self_observed &&& weekday_is (date year DEC 25) SUN;
    when c (self[date year DEC 27] ::= name +:+ " (Observed)").

(* Good Friday *)
Definition good_friday (year : Z) : M unit :=
  self[easter year .+ on (nth_of FR (-1))] ::= "Good Friday".

(* Easter Monday *)
Definition easter_monday (year : Z) : M unit :=
  sd ← self_subdiv;
  when (negb (String.eqb sd "Scotland")) (
    let name := "Easter Monday" in
    let name := if String.eqb sd "UK"
                then name +:+ " [England/Wales/Northern Ireland]" else name in
    self[easter year .+ on MO] ::= name).

(* May Day bank holiday (first Monday in May) *)
Definition may_day (year : Z) : M unit :=
  when (1978 <=? year) (
    let name := "May Day" in
    if year =? 2020 then
      (* Moved to Friday to mark 75th anniversary of VE Day. *)
      self[date year MAY 8] ::= name
    else
      dt ← (if year =? 1995 then date year MAY 8 else date year MAY 1);
      when (weekday dt =? MON) (self[mret dt] ::= name);;
      when (weekday dt =? TUE) (self[mret dt .+ days 6] ::= name);;
      when (weekday dt =? WED) (self[mret dt .+ days 5] ::= name);;
      when (weekday dt =? THU) (self[mret dt .+ days 4] ::= name);;
      when (weekday dt =? FRI) (self[mret dt .+ days 3] ::= name);;
      when (weekday dt =? SAT) (self[mret dt .+ days 2] ::= name);;
      when (weekday dt =? SUN) (self[mret dt .+ days 1] ::= name)).

(* Spring bank holiday (last Monday in May) *)
Definition spring_bank_holiday (year : Z) : M unit :=
  let name := "Spring Bank Holiday" in
  if year =? 2012 then
    self[date year JUN 4] ::= name
  else if year =? 2022 then
    self[date year JUN 2] ::= name
  else
    when (1971 <=? year) (self[date year MAY 31 .+ on (nth_of MO (-1))] ::= name).

(* Late Summer bank holiday (last Monday in August) *)
Definition late_summer_bank_holiday (year : Z) : M unit :=
  sd ← self_subdiv;
  when (negb (String.eqb sd "Scotland") && (1971 <=? year)) (
    let name := "Late Summer Bank Holiday" in
    let name := if String.eqb sd "UK"
                then name +:+ " [England/Wales/Northern Ireland]" else name in
    self[date year AUG 31 .+ on (nth_of MO (-1))] ::= name).

(* Boxing Day *)
Definition boxing_day (year : Z) : M unit :=
  let name := "Boxing Day" in
  self[date year DEC 26] ::= name;;
  c ← self_observed &&& weekday_is (date year DEC 26) SAT;
  if c : bool then
    self[date year DEC 28] ::= name +:+ " (Observed)"
  else
    c ← self_observed &&& weekday_is (date year DEC 26) SUN;
    when c (self[date year DEC 28] ::= name +:+ " (Observed)").

(* This method is replaced by class Ireland *)
Definition _country_specific (year : Z) : M unit :=
  good_friday year;;
  easter_monday year;;
  may_day year;;
  spring_bank_holiday year;;
  late_summer_bank_holiday year;;
  boxing_day year.

(* Method used to handle Isle of Man (replaced by class IsleOfMan); the
   deprecation warning has no effect on the holidays. *)
Definition _additional_holidays (year : Z) : M unit :=
  sd ← self_subdiv;
  when (String.eqb sd "Isle of Man") (IsleOfMan_additional_holidays year).

Definition _populate (year : Z) : M unit :=
  HolidayBase_populate year;;
  new_years_day year;;
  new_year_holiday year;;
  st_patricks_day year;;
  battle_of_the_boyne year;;
  summer_bank_holiday year;;
  st_andrews_day year;;
  christmas_day year;;
  (* Overwrite to modify country specific holidays *)
  _country_specific year;;
  _additional_holidays year.

(** The holidays of one year for a subdivision: [_populate] on a fresh,
    empty object. *)
Definition holidays (sd : string) (obs : bool) (year : Z) : outcome unit :=
  _populate year (mkSelf sd obs ∅).

End UnitedKingdom.

(** The dictionary that [_populate] leaves behind, if it returns. *)
Definition holiday_map (hook : Z → M unit) (sd : string) (obs : bool) (year : Z)
  : option (gmap Z string) :=
  match holidays hook sd obs year with
  | Returns _ s => Some (entries s)
  | Raises _ => None
  end.

(** For the subdivisions of the class the hook of [_additional_holidays] does
    not run; the closed instances at the end take one that adds nothing. *)
Definition no_additional_holidays : Z → M unit := λ _, mret tt.

(** [UnitedKingdom.__init__], up to its call of [HolidayBase.__init__]: the
    keyword arguments that it hands on. [V] stands for the values of Python,
    [truth] for their truth value and [none] for None; [str] makes a string
    a value. *)
Section Init.

Context {V : Type} (truth : V → bool) (none : V) (str : string → V).

(* kwargs.get(key, default) *)
Definition dict_get (kwargs : gmap string V) (key : string) (default : V) : V :=
  match kwargs !! key with
  | Some v => v
  | None => default
  end.

Definition __init__ (kwargs : gmap string V) : gmap string V :=
  (* default subdiv to UK; state for backwards compatibility *)
  if negb (truth (dict_get kwargs "subdiv" (dict_get kwargs "state" none)))
  then <["subdiv" := str "UK"]> kwargs
  else kwargs.

End Init.

(** The values of the keyword arguments [subdiv] and [state]: None or a
    string, the empty string being false. *)
Definition truth_of (v : option string) : bool :=
  match v with
  | Some s => negb (String.eqb s "")
  | None => false
  end.

(** ** Definitions for the statements *)

(** The years that [datetime.date] accepts. *)
Definition valid_year (year : Z) : Prop := MINYEAR ≤ year ≤ MAXYEAR.

(* The exception that [date] raises for a year that it does not accept:
   ValueError for a C int, OverflowError for a larger or a smaller number. *)
Definition year_error (year : Z) : exn :=
  if fits_int year then ValueError else OverflowError.

(* The date that [d + relativedelta(weekday=w)] and
   [d + relativedelta(weekday=w(-1))] return: the first day of the week [w]
   on or after [d], and the last one on or before [d]. *)
Definition next_on (w d : Z) : Z := d + (7 - weekday d + w) mod 7.
Definition last_on (w d : Z) : Z := d - (weekday d - w) mod 7.

(* The ordinal of the date that [easter] constructs. *)
Definition easter_ordinal (year : Z) : Z :=
  let '(m, d) := easter_fields year in _ymd2ord year m d.

(** The month and the day of Easter by the anonymous Gregorian algorithm
    (Meeus, Jones, Butcher), which the spec names as the reference for
    "the standard Western (Gregorian) Easter algorithm"; written after the
    published algorithm, to be compared with [easter_fields]. *)
Definition anonymous_gregorian (year : Z) : Z * Z :=
  let a := year mod 19 in
  let b := year / 100 in
  let c := year mod 100 in
  let d := b / 4 in
  let e := b mod 4 in
  let f := (b + 8) / 25 in
  let g := (b - f + 1) / 3 in
  let h := (19 * a + b - d - g + 15) mod 30 in
  let i := c / 4 in
  let k := c mod 4 in
  let l := (32 + 2 * e + 2 * i - h - k) mod 7 in
  let m := (a + 11 * h + 22 * l) / 451 in
  ((h + l - 7 * m + 114) / 31, (h + l - 7 * m + 114) mod 31 + 1).

Definition same_fields (a b : Z * Z) : bool := (a.1 =? b.1) && (a.2 =? b.2).

(* A name that ends in " (Observed)". *)
Fixpoint is_observed (name : string) : bool :=
  String.eqb name " (Observed)" ||
  match name with
  | String _ rest => is_observed rest
  | EmptyString => false
  end.

(** *** The assignments of the rules *)

(* The state after the assignments [ws], in their order. *)
Definition puts (ws : list (Z * string)) (s : Self) : Self :=
  mkSelf (subdiv s) (observed s) (foldl (λ m w, <[w.1 := w.2]> m) (entries s) ws).

Definition special_log (year : Z) : list (Z * string) :=
  (λ '(month, day, name), (_ymd2ord year month day, name))
    <$> default [] (special_holidays !! year).

Definition new_years_day_log (year : Z) (obs : bool) : list (Z * string) :=
  if 1974 <=? year then
    let name := "New Year's Day" in
    let d := _ymd2ord year JAN 1 in
    (d, name) ::
    (if obs && (weekday d =? SUN) then [(d + 1, name +:+ " (Observed)")]
     else if obs && (weekday d =? SAT) then [(d + 2, name +:+ " (Observed)")]
     else [])
  else [].

Definition new_year_holiday_log (year : Z) (sd : string) (obs : bool)
  : list (Z * string) :=
  if bool_decide (sd ∈ ["UK"; "Scotland"]) then
    let name := "New Year Holiday" in
    let name := if String.eqb sd "UK" then name +:+ " [Scotland]" else name in
    let d := _ymd2ord year JAN 2 in
    (d, name) ::
    (if obs && bool_decide (weekday d ∈ WEEKEND) then [(d + 2, name +:+ " (Observed)")]
     else if obs && (weekday d =? MON) then [(d + 1, name +:+ " (Observed)")]
     else [])
  else [].

Definition st_patricks_day_log (year : Z) (sd : string) (obs : bool)
  : list (Z * string) :=
  if bool_decide (sd ∈ ["UK"; "Northern Ireland"]) then
    let name := "St. Patrick's Day" in
    let name := if String.eqb sd "UK" then name +:+ " [Northern Ireland]" else name in
    let d := _ymd2ord year MAR 17 in
    (d, name) ::
    (if obs && bool_decide (weekday d ∈ WEEKEND)
     then [(next_on MON d, name +:+ " (Observed)")] else [])
  else [].

Definition battle_of_the_boyne_log (year : Z) (sd : string) : list (Z * string) :=
  if bool_decide (sd ∈ ["UK"; "Northern Ireland"]) then
    let name := "Battle of the Boyne" in
    let name := if String.eqb sd "UK" then name +:+ " [Northern Ireland]" else name in
    [(_ymd2ord year JUL 12, name)]
  else [].

Definition summer_bank_holiday_log (year : Z) (sd : string) : list (Z * string) :=
  if bool_decide (sd ∈ ["UK"; "Scotland"]) then
    let name := "Summer Bank Holiday" in
    let name := if String.eqb sd "UK" then name +:+ " [Scotland]" else name in
    [(next_on MON (_ymd2ord year AUG 1), name)]
  else [].

Definition st_andrews_day_log (year : Z) (sd : string) : list (Z * string) :=
  if bool_decide (sd ∈ ["UK"; "Scotland"]) then
    let name := "St. Andrew's Day" in
    let name := if String.eqb sd "UK" then name +:+ " [Scotland]" else name in
    [(_ymd2ord year NOV 30, name)]
  else [].

Definition christmas_day_log (year : Z) (obs : bool) : list (Z * string) :=
  let name := "Christmas Day" in
  let d := _ymd2ord year DEC 25 in
  (d, name) ::
  (if obs && (weekday d =? SAT) then [(_ymd2ord year DEC 27, name +:+ " (Observed)")]
   else if obs && (weekday d =? SUN) then [(_ymd2ord year DEC 27, name +:+ " (Observed)")]
   else []).

Definition good_friday_log (year : Z) : list (Z * string) :=
  [(last_on FRI (easter_ordinal year), "Good Friday")].

Definition easter_monday_log (year : Z) (sd : string) : list (Z * string) :=
  if negb (String.eqb sd "Scotland") then
    let name := "Easter Monday" in
    let name := if String.eqb sd "UK"
                then name +:+ " [England/Wales/Northern Ireland]" else name in
    [(next_on MON (easter_ordinal year), name)]
  else [].

Definition may_day_log (year : Z) : list (Z * string) :=
  if 1978 <=? year then
    let name := "May Day" in
    if year =? 2020 then [(_ymd2ord year MAY 8, name)]
    else
      let dt := if year =? 1995 then _ymd2ord year MAY 8 else _ymd2ord year MAY 1 in
      (if weekday dt =? MON then [(dt, name)] else []) ++
      (if weekday dt =? TUE then [(dt + 6, name)] else []) ++
      (if weekday dt =? WED then [(dt + 5, name)] else []) ++
      (if weekday dt =? THU then [(dt + 4, name)] else []) ++
      (if weekday dt =? FRI then [(dt + 3, name)] else []) ++
      (if weekday dt =? SAT then [(dt + 2, name)] else []) ++
      (if weekday dt =? SUN then [(dt + 1, name)] else [])
  else [].

Definition spring_bank_holiday_log (year : Z) : list (Z * string) :=
  let name := "Spring Bank Holiday" in
  if year =? 2012 then [(_ymd2ord year JUN 4, name)]
  else if year =? 2022 then [(_ymd2ord year JUN 2, name)]
  else if 1971 <=? year then [(last_on MON (_ymd2ord year MAY 31), name)]
  else [].

Definition late_summer_bank_holiday_log (year : Z) (sd : string)
  : list (Z * string) :=
  if negb (String.eqb sd "Scotland") && (1971 <=? year) then
    let name := "Late Summer Bank Holiday" in
    let name := if String.eqb sd "UK"
                then name +:+ " [England/Wales/Northern Ireland]" else name in
    [(last_on MON (_ymd2ord year AUG 31), name)]
  else [].

Definition boxing_day_log (year : Z) (obs : bool) : list (Z * string) :=
  let name := "Boxing Day" in
  let d := _ymd2ord year DEC 26 in
  (d, name) ::
  (if obs && (weekday d =? SAT) then [(_ymd2ord year DEC 28, name +:+ " (Observed)")]
   else if obs && (weekday d =? SUN) then [(_ymd2ord year DEC 28, name +:+ " (Observed)")]
   else []).

Definition country_specific_log (year : Z) (sd : string) (obs : bool)
  : list (Z * string) :=
  good_friday_log year ++ easter_monday_log year sd ++ may_day_log year ++
  spring_bank_holiday_log year ++ late_summer_bank_holiday_log year sd ++
  boxing_day_log year obs.

Definition populate_log (year : Z) (sd : string) (obs : bool) : list (Z * string) :=
  special_log year ++ new_years_day_log year obs ++
  new_year_holiday_log year sd obs ++ st_patricks_day_log year sd obs ++
  battle_of_the_boyne_log year sd ++ summer_bank_holiday_log year sd ++
  st_andrews_day_log year sd ++ christmas_day_log year obs ++
  country_specific_log year sd obs.

(** ** From the assignments to the dictionary *)

(* The dictionary that a sequence of assignments builds from an empty one. *)
Definition dict_of (ws : list (Z * string)) : gmap Z string :=
  foldl (λ m w, <[w.1 := w.2]> m) ∅ ws.

(* The assignments that follow the New Year's Day rule. *)
Definition later_log (year : Z) (sd : string) (obs : bool) : list (Z * string) :=
  new_year_holiday_log year sd obs ++ st_patricks_day_log year sd obs ++
  battle_of_the_boyne_log year sd ++ summer_bank_holiday_log year sd ++
  st_andrews_day_log year sd ++ christmas_day_log year obs ++
  country_specific_log year sd obs.

(** *** The dates that each rule assigns *)

(* All the keys of [ws] lie between [lo] and [hi], and none occurs with two
   names. *)
Definition slot (lo hi : Z) (ws : list (Z * string)) : Prop :=
  (∀ k n, (k, n) ∈ ws → lo ≤ k ≤ hi) ∧
  (∀ k n n', (k, n) ∈ ws → (k, n') ∈ ws → n = n').

(* Slots that follow one another in the calendar. *)
Fixpoint consecutive (after : Z) (gs : list (Z * Z * list (Z * string))) : Prop :=
  match gs with
  | [] => True
  | (lo, hi, ws) :: gs' => after < lo ∧ lo ≤ hi ∧ slot lo hi ws ∧ consecutive hi gs'
  end.

(* The later rules in the order of the calendar. *)
Definition calendar_slots (y : Z) (sd : string) (obs : bool)
  : list (Z * Z * list (Z * string)) :=
  [ (_ymd2ord y JAN 2, _ymd2ord y JAN 4, new_year_holiday_log y sd obs);
    (_ymd2ord y MAR 17, _ymd2ord y MAR 19, st_patricks_day_log y sd obs);
    (_ymd2ord y MAR 20, _ymd2ord y APR 26, good_friday_log y ++ easter_monday_log y sd);
    (_ymd2ord y MAY 1, _ymd2ord y MAY 14, may_day_log y);
    (_ymd2ord y MAY 25, _ymd2ord y JUN 4, spring_bank_holiday_log y);
    (_ymd2ord y JUL 12, _ymd2ord y JUL 12, battle_of_the_boyne_log y sd);
    (_ymd2ord y AUG 1, _ymd2ord y AUG 7, summer_bank_holiday_log y sd);
    (_ymd2ord y AUG 25, _ymd2ord y AUG 31, late_summer_bank_holiday_log y sd);
    (_ymd2ord y NOV 30, _ymd2ord y NOV 30, st_andrews_day_log y sd);
    (_ymd2ord y DEC 25, _ymd2ord y DEC 28, christmas_day_log y obs ++ boxing_day_log y obs) ]%list.

(** *** The subdivisions *)

Definition regions : list string :=
  ["England"; "Northern Ireland"; "Scotland"; "Wales"].

(** The rules that [_populate] and [_country_specific] guard by a test on
    [self.subdiv]: the name, the suffix that the name takes for "UK", and the
    subdivisions other than "UK" that pass the guard. *)
Definition restricted_holidays : list (string * string * list string) :=
  [ ("New Year Holiday", " [Scotland]", ["Scotland"]);
    ("St. Patrick's Day", " [Northern Ireland]", ["Northern Ireland"]);
    ("Battle of the Boyne", " [Northern Ireland]", ["Northern Ireland"]);
    ("Summer Bank Holiday", " [Scotland]", ["Scotland"]);
    ("St. Andrew's Day", " [Scotland]", ["Scotland"]);
    ("Easter Monday", " [England/Wales/Northern Ireland]",
       ["England"; "Wales"; "Northern Ireland"]);
    ("Late Summer Bank Holiday", " [England/Wales/Northern Ireland]",
       ["England"; "Wales"; "Northern Ireland"]) ].

(* What a guarded rule assigns for a region and what it assigns for "UK":
   the same dates, the names of "UK" carrying the suffix [q]. *)
Definition qualified_rule (log : string → list (Z * string))
    (base q : string) (rs : list string) : Prop :=
  ∀ r sfx k, r ∈ regions → sfx ∈ [""; " (Observed)"] →
    ((k, base +:+ sfx) ∈ log r ↔ r ∈ rs ∧ (k, base +:+ q +:+ sfx) ∈ log "UK") ∧
    (k, base +:+ sfx) ∉ log "UK".

(* The dates that a guarded rule assigns do not depend on the subdivision
   that passes the guard. *)
Definition same_keys (log : string → list (Z * string)) (rs : list string) : Prop :=
  ∀ r, r ∈ regions →
    (log r).*1 = if bool_decide (r ∈ rs) then (log "UK").*1 else [].

(* The names that carry a suffix. *)
Definition qualified_names : list string :=
  '(base, q, _) ← restricted_holidays;
  sfx ← [""; " (Observed)"];
  [base +:+ q +:+ sfx].

(* The names of the special occasions. *)
Definition special_names : list string :=
  (λ '(_, _, name), name) <$> mjoin (map_to_list special_holidays).*2.

(** ** Calendar arithmetic *)

Lemma weekday_range d : 0 ≤ weekday d < 7.
Proof. unfold weekday. apply Z.mod_pos_bound. lia. Qed.

Lemma weekday_shift d k : weekday (d + k) = (weekday d + k) mod 7.
Proof.
  unfold weekday. rewrite Zplus_mod_idemp_l. f_equal. lia.
Qed.

Lemma days_before_year_bounds y :
  valid_year y → 0 ≤ _days_before_year y ≤ 3651694.
Proof.
  unfold valid_year, MINYEAR, MAXYEAR, _days_before_year. intros Hy.
  cbv zeta. split.
  - pose proof (Z.div_pos (y - 1) 400 ltac:(lia) ltac:(lia)).
    assert ((y - 1) / 100 ≤ (y - 1) / 4) by (apply Z.div_le_compat_l; lia).
    lia.
  - replace ((y - 1) / 100) with ((y - 1) / 4 / 25)
      by (rewrite Z.div_div by lia; reflexivity).
    replace ((y - 1) / 400) with ((y - 1) / 4 / 25 / 4)
      by (rewrite !Z.div_div by lia; reflexivity).
    Z.div_mod_to_equations. lia.
Qed.

Lemma days_before_month_cases y :
  ∃ b, b = (if _is_leap y then 1 else 0) ∧ 0 ≤ b ≤ 1 ∧
       _days_before_month y 1 = 0 ∧ _days_before_month y 2 = 31 ∧
       _days_before_month y 3 = 59 + b ∧ _days_before_month y 4 = 90 + b ∧
       _days_before_month y 5 = 120 + b ∧ _days_before_month y 6 = 151 + b ∧
       _days_before_month y 7 = 181 + b ∧ _days_before_month y 8 = 212 + b ∧
       _days_before_month y 9 = 243 + b ∧ _days_before_month y 10 = 273 + b ∧
       _days_before_month y 11 = 304 + b ∧ _days_before_month y 12 = 334 + b.
Proof.
  unfold _days_before_month.
  destruct (_is_leap y); [exists 1 | exists 0]; vm_compute; intuition discriminate.
Qed.

(* Dates of the year [y] as sums over the days before the year, with the
   leap day [b] of the year. *)
Ltac ymd_unfold :=
  unfold _ymd2ord, JAN, FEB, MAR, APR, MAY, JUN, JUL, AUG, SEP, OCT, NOV, DEC in *.
Ltac ymd_cases y :=
  ymd_unfold;
  let b := fresh "b" in let Hb := fresh "Hb" in
  destruct (days_before_month_cases y)
    as (b & Hb & ? & ? & ? & ? & ? & ? & ? & ? & ? & ? & ? & ? & ?);
  clear Hb.

Lemma next_on_spec w d :
  0 ≤ w < 7 →
  weekday (next_on w d) = w ∧ d ≤ next_on w d ≤ d + 6.
Proof.
  intros Hw. unfold next_on. rewrite weekday_shift.
  pose proof (weekday_range d) as Hd.
  pose proof (Z.mod_pos_bound (7 - weekday d + w) 7 ltac:(lia)) as Hm.
  split; [| lia].
  rewrite Zplus_mod_idemp_r.
  replace (weekday d + (7 - weekday d + w)) with (w + 1 * 7) by lia.
  rewrite Z_mod_plus_full. apply Z.mod_small. lia.
Qed.

Lemma last_on_spec w d :
  0 ≤ w < 7 →
  weekday (last_on w d) = w ∧ d - 6 ≤ last_on w d ≤ d.
Proof.
  intros Hw. unfold last_on.
  replace (d - (weekday d - w) mod 7) with (d + - ((weekday d - w) mod 7)) by lia.
  rewrite weekday_shift.
  pose proof (weekday_range d) as Hd.
  pose proof (Z.mod_pos_bound (weekday d - w) 7 ltac:(lia)) as Hm.
  split; [| lia].
  pose proof (Z.div_mod (weekday d - w) 7 ltac:(lia)) as Hq.
  replace (weekday d + - ((weekday d - w) mod 7))
    with (w + ((weekday d - w) / 7) * 7) by lia.
  rewrite Z_mod_plus_full. apply Z.mod_small. lia.
Qed.

(* The shape of what easter computes: 28 March plus p days, p in -6..28 *)
Lemma easter_fields_shape y :
  ∃ i j, 0 ≤ i ≤ 28 ∧ 0 ≤ j < 7 ∧
    (y + y / 4 + i + 2 - y / 100 + y / 100 / 4 - j) mod 7 = 0 ∧
    ((i - j ≤ 3 ∧ easter_fields y = (3, i - j + 28)) ∨
     (4 ≤ i - j ∧ easter_fields y = (4, i - j - 3))).
Proof.
  unfold easter_fields. cbv zeta.
  set (g := y mod 19). set (c := y / 100).
  set (h := (c - c / 4 - (8 * c + 13) / 25 + 19 * g + 15) mod 30).
  set (i := h - h / 28 * (1 - h / 28 * (29 / (h + 1)) * ((21 - g) / 11))).
  set (j := (y + y / 4 + i + 2 - c + c / 4) mod 7).
  assert (Hg : 0 ≤ g < 19) by (apply Z.mod_pos_bound; lia).
  assert (Hh : 0 ≤ h < 30) by (apply Z.mod_pos_bound; lia).
  assert (Hj : 0 ≤ j < 7) by (apply Z.mod_pos_bound; lia).
  assert (Hi : 0 ≤ i ≤ 28).
  { subst i. clearbody h g.
    assert (Ht : (21 - g) / 11 = 0 ∨ (21 - g) / 11 = 1) by (Z.div_mod_to_equations; lia).
    assert (Hc : h < 28 ∨ h = 28 ∨ h = 29) by lia.
    destruct Hc as [Hc | [-> | ->]].
    - rewrite (Z.div_small h 28) by lia. lia.
    - change (28 / 28) with 1. change (29 / (28 + 1)) with 1. lia.
    - change (29 / 28) with 1. change (29 / (29 + 1)) with 0. lia. }
  exists i, j. split; [done|]. split; [done|]. split.
  { subst j. clearbody i c.
    rewrite Zminus_mod_idemp_r.
    rewrite Z.sub_diag. reflexivity. }
  clearbody i j. clear -Hi Hj.
  rewrite Z.add_0_r.
  assert ((i - j + 6) / 40 = 0) as -> by (apply Z.div_small; lia).
  rewrite Z.add_0_r.
  destruct (Z_le_gt_dec (i - j) 3) as [Hp | Hp]; [left | right]; (split; [lia|]).
  - rewrite (Z.div_small (i - j + 26)) by lia.
    rewrite (Z.mod_small (i - j + 27)) by lia. f_equal; lia.
  - replace (i - j + 26) with ((i - j - 4) + 1 * 30) by lia.
    rewrite Z_div_plus_full, (Z.div_small (i - j - 4)) by lia.
    replace (i - j + 27) with ((i - j - 4) + 1 * 31) by lia.
    rewrite Z_mod_plus_full, (Z.mod_small (i - j - 4)) by lia. f_equal; lia.
Qed.

Lemma leap_days y :
  (y - 1) / 4 - (y - 1) / 100 + (y - 1) / 400 + (if _is_leap y then 1 else 0) =
  y / 4 - y / 100 + y / 100 / 4.
Proof.
  rewrite Z.div_div by lia. change (100 * 4) with 400.
  unfold _is_leap.
  destruct (Z.eqb_spec (y mod 4) 0), (Z.eqb_spec (y mod 100) 0),
    (Z.eqb_spec (y mod 400) 0); cbn [negb andb orb];
    Z.div_mod_to_equations; lia.
Qed.

Lemma easter_ordinal_spec y :
  ∃ p, -6 ≤ p ≤ 28 ∧ easter_fields y = (if p <=? 3 then (3, p + 28) else (4, p - 3)) ∧
       easter_ordinal y = _ymd2ord y MAR 28 + p ∧ weekday (easter_ordinal y) = SUN.
Proof.
  destruct (easter_fields_shape y) as (i & j & Hi & Hj & Hmod & Hfields).
  exists (i - j). split; [lia|].
  assert (Hf : easter_fields y = (if i - j <=? 3 then (3, i - j + 28) else (4, i - j - 3))).
  { destruct Hfields as [[Hp ->] | [Hp ->]]; destruct (Z.leb_spec (i - j) 3); done || lia. }
  split; [done|].
  assert (Hord : easter_ordinal y = _ymd2ord y MAR 28 + (i - j)).
  { unfold easter_ordinal. rewrite Hf. destruct (i - j <=? 3); ymd_cases y; lia. }
  split; [done|]. rewrite Hord.
  pose proof (leap_days y) as Hl.
  unfold weekday, SUN. ymd_unfold. unfold _days_before_month, _days_before_year. cbv zeta.
  change (nth (Z.to_nat 3) _DAYS_BEFORE_MONTH 0) with 59.
  change (2 <? 3) with true. cbn [andb].
  set (b := if _is_leap y then 1 else 0) in *.
  replace ((y - 1) * 365 + (y - 1) / 4 - (y - 1) / 100 + (y - 1) / 400
           + (59 + b) + 28 + (i - j) + 6)
    with (6 + (y + y / 4 + i + 2 - y / 100 + y / 100 / 4 - j) + (52 * y - 40) * 7) by lia.
  rewrite Z_mod_plus_full, Zplus_mod, Hmod. reflexivity.
Qed.

(** [easter] computes the Easter of the anonymous Gregorian algorithm, in
    every year that [datetime.date] accepts. *)
Lemma easter_fields_anonymous_gregorian y :
  valid_year y → easter_fields y = anonymous_gregorian y.
Proof.
  intros [Hlo Hhi].
  assert (Hall : forallb (λ y, same_fields (easter_fields y) (anonymous_gregorian y))
                   (seqZ MINYEAR MAXYEAR) = true) by (vm_compute; reflexivity).
  rewrite forallb_forall in Hall.
  assert (Hin : In y (seqZ MINYEAR MAXYEAR)).
  { apply list_elem_of_In, elem_of_seqZ. unfold MINYEAR, MAXYEAR in *. lia. }
  apply Hall in Hin. unfold same_fields in Hin.
  apply andb_prop in Hin as [H1%Z.eqb_eq H2%Z.eqb_eq].
  destruct (easter_fields y), (anonymous_gregorian y). cbn in *. congruence.
Qed.

(** ** Running the calendar operations *)

Lemma date_returns y m d s :
  valid_year y →
  (1 <=? m) && (m <=? 12) && (1 <=? d) && (d <=? nth (Z.to_nat m) _DAYS_IN_MONTH 0) = true →
  date y m d s = Returns (_ymd2ord y m d) s.
Proof.
  intros [Hlo Hhi] Hmd. unfold date, _check_date_fields.
  apply andb_prop in Hmd as [Hmd Hd]. apply andb_prop in Hmd as [Hmd Hd1].
  apply andb_prop in Hmd as [Hm1 Hm12].
  assert (Hfits : fits_int y && fits_int m && fits_int d = true).
  { unfold fits_int, INT_MIN, INT_MAX, MINYEAR, MAXYEAR in *.
    apply Z.leb_le in Hm1, Hm12, Hd1, Hd.
    assert (Hdim : nth (Z.to_nat m) _DAYS_IN_MONTH 0 ≤ 31).
    { assert (Hc : m = 1 ∨ m = 2 ∨ m = 3 ∨ m = 4 ∨ m = 5 ∨ m = 6 ∨ m = 7 ∨ m = 8
                   ∨ m = 9 ∨ m = 10 ∨ m = 11 ∨ m = 12) by lia.
      destruct_or! Hc; subst m; vm_compute; discriminate. }
    rewrite !andb_true_iff, !Z.leb_le. lia. }
  rewrite Hfits.
  rewrite (proj2 (Z.leb_le _ _) Hlo), (proj2 (Z.leb_le _ _) Hhi), Hm1, Hm12, Hd1.
  cbn [andb].
  assert (Hdim : (d <=? _days_in_month y m) = true).
  { unfold _days_in_month.
    destruct ((m =? 2) && _is_leap y) eqn:E; [|done].
    apply andb_prop in E as [->%Z.eqb_eq _]. apply Z.leb_le. apply Z.leb_le in Hd.
    change (nth (Z.to_nat 2) _DAYS_IN_MONTH 0) with 28 in Hd. lia. }
  rewrite Hdim. reflexivity.
Qed.

Lemma easter_returns y s :
  valid_year y → easter y s = Returns (easter_ordinal y) s.
Proof.
  intros Hy. unfold easter, easter_ordinal.
  destruct (easter_ordinal_spec y) as (p & Hp & -> & _ & _).
  destruct (Z.leb_spec p 3); apply date_returns; try done.
  - assert (Hc : p = -6 ∨ p = -5 ∨ p = -4 ∨ p = -3 ∨ p = -2 ∨ p = -1 ∨ p = 0
                 ∨ p = 1 ∨ p = 2 ∨ p = 3) by lia.
    intuition (subst; reflexivity).
  - apply andb_true_intro; split; [apply andb_true_intro; split; [done|] |]; apply Z.leb_le.
    + lia.
    + change (nth (Z.to_nat 4) _DAYS_IN_MONTH 0) with 30. lia.
Qed.

Lemma date_add_days_returns d k s :
  0 < d + k ≤ _MAXORDINAL → date_add_days d k s = Returns (d + k) s.
Proof.
  intros [Hlo Hhi]. unfold date_add_days. cbv zeta.
  rewrite (proj2 (Z.ltb_lt _ _) Hlo), (proj2 (Z.leb_le _ _) Hhi). reflexivity.
Qed.

Lemma plus_days key d k s s' :
  key s = Returns d s' → 0 < d + k ≤ _MAXORDINAL →
  (key .+ days k) s = Returns (d + k) s'.
Proof.
  intros Hkey Hr. unfold plus, mbind, M_bind. rewrite Hkey.
  unfold radd. cbn [rd_days rd_weekday days]. unfold mbind, M_bind.
  rewrite date_add_days_returns by done. reflexivity.
Qed.

Lemma plus_next key d w s s' :
  key s = Returns d s' → n w = None → 0 ≤ wd w < 7 → 0 < d → d + 6 ≤ _MAXORDINAL →
  (key .+ on w) s = Returns (next_on (wd w) d) s'.
Proof.
  intros Hkey Hn Hw Hlo Hhi. unfold plus, mbind, M_bind. rewrite Hkey.
  unfold radd. cbn [rd_days rd_weekday on]. unfold mbind, M_bind.
  rewrite date_add_days_returns by lia. rewrite Hn. cbv zeta.
  change (0 <? 1) with true. cbv iota. change ((Z.abs 1 - 1) * 7) with 0.
  rewrite Z.add_0_r, Z.add_0_l.
  pose proof (next_on_spec (wd w) d Hw) as [_ Hr]. unfold next_on in *.
  apply date_add_days_returns. lia.
Qed.

Lemma plus_last key d w s s' :
  key s = Returns d s' → 0 ≤ wd w < 7 → 6 < d ≤ _MAXORDINAL →
  (key .+ on (nth_of w (-1))) s = Returns (last_on (wd w) d) s'.
Proof.
  intros Hkey Hw Hr. unfold plus, mbind, M_bind. rewrite Hkey.
  unfold radd. cbn [rd_days rd_weekday on nth_of n wd]. unfold mbind, M_bind.
  rewrite date_add_days_returns by lia. cbv zeta.
  change (-1 =? 0) with false. cbv iota. change (0 <? -1) with false. cbv iota.
  change ((Z.abs (-1) - 1) * 7) with 0.
  rewrite Z.add_0_r, Z.add_0_l.
  pose proof (last_on_spec (wd w) d Hw) as [_ Hl]. unfold last_on in *.
  rewrite date_add_days_returns by lia. f_equal. lia.
Qed.

(** ** The assignments of each rule

    In a year that [datetime.date] accepts no date expression of the class
    raises, and a rule comes down to the sequence of assignments
    [self[key] = name] that it performs. *)

Lemma puts_app ws1 ws2 s : puts (ws1 ++ ws2) s = puts ws2 (puts ws1 s).
Proof. unfold puts. cbn. by rewrite foldl_app. Qed.

Lemma puts_nil s : puts [] s = s.
Proof. by destruct s. Qed.

(* One rule after another. *)
Lemma seq_puts (c1 c2 : M unit) ws1 ws2 s :
  c1 s = Returns tt (puts ws1 s) →
  c2 (puts ws1 s) = Returns tt (puts ws2 (puts ws1 s)) →
  (c1;; c2) s = Returns tt (puts (ws1 ++ ws2) s).
Proof.
  intros H1 H2. unfold mbind, M_bind. by rewrite H1, H2, puts_app.
Qed.

Ltac ord_bounds y Hy :=
  pose proof (days_before_year_bounds y Hy);
  let p := fresh "p" in
  destruct (easter_ordinal_spec y) as (p & ? & _ & ? & _);
  unfold _MAXORDINAL; ymd_cases y; lia.

Ltac key_returns y Hy :=
  first [ apply date_returns; first [exact Hy | reflexivity]
        | apply easter_returns; exact Hy
        | reflexivity ].

Ltac run y Hy :=
  repeat first
    [ progress (unfold mbind, M_bind, mret, M_ret)
    | progress cbn [puts foldl subdiv observed entries fst snd andb negb app]
    | rewrite date_returns by first [exact Hy | reflexivity]
    | rewrite easter_returns by exact Hy
    | erewrite plus_days; [ | key_returns y Hy | ord_bounds y Hy ]
    | erewrite plus_next;
        [ | key_returns y Hy | reflexivity | cbn; lia
          | ord_bounds y Hy | ord_bounds y Hy ]
    | erewrite plus_last; [ | key_returns y Hy | cbn; lia | ord_bounds y Hy ]
    ].

Ltac unfold_rule :=
  unfold when, assign, and_then, weekday_is, weekday_in, self_observed,
    self_subdiv, setitem.

Lemma new_years_day_puts y s :
  valid_year y →
  new_years_day y s = Returns tt (puts (new_years_day_log y (observed s)) s).
Proof.
  intros Hy. destruct s as [sd obs m].
  unfold new_years_day, new_years_day_log. unfold_rule.
  destruct (1974 <=? y); [|done].
  run y Hy. destruct obs; run y Hy; [|done].
  destruct (weekday _ =? SUN); run y Hy; [done|].
  destruct (weekday _ =? SAT); run y Hy; done.
Qed.

Lemma new_year_holiday_puts y s :
  valid_year y →
  new_year_holiday y s
  = Returns tt (puts (new_year_holiday_log y (subdiv s) (observed s)) s).
Proof.
  intros Hy. destruct s as [sd obs m].
  unfold new_year_holiday, new_year_holiday_log. unfold_rule. run y Hy.
  destruct (bool_decide (sd ∈ _)); [|done].
  destruct (String.eqb sd "UK"); run y Hy.
  all: destruct obs; run y Hy; [|done].
  all: destruct (bool_decide (weekday _ ∈ WEEKEND)); run y Hy; [done|].
  all: destruct (weekday _ =? MON); run y Hy; done.
Qed.

Lemma st_patricks_day_puts y s :
  valid_year y →
  st_patricks_day y s
  = Returns tt (puts (st_patricks_day_log y (subdiv s) (observed s)) s).
Proof.
  intros Hy. destruct s as [sd obs m].
  unfold st_patricks_day, st_patricks_day_log. unfold_rule. run y Hy.
  destruct (bool_decide (sd ∈ _)); [|done].
  destruct (String.eqb sd "UK"); run y Hy.
  all: destruct obs; run y Hy; [|done].
  all: destruct (bool_decide (weekday _ ∈ WEEKEND)); run y Hy; done.
Qed.

Lemma battle_of_the_boyne_puts y s :
  valid_year y →
  battle_of_the_boyne y s
  = Returns tt (puts (battle_of_the_boyne_log y (subdiv s)) s).
Proof.
  intros Hy. destruct s as [sd obs m].
  unfold battle_of_the_boyne, battle_of_the_boyne_log. unfold_rule. run y Hy.
  destruct (bool_decide (sd ∈ _)); [|done].
  destruct (String.eqb sd "UK"); run y Hy; done.
Qed.

Lemma summer_bank_holiday_puts y s :
  valid_year y →
  summer_bank_holiday y s
  = Returns tt (puts (summer_bank_holiday_log y (subdiv s)) s).
Proof.
  intros Hy. destruct s as [sd obs m].
  unfold summer_bank_holiday, summer_bank_holiday_log. unfold_rule. run y Hy.
  destruct (bool_decide (sd ∈ _)); [|done].
  destruct (String.eqb sd "UK"); run y Hy; done.
Qed.

Lemma st_andrews_day_puts y s :
  valid_year y →
  st_andrews_day y s
  = Returns tt (puts (st_andrews_day_log y (subdiv s)) s).
Proof.
  intros Hy. destruct s as [sd obs m].
  unfold st_andrews_day, st_andrews_day_log. unfold_rule. run y Hy.
  destruct (bool_decide (sd ∈ _)); [|done].
  destruct (String.eqb sd "UK"); run y Hy; done.
Qed.

Lemma christmas_day_puts y s :
  valid_year y →
  christmas_day y s = Returns tt (puts (christmas_day_log y (observed s)) s).
Proof.
  intros Hy. destruct s as [sd obs m].
  unfold christmas_day, christmas_day_log. unfold_rule.
  run y Hy. destruct obs; run y Hy; [|done].
  destruct (weekday _ =? SAT); run y Hy; [done|].
  destruct (weekday _ =? SUN); run y Hy; done.
Qed.

Lemma good_friday_puts y s :
  valid_year y →
  good_friday y s = Returns tt (puts (good_friday_log y) s).
Proof.
  intros Hy. destruct s as [sd obs m].
  unfold good_friday, good_friday_log. unfold_rule. run y Hy. done.
Qed.

Lemma easter_monday_puts y s :
  valid_year y →
  easter_monday y s = Returns tt (puts (easter_monday_log y (subdiv s)) s).
Proof.
  intros Hy. destruct s as [sd obs m].
  unfold easter_monday, easter_monday_log. unfold_rule. run y Hy.
  destruct (String.eqb sd "Scotland"); [done|].
  destruct (String.eqb sd "UK"); run y Hy; done.
Qed.

Lemma may_day_puts y s :
  valid_year y →
  may_day y s = Returns tt (puts (may_day_log y) s).
Proof.
  intros Hy. destruct s as [sd obs m].
  unfold may_day, may_day_log. unfold_rule.
  destruct (1978 <=? y); [|done].
  destruct (y =? 2020); run y Hy; [done|].
  assert (Hdt : ∃ dt, (if y =? 1995 then _ymd2ord y MAY 8 else _ymd2ord y MAY 1) = dt
                      ∧ _ymd2ord y MAY 1 ≤ dt ≤ _ymd2ord y MAY 8).
  { destruct (y =? 1995); eexists; (split; [done|]); ymd_unfold; lia. }
  destruct Hdt as (dt & Edt & Hdt).
  assert (Hrun : (if y =? 1995 then date y MAY 8 else date y MAY 1)
                   {| subdiv := sd; observed := obs; entries := m |}
                 = Returns dt {| subdiv := sd; observed := obs; entries := m |}).
  { destruct (y =? 1995); run y Hy; by rewrite Edt. }
  rewrite Hrun, Edt.
  pose proof (weekday_range dt) as Hw.
  assert (Hc : weekday dt = 0 ∨ weekday dt = 1 ∨ weekday dt = 2 ∨ weekday dt = 3
               ∨ weekday dt = 4 ∨ weekday dt = 5 ∨ weekday dt = 6) by lia.
  unfold MON, TUE, WED, THU, FRI, SAT, SUN.
  destruct Hc as [E | [E | [E | [E | [E | [E | E]]]]]]; rewrite E;
    cbn [Z.eqb Pos.eqb]; run y Hy; done.
Qed.

Lemma spring_bank_holiday_puts y s :
  valid_year y →
  spring_bank_holiday y s = Returns tt (puts (spring_bank_holiday_log y) s).
Proof.
  intros Hy. destruct s as [sd obs m].
  unfold spring_bank_holiday, spring_bank_holiday_log. unfold_rule.
  destruct (y =? 2012); run y Hy; [done|].
  destruct (y =? 2022); run y Hy; [done|].
  destruct (1971 <=? y); run y Hy; done.
Qed.

Lemma late_summer_bank_holiday_puts y s :
  valid_year y →
  late_summer_bank_holiday y s
  = Returns tt (puts (late_summer_bank_holiday_log y (subdiv s)) s).
Proof.
  intros Hy. destruct s as [sd obs m].
  unfold late_summer_bank_holiday, late_summer_bank_holiday_log. unfold_rule. run y Hy.
  destruct (String.eqb sd "Scotland"); [done|].
  destruct (1971 <=? y); run y Hy; [|done].
  destruct (String.eqb sd "UK"); run y Hy; done.
Qed.

Lemma boxing_day_puts y s :
  valid_year y →
  boxing_day y s = Returns tt (puts (boxing_day_log y (observed s)) s).
Proof.
  intros Hy. destruct s as [sd obs m].
  unfold boxing_day, boxing_day_log. unfold_rule.
  run y Hy. destruct obs; run y Hy; [|done].
  destruct (weekday _ =? SAT); run y Hy; [done|].
  destruct (weekday _ =? SUN); run y Hy; done.
Qed.

Lemma HolidayBase_populate_puts y s :
  valid_year y →
  HolidayBase_populate y s = Returns tt (puts (special_log y) s).
Proof.
  intros Hy. destruct s as [sd obs m].
  unfold HolidayBase_populate, special_log.
  destruct (special_holidays !! y) as [l|] eqn:E; [|done].
  apply elem_of_list_to_map_2 in E.
  repeat (apply elem_of_cons in E as [E | E];
          [injection E as _ ->; cbn [default from_option id for_each fmap list_fmap];
           unfold_rule; run y Hy; done |]).
  by apply elem_of_nil in E.
Qed.

Lemma country_specific_puts y s :
  valid_year y →
  _country_specific y s
  = Returns tt (puts (country_specific_log y (subdiv s) (observed s)) s).
Proof.
  intros Hy. unfold _country_specific, country_specific_log.
  apply seq_puts; [exact (good_friday_puts y _ Hy) |].
  apply seq_puts; [exact (easter_monday_puts y _ Hy) |].
  apply seq_puts; [exact (may_day_puts y _ Hy) |].
  apply seq_puts; [exact (spring_bank_holiday_puts y _ Hy) |].
  apply seq_puts; [exact (late_summer_bank_holiday_puts y _ Hy) |].
  exact (boxing_day_puts y _ Hy).
Qed.

Section Populate.

Context (hook : Z → M unit).

Lemma additional_holidays_puts y s :
  subdiv s ≠ "Isle of Man" →
  _additional_holidays hook y s = Returns tt (puts [] s).
Proof.
  intros Hsd. destruct s as [sd obs m]. cbn in Hsd.
  unfold _additional_holidays. unfold_rule. unfold mbind, M_bind. cbn.
  destruct (String.eqb_spec sd "Isle of Man"); done.
Qed.

Lemma populate_puts y s :
  valid_year y → subdiv s ≠ "Isle of Man" →
  _populate hook y s = Returns tt (puts (populate_log y (subdiv s) (observed s)) s).
Proof.
  intros Hy Hsd. unfold _populate, populate_log.
  apply seq_puts; [exact (HolidayBase_populate_puts y _ Hy) |].
  apply seq_puts; [exact (new_years_day_puts y _ Hy) |].
  apply seq_puts; [exact (new_year_holiday_puts y _ Hy) |].
  apply seq_puts; [exact (st_patricks_day_puts y _ Hy) |].
  apply seq_puts; [exact (battle_of_the_boyne_puts y _ Hy) |].
  apply seq_puts; [exact (summer_bank_holiday_puts y _ Hy) |].
  apply seq_puts; [exact (st_andrews_day_puts y _ Hy) |].
  apply seq_puts; [exact (christmas_day_puts y _ Hy) |].
  rewrite <- (app_nil_r (country_specific_log _ _ _)).
  apply seq_puts; [exact (country_specific_puts y _ Hy) |].
  by apply additional_holidays_puts.
Qed.

End Populate.

(** ** The dictionary of a sequence of assignments *)

Lemma foldl_insert_lookup_Some (ws : list (Z * string)) (m : gmap Z string) k n :
  foldl (λ m w, <[w.1 := w.2]> m) m ws !! k = Some n →
  (k, n) ∈ ws ∨ m !! k = Some n.
Proof.
  revert m. induction ws as [|[k' n'] ws IH]; intros m H; cbn in *; [by right|].
  apply IH in H as [H | H]; [left; by right |].
  apply lookup_insert_Some in H as [[-> ->] | [_ H]]; [left; by left | by right].
Qed.

Lemma foldl_insert_lookup_None (ws : list (Z * string)) (m : gmap Z string) k :
  k ∉ ws.*1 → foldl (λ m w, <[w.1 := w.2]> m) m ws !! k = m !! k.
Proof.
  revert m. induction ws as [|[k' n'] ws IH]; intros m H; cbn in *; [done|].
  apply not_elem_of_cons in H as [Hne H].
  rewrite IH by done. by rewrite lookup_insert_ne.
Qed.

Lemma foldl_insert_lookup_unique (ws : list (Z * string)) (m : gmap Z string) k n :
  (k, n) ∈ ws → (∀ n', (k, n') ∈ ws → n' = n) →
  foldl (λ m w, <[w.1 := w.2]> m) m ws !! k = Some n.
Proof.
  revert m. induction ws as [|[k' n'] ws IH]; intros m Hin Hu; cbn in *.
  { by apply elem_of_nil in Hin. }
  destruct (decide (k ∈ ws.*1)) as [Hk | Hk].
  - apply list_elem_of_fmap in Hk as ([k2 n2] & -> & Hk). cbn in *.
    apply IH; [| intros n3 H3; apply Hu; by right].
    rewrite (Hu n2) in Hk by (by right). done.
  - rewrite foldl_insert_lookup_None by done.
    apply elem_of_cons in Hin as [Hin | Hin].
    + injection Hin as <- <-. by rewrite lookup_insert_eq.
    + exfalso. apply Hk. apply list_elem_of_fmap. by exists (k, n).
Qed.

Lemma dict_of_lookup_Some ws k n : dict_of ws !! k = Some n → (k, n) ∈ ws.
Proof.
  intros H. apply foldl_insert_lookup_Some in H as [H | H]; [done|].
  by rewrite lookup_empty in H.
Qed.

(* Later assignments win: a key that the tail [ws2] of the sequence always
   assigns the same name holds that name, whatever came before. *)
Lemma dict_of_lookup_last ws1 ws2 k n :
  (k, n) ∈ ws2 → (∀ n', (k, n') ∈ ws2 → n' = n) →
  dict_of (ws1 ++ ws2) !! k = Some n.
Proof.
  intros Hin Hu. unfold dict_of. rewrite foldl_app.
  by apply foldl_insert_lookup_unique.
Qed.

Lemma dict_of_dom ws : dom (dict_of ws) = list_to_set ws.*1.
Proof.
  unfold dict_of.
  assert (H : ∀ m : gmap Z string,
            dom (foldl (λ m w, <[w.1 := w.2]> m) m ws) = list_to_set ws.*1 ∪ dom m).
  { induction ws as [|[k n] ws IH]; intros m; cbn.
    - set_solver.
    - rewrite IH, dom_insert_L. set_solver. }
  rewrite H, dom_empty_L. set_solver.
Qed.

Section Holidays.

Context (hook : Z → M unit).

(** In a year that [datetime.date] accepts, and for a subdivision of the
    class, [_populate] returns, and the dictionary holds the assignments of
    the rules, the later ones overwriting the earlier ones. *)
Lemma holiday_map_log sd obs y :
  valid_year y → sd ∈ subdivisions →
  holiday_map hook sd obs y = Some (dict_of (populate_log y sd obs)).
Proof.
  intros Hy Hsd. unfold holiday_map, holidays.
  rewrite populate_puts; [done | done |].
  cbn. intros ->. set_solver.
Qed.

End Holidays.

(** ** The dates and the names of the rules *)

Ltac unfold_logs :=
  unfold populate_log, country_specific_log, new_years_day_log,
    new_year_holiday_log, st_patricks_day_log, battle_of_the_boyne_log,
    summer_bank_holiday_log, st_andrews_day_log, christmas_day_log,
    good_friday_log, easter_monday_log, may_day_log, spring_bank_holiday_log,
    late_summer_bank_holiday_log, boxing_day_log in *.

(* Split a membership in a sequence of assignments into its cases. *)
Ltac split_log H :=
  repeat match type of H with
  | _ ∈ (_ ++ _)%list => apply elem_of_app in H as [H | H]
  | _ ∈ [] => by apply elem_of_nil in H
  | _ ∈ _ :: _ => apply elem_of_cons in H as [H | H]
  | _ ∈ (if ?c then _ else _) => destruct c eqn:?
  | (_, _) = (_, _) => injection H as ??
  end.

Lemma special_log_elem y k n :
  (k, n) ∈ special_log y →
  ∃ mo d, (y, mo, d, n) ∈
    [ (1977, JUN, 7, "Silver Jubilee of Elizabeth II");
      (1981, JUL, 29, "Wedding of Charles and Diana");
      (1999, DEC, 31, "Millennium Celebrations");
      (2002, JUN, 3, "Golden Jubilee of Elizabeth II");
      (2011, APR, 29, "Wedding of William and Catherine");
      (2012, JUN, 5, "Diamond Jubilee of Elizabeth II");
      (2022, JUN, 3, "Platinum Jubilee of Elizabeth II");
      (2022, SEP, 19, "State Funeral of Queen Elizabeth II") ]
    ∧ k = _ymd2ord y mo d.
Proof.
  unfold special_log. intros H.
  destruct (special_holidays !! y) as [l|] eqn:E; cbn in H; [| by apply elem_of_nil in H].
  apply elem_of_list_to_map_2 in E.
  apply list_elem_of_fmap in H as ([[mo d] n'] & [= -> ->] & H).
  exists mo, d. split; [|done].
  repeat (apply elem_of_cons in E as [E | E];
    [ injection E as -> ->; set_solver |]).
  by apply elem_of_nil in E.
Qed.

(* Boolean tests among the hypotheses, as propositions. *)
Ltac prop_of_bool :=
  repeat match goal with
  | H : (_ && _) = true |- _ => apply andb_prop in H as [? ?]
  | H : (_ <=? _) = true |- _ => apply Z.leb_le in H
  | H : (_ <=? _) = false |- _ => apply Z.leb_gt in H
  | H : (_ =? _) = true |- _ => apply Z.eqb_eq in H
  | H : (_ =? _) = false |- _ => apply Z.eqb_neq in H
  | H : bool_decide _ = true |- _ => apply bool_decide_eq_true_1 in H
  | H : bool_decide _ = false |- _ => apply bool_decide_eq_false_1 in H
  | H : _ ∈ WEEKEND |- _ =>
      unfold WEEKEND in H; rewrite !elem_of_cons, elem_of_nil in H
  end.

Ltac pose_weekday_specs :=
  repeat match goal with
  | |- context [next_on ?w ?d] =>
      lazymatch goal with
      | _ : weekday (next_on w d) = _ ∧ _ |- _ => fail
      | _ => pose proof (next_on_spec w d ltac:(cbv; intuition discriminate))
      end
  | _ : context [next_on ?w ?d] |- _ =>
      lazymatch goal with
      | _ : weekday (next_on w d) = _ ∧ _ |- _ => fail
      | _ => pose proof (next_on_spec w d ltac:(cbv; intuition discriminate))
      end
  | |- context [last_on ?w ?d] =>
      lazymatch goal with
      | _ : weekday (last_on w d) = _ ∧ _ |- _ => fail
      | _ => pose proof (last_on_spec w d ltac:(cbv; intuition discriminate))
      end
  | _ : context [last_on ?w ?d] |- _ =>
      lazymatch goal with
      | _ : weekday (last_on w d) = _ ∧ _ |- _ => fail
      | _ => pose proof (last_on_spec w d ltac:(cbv; intuition discriminate))
      end
  end.

(* Comparisons between dates of one year. *)
Ltac arith y Hy :=
  pose proof (days_before_year_bounds y Hy);
  let p := fresh "p" in
  destruct (easter_ordinal_spec y) as (p & ? & _ & ? & ?);
  repeat match goal with
  | H : context [if ?c then _ else _] |- _ => destruct c eqn:?
  | |- context [if ?c then _ else _] => destruct c eqn:?
  end;
  prop_of_bool; pose_weekday_specs;
  ymd_cases y; unfold MON, TUE, WED, THU, FRI, SAT, SUN in *;
  first [ lia | unfold weekday in *; Z.div_mod_to_equations; lia ].

Lemma good_friday_date y : last_on FRI (easter_ordinal y) = easter_ordinal y - 2.
Proof.
  destruct (easter_ordinal_spec y) as (p & _ & _ & _ & Hsun).
  pose proof (last_on_spec FRI (easter_ordinal y) ltac:(cbv; intuition discriminate)).
  unfold FRI, SUN, weekday in *. Z.div_mod_to_equations. lia.
Qed.

Lemma easter_monday_date y : next_on MON (easter_ordinal y) = easter_ordinal y + 1.
Proof.
  destruct (easter_ordinal_spec y) as (p & _ & _ & _ & Hsun).
  pose proof (next_on_spec MON (easter_ordinal y) ltac:(cbv; intuition discriminate)).
  unfold MON, SUN, weekday in *. Z.div_mod_to_equations. lia.
Qed.

Lemma populate_log_later y sd obs :
  populate_log y sd obs
  = ((special_log y ++ new_years_day_log y obs) ++ later_log y sd obs)%list.
Proof. unfold populate_log, later_log. by rewrite <- app_assoc. Qed.

Ltac slot_tac y Hy :=
  split;
  [ intros k n H; unfold_logs; split_log H; simplify_eq; arith y Hy
  | intros k n n' H H'; unfold_logs; split_log H; simplify_eq;
    split_log H'; simplify_eq; try done; exfalso; arith y Hy ].

Lemma new_year_holiday_slot y sd obs :
  valid_year y →
  slot (_ymd2ord y JAN 2) (_ymd2ord y JAN 4) (new_year_holiday_log y sd obs).
Proof. intros Hy. slot_tac y Hy. Qed.

Lemma st_patricks_day_slot y sd obs :
  valid_year y →
  slot (_ymd2ord y MAR 17) (_ymd2ord y MAR 19) (st_patricks_day_log y sd obs).
Proof. intros Hy. slot_tac y Hy. Qed.

Lemma battle_of_the_boyne_slot y sd :
  valid_year y →
  slot (_ymd2ord y JUL 12) (_ymd2ord y JUL 12) (battle_of_the_boyne_log y sd).
Proof. intros Hy. slot_tac y Hy. Qed.

Lemma summer_bank_holiday_slot y sd :
  valid_year y →
  slot (_ymd2ord y AUG 1) (_ymd2ord y AUG 7) (summer_bank_holiday_log y sd).
Proof. intros Hy. slot_tac y Hy. Qed.

Lemma st_andrews_day_slot y sd :
  valid_year y →
  slot (_ymd2ord y NOV 30) (_ymd2ord y NOV 30) (st_andrews_day_log y sd).
Proof. intros Hy. slot_tac y Hy. Qed.

(* Christmas Day and Boxing Day share their slot: 25 and 27 December for the
   one, 26 and 28 December for the other. *)
Lemma christmas_slot y obs :
  valid_year y →
  slot (_ymd2ord y DEC 25) (_ymd2ord y DEC 28)
       (christmas_day_log y obs ++ boxing_day_log y obs).
Proof. intros Hy. slot_tac y Hy. Qed.

(* Good Friday and Easter Monday share theirs. *)
Lemma easter_slot y sd :
  valid_year y →
  slot (_ymd2ord y MAR 20) (_ymd2ord y APR 26)
       (good_friday_log y ++ easter_monday_log y sd).
Proof.
  intros Hy. unfold good_friday_log, easter_monday_log.
  rewrite good_friday_date, easter_monday_date. slot_tac y Hy.
Qed.

Lemma may_day_slot y :
  valid_year y → slot (_ymd2ord y MAY 1) (_ymd2ord y MAY 14) (may_day_log y).
Proof. intros Hy. slot_tac y Hy. Qed.

Lemma spring_bank_holiday_slot y :
  valid_year y →
  slot (_ymd2ord y MAY 25) (_ymd2ord y JUN 4) (spring_bank_holiday_log y).
Proof. intros Hy. slot_tac y Hy. Qed.

Lemma late_summer_bank_holiday_slot y sd :
  valid_year y →
  slot (_ymd2ord y AUG 25) (_ymd2ord y AUG 31) (late_summer_bank_holiday_log y sd).
Proof. intros Hy. slot_tac y Hy. Qed.

Lemma consecutive_after after gs k n :
  consecutive after gs → (k, n) ∈ concat (gs.*2) → after < k.
Proof.
  revert after. induction gs as [|[[lo hi] ws] gs IH]; intros after Hc H; cbn in *.
  { by apply elem_of_nil in H. }
  destruct Hc as (Hlo & Hhi & [Hw _] & Hc).
  apply elem_of_app in H as [H | H].
  - apply Hw in H. lia.
  - apply (IH hi) in H; [lia | done].
Qed.

Lemma consecutive_key_unique after gs k n n' :
  consecutive after gs →
  (k, n) ∈ concat (gs.*2) → (k, n') ∈ concat (gs.*2) → n = n'.
Proof.
  revert after. induction gs as [|[[lo hi] ws] gs IH]; intros after Hc H H'; cbn in *.
  { by apply elem_of_nil in H. }
  destruct Hc as (Hlo & Hhi & [Hw Hu] & Hc).
  apply elem_of_app in H as [H | H]; apply elem_of_app in H' as [H' | H'].
  - by eapply Hu.
  - apply Hw in H. apply (consecutive_after hi) in H'; [lia | done].
  - apply Hw in H'. apply (consecutive_after hi) in H; [lia | done].
  - by eapply IH.
Qed.

Lemma calendar_slots_consecutive y sd obs :
  valid_year y → consecutive (_ymd2ord y JAN 1) (calendar_slots y sd obs).
Proof.
  intros Hy. unfold calendar_slots, consecutive.
  pose proof (new_year_holiday_slot y sd obs Hy).
  pose proof (st_patricks_day_slot y sd obs Hy).
  pose proof (easter_slot y sd Hy).
  pose proof (may_day_slot y Hy).
  pose proof (spring_bank_holiday_slot y Hy).
  pose proof (battle_of_the_boyne_slot y sd Hy).
  pose proof (summer_bank_holiday_slot y sd Hy).
  pose proof (late_summer_bank_holiday_slot y sd Hy).
  pose proof (st_andrews_day_slot y sd Hy).
  pose proof (christmas_slot y obs Hy).
  ymd_cases y.
  repeat (split; [lia | split; [lia | split; [assumption |]]]). exact I.
Qed.

Lemma later_log_calendar y sd obs k n :
  (k, n) ∈ later_log y sd obs ↔ (k, n) ∈ concat (calendar_slots y sd obs).*2.
Proof.
  unfold later_log, country_specific_log, calendar_slots. cbn [fmap list_fmap snd concat].
  rewrite !elem_of_app, elem_of_nil. tauto.
Qed.

(* From the New Year Holiday rule on, no date is assigned twice. *)
Lemma later_log_key_unique y sd obs k n n' :
  valid_year y →
  (k, n) ∈ later_log y sd obs → (k, n') ∈ later_log y sd obs → n = n'.
Proof.
  intros Hy H H'. rewrite later_log_calendar in H, H'.
  eapply consecutive_key_unique; [by apply calendar_slots_consecutive | done..].
Qed.

(* What a later rule assigns is what the dictionary holds in the end. *)
Lemma dict_of_later y sd obs k n :
  valid_year y →
  (k, n) ∈ later_log y sd obs → dict_of (populate_log y sd obs) !! k = Some n.
Proof.
  intros Hy H. rewrite populate_log_later.
  apply dict_of_lookup_last; [done|].
  intros n' H'. by eapply later_log_key_unique.
Qed.

(** *** The rule that a name comes from *)

(* An assignment whose name starts with [base] is none of the special
   occasions, and it is none of the other rules'. *)
Ltac named_tac base :=
  let H := fresh "H" in let Hp := fresh "Hp" in
  intros H Hp; unfold populate_log in H;
  apply elem_of_app in H as [H | H];
  [ exfalso; let mo := fresh in let d := fresh in let Hk := fresh in
    apply special_log_elem in H as (mo & d & H & Hk);
    split_log H; simplify_eq; vm_compute in Hp; discriminate |];
  unfold country_specific_log in H; rewrite !elem_of_app in H;
  destruct_or! H; try assumption;
  exfalso; unfold_logs; split_log H; simplify_eq;
  repeat match type of Hp with
         | context [if ?c then _ else _] => destruct c
         end;
  vm_compute in Hp; discriminate.

Lemma new_year_holiday_named y sd obs k n :
  (k, n) ∈ populate_log y sd obs → String.prefix "New Year Holiday" n = true →
  (k, n) ∈ new_year_holiday_log y sd obs.
Proof. named_tac "New Year Holiday". Qed.

Lemma st_patricks_day_named y sd obs k n :
  (k, n) ∈ populate_log y sd obs → String.prefix "St. Patrick's Day" n = true →
  (k, n) ∈ st_patricks_day_log y sd obs.
Proof. named_tac "St. Patrick's Day". Qed.

Lemma battle_of_the_boyne_named y sd obs k n :
  (k, n) ∈ populate_log y sd obs → String.prefix "Battle of the Boyne" n = true →
  (k, n) ∈ battle_of_the_boyne_log y sd.
Proof. named_tac "Battle of the Boyne". Qed.

Lemma summer_bank_holiday_named y sd obs k n :
  (k, n) ∈ populate_log y sd obs → String.prefix "Summer Bank Holiday" n = true →
  (k, n) ∈ summer_bank_holiday_log y sd.
Proof. named_tac "Summer Bank Holiday". Qed.

Lemma st_andrews_day_named y sd obs k n :
  (k, n) ∈ populate_log y sd obs → String.prefix "St. Andrew's Day" n = true →
  (k, n) ∈ st_andrews_day_log y sd.
Proof. named_tac "St. Andrew's Day". Qed.

Lemma easter_monday_named y sd obs k n :
  (k, n) ∈ populate_log y sd obs → String.prefix "Easter Monday" n = true →
  (k, n) ∈ easter_monday_log y sd.
Proof. named_tac "Easter Monday". Qed.

Lemma late_summer_bank_holiday_named y sd obs k n :
  (k, n) ∈ populate_log y sd obs →
  String.prefix "Late Summer Bank Holiday" n = true →
  (k, n) ∈ late_summer_bank_holiday_log y sd.
Proof. named_tac "Late Summer Bank Holiday". Qed.

(** *** The names for "UK" and for its regions *)

Lemma prefix_append s t : String.prefix s (s +:+ t) = true.
Proof.
  induction s as [|a s IH]; simpl.
  - destruct t; reflexivity.
  - destruct (Ascii.ascii_dec a a); [exact IH | congruence].
Qed.

(* Evaluate the tests on a known subdivision. *)
Ltac eval_guards H :=
  repeat match type of H with
  | context [bool_decide (?s ∈ ?l)] =>
      lazymatch type of s with
      | string =>
          let b := eval vm_compute in (bool_decide (s ∈ l)) in
          change (bool_decide (s ∈ l)) with b in H
      end
  | context [String.eqb ?s ?t] =>
      let b := eval vm_compute in (String.eqb s t) in
      change (String.eqb s t) with b in H
  end; cbv iota in H; cbn [negb andb] in H.

Ltac eval_guards_goal :=
  repeat match goal with
  | |- context [bool_decide (?s ∈ ?l)] =>
      lazymatch type of s with
      | string =>
          let b := eval vm_compute in (bool_decide (s ∈ l)) in
          change (bool_decide (s ∈ l)) with b
      end
  | |- context [String.eqb ?s ?t] =>
      let b := eval vm_compute in (String.eqb s t) in
      change (String.eqb s t) with b
  end; cbv iota; cbn [negb andb].

(* A single-region query has no qualified name. *)
Lemma region_undecorated r obs y k n :
  r ∈ regions → (k, n) ∈ populate_log y r obs → String.index 0 "[" n = None.
Proof.
  intros Hr H. unfold populate_log in H.
  apply elem_of_app in H as [H | H].
  { apply special_log_elem in H as (mo & d & H & Hk).
    split_log H; simplify_eq; reflexivity. }
  unfold regions in Hr. unfold_logs.
  split_log Hr; simplify_eq; eval_guards H; split_log H; simplify_eq; reflexivity.
Qed.

Ltac qualified_tac :=
  let Hr := fresh "Hr" in let Hs := fresh "Hs" in
  intros r sfx k Hr Hs; unfold regions in Hr; unfold_logs;
  split_log Hr; simplify_eq; split_log Hs; simplify_eq; eval_guards_goal;
  repeat match goal with
  | |- context [if ?c then _ else _] => destruct c
  end;
  cbn [String.append];
  rewrite ?elem_of_cons, ?elem_of_nil;
  (split; [split |]); naive_solver.

Lemma new_year_holiday_qualified y obs :
  qualified_rule (λ sd, new_year_holiday_log y sd obs)
    "New Year Holiday" " [Scotland]" ["Scotland"].
Proof. qualified_tac. Qed.

Lemma st_patricks_day_qualified y obs :
  qualified_rule (λ sd, st_patricks_day_log y sd obs)
    "St. Patrick's Day" " [Northern Ireland]" ["Northern Ireland"].
Proof. qualified_tac. Qed.

Lemma battle_of_the_boyne_qualified y :
  qualified_rule (λ sd, battle_of_the_boyne_log y sd)
    "Battle of the Boyne" " [Northern Ireland]" ["Northern Ireland"].
Proof. qualified_tac. Qed.

Lemma summer_bank_holiday_qualified y :
  qualified_rule (λ sd, summer_bank_holiday_log y sd)
    "Summer Bank Holiday" " [Scotland]" ["Scotland"].
Proof. qualified_tac. Qed.

Lemma st_andrews_day_qualified y :
  qualified_rule (λ sd, st_andrews_day_log y sd)
    "St. Andrew's Day" " [Scotland]" ["Scotland"].
Proof. qualified_tac. Qed.

Lemma easter_monday_qualified y :
  qualified_rule (λ sd, easter_monday_log y sd)
    "Easter Monday" " [England/Wales/Northern Ireland]"
    ["England"; "Wales"; "Northern Ireland"].
Proof. qualified_tac. Qed.

Lemma late_summer_bank_holiday_qualified y :
  qualified_rule (λ sd, late_summer_bank_holiday_log y sd)
    "Late Summer Bank Holiday" " [England/Wales/Northern Ireland]"
    ["England"; "Wales"; "Northern Ireland"].
Proof. qualified_tac. Qed.

Lemma qualified_rule_dicts y obs (log : string → list (Z * string)) base q rs :
  valid_year y →
  qualified_rule log base q rs →
  (∀ sd k n, (k, n) ∈ populate_log y sd obs → String.prefix base n = true →
             (k, n) ∈ log sd) →
  (∀ sd k n, (k, n) ∈ log sd → (k, n) ∈ later_log y sd obs) →
  ∀ sfx, sfx ∈ [""; " (Observed)"] →
    (∀ k, dict_of (populate_log y "UK" obs) !! k ≠ Some (base +:+ sfx)) ∧
    ∀ r, r ∈ regions →
      (r ∈ rs →
         ∀ k, dict_of (populate_log y r obs) !! k = Some (base +:+ sfx) ↔
              dict_of (populate_log y "UK" obs) !! k = Some (base +:+ q +:+ sfx)) ∧
      (r ∉ rs → ∀ k, dict_of (populate_log y r obs) !! k ≠ Some (base +:+ sfx)).
Proof.
  intros Hy Hq Hnamed Hlater sfx Hsfx. split.
  - intros k H. apply dict_of_lookup_Some, Hnamed in H; [|apply prefix_append].
    assert (Hr : "England" ∈ regions) by (unfold regions; set_solver).
    by destruct (Hq "England" sfx k Hr Hsfx) as [_ Hn].
  - intros r Hr. split.
    + intros Hrs k. destruct (Hq r sfx k Hr Hsfx) as [Hiff _]. split.
      * intros H. apply dict_of_lookup_Some, Hnamed in H; [|apply prefix_append].
        apply Hiff in H as [_ H]. by apply dict_of_later, Hlater.
      * intros H. apply dict_of_lookup_Some, Hnamed in H; [|apply prefix_append].
        apply dict_of_later; [done|]. apply Hlater, Hiff. by split.
    + intros Hrs k H. apply dict_of_lookup_Some, Hnamed in H; [|apply prefix_append].
      destruct (Hq r sfx k Hr Hsfx) as [Hiff _]. apply Hiff in H as [H _]. done.
Qed.

(** *** The dates for "UK" and for its regions *)

Ltac same_keys_tac :=
  let Hr := fresh "Hr" in
  intros r Hr; unfold regions in Hr; unfold_logs;
  split_log Hr; simplify_eq; eval_guards_goal;
  repeat match goal with
  | |- context [if ?c then _ else _] => destruct c
  end; reflexivity.

Lemma new_year_holiday_keys y obs :
  same_keys (λ sd, new_year_holiday_log y sd obs) ["Scotland"].
Proof. same_keys_tac. Qed.
Lemma st_patricks_day_keys y obs :
  same_keys (λ sd, st_patricks_day_log y sd obs) ["Northern Ireland"].
Proof. same_keys_tac. Qed.
Lemma battle_of_the_boyne_keys y :
  same_keys (λ sd, battle_of_the_boyne_log y sd) ["Northern Ireland"].
Proof. same_keys_tac. Qed.
Lemma summer_bank_holiday_keys y :
  same_keys (λ sd, summer_bank_holiday_log y sd) ["Scotland"].
Proof. same_keys_tac. Qed.
Lemma st_andrews_day_keys y :
  same_keys (λ sd, st_andrews_day_log y sd) ["Scotland"].
Proof. same_keys_tac. Qed.
Lemma easter_monday_keys y :
  same_keys (λ sd, easter_monday_log y sd) ["England"; "Wales"; "Northern Ireland"].
Proof. same_keys_tac. Qed.
Lemma late_summer_bank_holiday_keys y :
  same_keys (λ sd, late_summer_bank_holiday_log y sd)
    ["England"; "Wales"; "Northern Ireland"].
Proof. same_keys_tac. Qed.

Lemma populate_log_keys y r obs :
  r ∈ regions →
  (list_to_set (populate_log y r obs).*1 : gset Z) =
  list_to_set (special_log y).*1 ∪ list_to_set (new_years_day_log y obs).*1 ∪
  list_to_set (christmas_day_log y obs).*1 ∪ list_to_set (good_friday_log y).*1 ∪
  list_to_set (may_day_log y).*1 ∪ list_to_set (spring_bank_holiday_log y).*1 ∪
  list_to_set (boxing_day_log y obs).*1 ∪
  (if bool_decide (r = "Scotland")
   then list_to_set (new_year_holiday_log y "UK" obs).*1 ∪
        list_to_set (summer_bank_holiday_log y "UK").*1 ∪
        list_to_set (st_andrews_day_log y "UK").*1
   else list_to_set (easter_monday_log y "UK").*1 ∪
        list_to_set (late_summer_bank_holiday_log y "UK").*1) ∪
  (if bool_decide (r = "Northern Ireland")
   then list_to_set (st_patricks_day_log y "UK" obs).*1 ∪
        list_to_set (battle_of_the_boyne_log y "UK").*1
   else ∅).
Proof.
  intros Hr. unfold populate_log, country_specific_log.
  rewrite !fmap_app, !list_to_set_app_L.
  rewrite (new_year_holiday_keys y obs r Hr), (st_patricks_day_keys y obs r Hr),
    (battle_of_the_boyne_keys y r Hr), (summer_bank_holiday_keys y r Hr),
    (st_andrews_day_keys y r Hr), (easter_monday_keys y r Hr),
    (late_summer_bank_holiday_keys y r Hr).
  unfold regions in Hr.
  split_log Hr; simplify_eq; eval_guards_goal;
    repeat match goal with
    | |- context [bool_decide (?a = ?b)] =>
        let v := eval vm_compute in (bool_decide (a = b)) in
        change (bool_decide (a = b)) with v
    end; cbv iota; rewrite ?list_to_set_nil;
    apply set_eq; intros k; rewrite !elem_of_union, ?elem_of_empty; tauto.
Qed.

Lemma subdivision_dates y obs :
  dom (dict_of (populate_log y "UK" obs)) =
  dom (dict_of (populate_log y "England" obs)) ∪
  dom (dict_of (populate_log y "Northern Ireland" obs)) ∪
  dom (dict_of (populate_log y "Scotland" obs)) ∪
  dom (dict_of (populate_log y "Wales" obs)).
Proof.
  rewrite !dict_of_dom.
  rewrite (populate_log_keys y "England"), (populate_log_keys y "Northern Ireland"),
    (populate_log_keys y "Scotland"), (populate_log_keys y "Wales")
    by (unfold regions; set_solver).
  repeat match goal with
    | |- context [bool_decide (?a = ?b)] =>
        let v := eval vm_compute in (bool_decide (a = b)) in
        change (bool_decide (a = b)) with v
    end; cbv iota.
  unfold populate_log, country_specific_log.
  rewrite !fmap_app, !list_to_set_app_L.
  apply set_eq; intros k; rewrite !elem_of_union, ?elem_of_empty; tauto.
Qed.

(* The rules that run after the New Year's Day rule. *)
Ltac in_later :=
  intros; unfold later_log, country_specific_log; rewrite !elem_of_app; tauto.

(* For "UK", the names with a bracket are those of the guarded rules. *)
Lemma uk_qualified y obs k n :
  (k, n) ∈ populate_log y "UK" obs →
  String.index 0 "[" n = None ∨ n ∈ qualified_names.
Proof.
  intros H. unfold populate_log in H.
  apply elem_of_app in H as [H | H].
  { apply special_log_elem in H as (mo & d & H & Hk).
    split_log H; simplify_eq; left; reflexivity. }
  unfold_logs. eval_guards H.
  split_log H; simplify_eq;
    first [ left; reflexivity
          | right; apply (bool_decide_unpack _); vm_compute; exact I ].
Qed.

Lemma restricted_dicts y obs base q rs sfx :
  valid_year y →
  (base, q, rs) ∈ restricted_holidays → sfx ∈ [""; " (Observed)"] →
  (∀ k, dict_of (populate_log y "UK" obs) !! k ≠ Some (base +:+ sfx)) ∧
  ∀ r, r ∈ regions →
    (r ∈ rs →
       ∀ k, dict_of (populate_log y r obs) !! k = Some (base +:+ sfx) ↔
            dict_of (populate_log y "UK" obs) !! k = Some (base +:+ q +:+ sfx)) ∧
    (r ∉ rs → ∀ k, dict_of (populate_log y r obs) !! k ≠ Some (base +:+ sfx)).
Proof.
  intros Hy Hin Hsfx. unfold restricted_holidays in Hin.
  repeat (apply elem_of_cons in Hin as [Hin | Hin]; [injection Hin as -> -> -> |]).
  - apply (qualified_rule_dicts y obs (λ sd, new_year_holiday_log y sd obs));
      [done | apply new_year_holiday_qualified | | in_later | done].
    intros sd k n. apply new_year_holiday_named.
  - apply (qualified_rule_dicts y obs (λ sd, st_patricks_day_log y sd obs));
      [done | apply st_patricks_day_qualified | | in_later | done].
    intros sd k n. apply st_patricks_day_named.
  - apply (qualified_rule_dicts y obs (λ sd, battle_of_the_boyne_log y sd));
      [done | apply battle_of_the_boyne_qualified | | in_later | done].
    intros sd k n. apply battle_of_the_boyne_named.
  - apply (qualified_rule_dicts y obs (λ sd, summer_bank_holiday_log y sd));
      [done | apply summer_bank_holiday_qualified | | in_later | done].
    intros sd k n. apply summer_bank_holiday_named.
  - apply (qualified_rule_dicts y obs (λ sd, st_andrews_day_log y sd));
      [done | apply st_andrews_day_qualified | | in_later | done].
    intros sd k n. apply st_andrews_day_named.
  - apply (qualified_rule_dicts y obs (λ sd, easter_monday_log y sd));
      [done | apply easter_monday_qualified | | in_later | done].
    intros sd k n. apply easter_monday_named.
  - apply (qualified_rule_dicts y obs (λ sd, late_summer_bank_holiday_log y sd));
      [done | apply late_summer_bank_holiday_qualified | | in_later | done].
    intros sd k n. apply late_summer_bank_holiday_named.
  - by apply elem_of_nil in Hin.
Qed.

Lemma new_years_day_named y sd obs k n :
  (k, n) ∈ populate_log y sd obs → String.prefix "New Year's Day" n = true →
  (k, n) ∈ new_years_day_log y obs.
Proof. named_tac "New Year's Day". Qed.

Lemma good_friday_named y sd obs k n :
  (k, n) ∈ populate_log y sd obs → String.prefix "Good Friday" n = true →
  (k, n) ∈ good_friday_log y.
Proof. named_tac "Good Friday". Qed.

Lemma may_day_named y sd obs k n :
  (k, n) ∈ populate_log y sd obs → String.prefix "May Day" n = true →
  (k, n) ∈ may_day_log y.
Proof. named_tac "May Day". Qed.

Lemma spring_bank_holiday_named y sd obs k n :
  (k, n) ∈ populate_log y sd obs → String.prefix "Spring Bank Holiday" n = true →
  (k, n) ∈ spring_bank_holiday_log y.
Proof. named_tac "Spring Bank Holiday". Qed.

(* The entries of the dictionary that bear the names of a later rule are
   the assignments of that rule. *)
Lemma dict_of_rule y sd obs (log : list (Z * string)) base :
  valid_year y →
  (∀ k n, (k, n) ∈ populate_log y sd obs → String.prefix base n = true →
          (k, n) ∈ log) →
  (∀ k n, (k, n) ∈ log → (k, n) ∈ later_log y sd obs) →
  ∀ k n, String.prefix base n = true →
    dict_of (populate_log y sd obs) !! k = Some n ↔ (k, n) ∈ log.
Proof.
  intros Hy Hnamed Hlater k n Hp. split.
  - intros H. apply dict_of_lookup_Some in H. by apply Hnamed.
  - intros H. by apply dict_of_later, Hlater.
Qed.

(* Two days of the same week day less than a week apart are the same day. *)
Lemma weekday_inj a b : weekday a = weekday b → -7 < a - b < 7 → a = b.
Proof. unfold weekday. intros H Hr. Z.div_mod_to_equations. lia. Qed.

(* Up to 1 January the later rules assign nothing. *)
Lemma dict_of_earlier y sd obs k :
  valid_year y → k ≤ _ymd2ord y JAN 1 →
  dict_of (populate_log y sd obs) !! k
  = dict_of (special_log y ++ new_years_day_log y obs) !! k.
Proof.
  intros Hy Hk. rewrite populate_log_later. unfold dict_of. rewrite foldl_app.
  apply foldl_insert_lookup_None. intros Hin.
  apply list_elem_of_fmap in Hin as ([k' n] & -> & Hin). cbn in Hk.
  apply later_log_calendar in Hin.
  apply (consecutive_after (_ymd2ord y JAN 1)) in Hin;
    [lia | by apply calendar_slots_consecutive].
Qed.

(** *** The special occasions *)

Lemma special_names_elem y l mo d name :
  special_holidays !! y = Some l → (mo, d, name) ∈ l → name ∈ special_names.
Proof.
  intros E Hin. unfold special_names.
  apply list_elem_of_fmap. exists (mo, d, name). split; [done|].
  apply list_elem_of_join. exists l. split; [done|].
  apply list_elem_of_fmap. exists (y, l). split; [done|].
  by apply elem_of_map_to_list.
Qed.

(* No rule uses the name of a special occasion, with or without the mark
   of an observed day. *)
Lemma rule_names y sd obs k n :
  (k, n) ∈ populate_log y sd obs →
  (k, n) ∈ special_log y ∨
  ((n ∉ special_names) ∧
   (n ∉ ((λ name, name +:+ " (Observed)") <$> special_names))).
Proof.
  intros H. unfold populate_log in H.
  apply elem_of_app in H as [H | H]; [by left | right].
  unfold_logs. split_log H; simplify_eq;
    repeat match goal with
           | |- context [if ?c then _ else _] => destruct c
           end;
    split; apply (bool_decide_unpack _); vm_compute; exact I.
Qed.

Lemma special_names_plain n :
  n ∈ special_names → n ∉ ((λ name, name +:+ " (Observed)") <$> special_names).
Proof.
  intros H.
  let l := eval vm_compute in special_names in change special_names with l in H.
  split_log H; simplify_eq; apply (bool_decide_unpack _); vm_compute; exact I.
Qed.

Lemma special_holidays_elem y l :
  special_holidays !! y = Some l →
  (y, l) ∈
    [ (1977, [(JUN, 7, "Silver Jubilee of Elizabeth II")]);
      (1981, [(JUL, 29, "Wedding of Charles and Diana")]);
      (1999, [(DEC, 31, "Millennium Celebrations")]);
      (2002, [(JUN, 3, "Golden Jubilee of Elizabeth II")]);
      (2011, [(APR, 29, "Wedding of William and Catherine")]);
      (2012, [(JUN, 5, "Diamond Jubilee of Elizabeth II")]);
      (2022, [(JUN, 3, "Platinum Jubilee of Elizabeth II");
              (SEP, 19, "State Funeral of Queen Elizabeth II")]) ].
Proof. apply elem_of_list_to_map_2. Qed.

(** ** Outside the years of [datetime.date]

    [_populate] returns in the years 1 to 9999 and in no other: outside
    them the first date that it constructs raises, at the latest that of
    Christmas Day, which no test guards: ValueError when the year is a C int
    and OverflowError when it is not. *)

Lemma date_raises y m d s :
  ¬ valid_year y → fits_int m && fits_int d = true →
  date y m d s = Raises (year_error y).
Proof.
  intros Hy Hmd. unfold date, year_error, _check_date_fields.
  rewrite <- andb_assoc, Hmd, andb_true_r.
  destruct (fits_int y); [|done].
  destruct (Z.leb_spec MINYEAR y), (Z.leb_spec y MAXYEAR); try done.
  exfalso. by apply Hy.
Qed.

Lemma special_holidays_valid y l : special_holidays !! y = Some l → valid_year y.
Proof.
  intros E. apply special_holidays_elem in E.
  unfold valid_year, MINYEAR, MAXYEAR. split_log E; simplify_eq; lia.
Qed.

Lemma seq_raises (c1 c2 : M unit) s e :
  c1 s = Raises e ∨ c1 s = Returns tt s → c2 s = Raises e → (c1;; c2) s = Raises e.
Proof. intros [H1 | H1] H2; unfold mbind, M_bind; by rewrite H1. Qed.

(* A rule whose guard fails does nothing; one whose guard passes raises at
   its first date. *)
Ltac skip_or_raise Hy :=
  unfold_rule; unfold mbind, M_bind, mret, M_ret;
  repeat match goal with
  | |- context [if ?c then _ else _] => destruct c
  end;
  rewrite ?date_raises by first [exact Hy | reflexivity]; auto.

Lemma HolidayBase_populate_skips y s :
  ¬ valid_year y → HolidayBase_populate y s = Returns tt s.
Proof.
  intros Hy. unfold HolidayBase_populate.
  destruct (special_holidays !! y) as [l|] eqn:E; [|done].
  by apply special_holidays_valid in E.
Qed.

Lemma new_years_day_raises y s :
  ¬ valid_year y →
  new_years_day y s = Raises (year_error y) ∨ new_years_day y s = Returns tt s.
Proof. intros Hy. unfold new_years_day. skip_or_raise Hy. Qed.

Lemma new_year_holiday_raises y s :
  ¬ valid_year y →
  new_year_holiday y s = Raises (year_error y)
  ∨ new_year_holiday y s = Returns tt s.
Proof. intros Hy. unfold new_year_holiday. skip_or_raise Hy. Qed.

Lemma st_patricks_day_raises y s :
  ¬ valid_year y →
  st_patricks_day y s = Raises (year_error y) ∨ st_patricks_day y s = Returns tt s.
Proof. intros Hy. unfold st_patricks_day. skip_or_raise Hy. Qed.

Lemma battle_of_the_boyne_raises y s :
  ¬ valid_year y →
  battle_of_the_boyne y s = Raises (year_error y)
  ∨ battle_of_the_boyne y s = Returns tt s.
Proof. intros Hy. unfold battle_of_the_boyne. skip_or_raise Hy. Qed.

Lemma summer_bank_holiday_raises y s :
  ¬ valid_year y →
  summer_bank_holiday y s = Raises (year_error y)
  ∨ summer_bank_holiday y s = Returns tt s.
Proof. intros Hy. unfold summer_bank_holiday, plus. skip_or_raise Hy. Qed.

Lemma st_andrews_day_raises y s :
  ¬ valid_year y →
  st_andrews_day y s = Raises (year_error y) ∨ st_andrews_day y s = Returns tt s.
Proof. intros Hy. unfold st_andrews_day. skip_or_raise Hy. Qed.

Lemma christmas_day_raises y s :
  ¬ valid_year y → christmas_day y s = Raises (year_error y).
Proof.
  intros Hy. unfold christmas_day. unfold_rule. unfold mbind, M_bind.
  by rewrite date_raises.
Qed.

Section Domain.

Context (hook : Z → M unit).

Lemma populate_raises y s :
  ¬ valid_year y → _populate hook y s = Raises (year_error y).
Proof.
  intros Hy. unfold _populate.
  apply seq_raises; [right; by apply HolidayBase_populate_skips|].
  apply seq_raises; [by apply new_years_day_raises|].
  apply seq_raises; [by apply new_year_holiday_raises|].
  apply seq_raises; [by apply st_patricks_day_raises|].
  apply seq_raises; [by apply battle_of_the_boyne_raises|].
  apply seq_raises; [by apply summer_bank_holiday_raises|].
  apply seq_raises; [by apply st_andrews_day_raises|].
  unfold mbind, M_bind. by rewrite christmas_day_raises.
Qed.

Lemma holiday_map_None sd obs y :
  ¬ valid_year y → holiday_map hook sd obs y = None.
Proof. intros Hy. unfold holiday_map, holidays. by rewrite populate_raises. Qed.

End Domain.

(** ** The first days of January

    The one date that two rules assign: when 1 January is a Sunday, 2 January
    is the observed day of New Year's Day and also the New Year Holiday of
    "UK" and "Scotland", whose rule runs later. *)

Lemma consecutive_head after lo hi ws gs k n :
  consecutive after ((lo, hi, ws) :: gs) →
  (k, n) ∈ concat (((lo, hi, ws) :: gs).*2) → (k, n) ∈ ws ∨ hi < k.
Proof.
  intros (_ & _ & _ & Hc) H. cbn in H.
  apply elem_of_app in H as [H | H]; [by left | right].
  by eapply consecutive_after.
Qed.

Lemma later_log_after y sd obs k n :
  valid_year y → (k, n) ∈ later_log y sd obs →
  (k, n) ∈ new_year_holiday_log y sd obs ∨ _ymd2ord y JAN 4 < k.
Proof.
  intros Hy H. apply later_log_calendar in H.
  exact (consecutive_head _ _ _ _ _ k n (calendar_slots_consecutive y sd obs Hy) H).
Qed.

(** The observed day of New Year's Day in the dictionary: on 3 January when
    1 January is a Saturday; on 2 January when it is a Sunday, unless the
    subdivision is "UK" or "Scotland", for which the New Year Holiday takes
    the place of the entry that the New Year's Day rule has assigned. *)
Lemma observed_new_years_day_dict sd y k :
  valid_year y → 1974 ≤ y →
  let jan1 := _ymd2ord y JAN 1 in
  dict_of (populate_log y sd true) !! k = Some "New Year's Day (Observed)" ↔
    (weekday jan1 = SAT ∧ k = _ymd2ord y JAN 3) ∨
    (weekday jan1 = SUN ∧ k = _ymd2ord y JAN 2 ∧ sd ∉ ["UK"; "Scotland"]).
Proof.
  intros Hy H74 jan1.
  assert (E2 : _ymd2ord y JAN 2 = jan1 + 1) by (subst jan1; ymd_unfold; lia).
  assert (E3 : _ymd2ord y JAN 3 = jan1 + 2) by (subst jan1; ymd_unfold; lia).
  assert (E4 : _ymd2ord y JAN 4 = jan1 + 3) by (subst jan1; ymd_unfold; lia).
  assert (Hlog : new_years_day_log y true =
            (jan1, "New Year's Day") ::
            (if weekday jan1 =? SUN then [(jan1 + 1, "New Year's Day (Observed)")]
             else if weekday jan1 =? SAT then [(jan1 + 2, "New Year's Day (Observed)")]
             else [])).
  { unfold new_years_day_log. by rewrite (proj2 (Z.leb_le _ _) H74). }
  split.
  - intros H. pose proof H as Hin. apply dict_of_lookup_Some in Hin.
    apply new_years_day_named in Hin; [|done]. rewrite Hlog in Hin.
    split_log Hin; simplify_eq; prop_of_bool.
    + right. split; [done|]. split; [done|]. intros Hsd.
      assert (Hnyh : ∃ n, (jan1 + 1, n) ∈ new_year_holiday_log y sd true
                          ∧ n ≠ "New Year's Day (Observed)").
      { unfold new_year_holiday_log. rewrite bool_decide_eq_true_2 by done.
        cbv zeta. rewrite E2. eexists. split; [apply list_elem_of_here|].
        by destruct (String.eqb sd "UK"). }
      destruct Hnyh as (n & Hn & Hne). apply Hne.
      assert (Hl : (jan1 + 1, n) ∈ later_log y sd true)
        by (unfold later_log; rewrite !elem_of_app; tauto).
      apply (dict_of_later y sd true _ _ Hy) in Hl. congruence.
    + left. by rewrite E3.
  - intros Hk. rewrite populate_log_later. unfold dict_of. rewrite foldl_app.
    rewrite foldl_insert_lookup_None.
    + apply (dict_of_lookup_last (special_log y)).
      * rewrite Hlog.
        destruct Hk as [[Hw ->] | (Hw & -> & _)]; rewrite Hw; cbn;
          rewrite ?E2, ?E3; set_solver.
      * intros n' Hn'. rewrite Hlog in Hn'.
        destruct Hk as [[Hw ->] | (Hw & -> & _)]; rewrite Hw in Hn'; cbn in Hn';
          split_log Hn'; simplify_eq; try done; lia.
    + intros Hin. apply list_elem_of_fmap in Hin as ([k' n] & -> & Hin). cbn in Hk.
      apply later_log_after in Hin as [Hin | Hin]; [| | done].
      * unfold new_year_holiday_log in Hin.
        destruct Hk as [[Hw ->] | (Hw & -> & Hsd)].
        -- assert (Hw2 : weekday (_ymd2ord y JAN 2) = SUN)
             by (rewrite E2, weekday_shift, Hw; reflexivity).
           cbv zeta in Hin. rewrite Hw2, E2 in Hin.
           split_log Hin; simplify_eq; lia.
        -- rewrite bool_decide_eq_false_2 in Hin by done. by apply elem_of_nil in Hin.
      * destruct Hk as [[Hw ->] | (Hw & -> & Hsd)]; lia.
Qed.

(** *** The entries of the guarded rules *)

(* The first of the disjuncts that holds by the head of its list. *)
Ltac pick_head :=
  first [ solve [apply list_elem_of_here]
        | left; solve [apply list_elem_of_here]
        | right; pick_head ].

(* An assignment that a rule makes first, for a subdivision that is known. *)
Ltac assigned_later Hy :=
  apply dict_of_later; [exact Hy|];
  unfold later_log, country_specific_log, new_year_holiday_log,
    st_patricks_day_log, battle_of_the_boyne_log, summer_bank_holiday_log,
    st_andrews_day_log, easter_monday_log, late_summer_bank_holiday_log;
  eval_guards_goal; cbv zeta; rewrite !elem_of_app; pick_head.

(** Each rule that is guarded by the subdivision has its entry: for "UK"
    with the suffix, and on the same date with the bare name for the regions
    that pass the guard. *)
Lemma restricted_present y obs base q rs :
  valid_year y → (base, q, rs) ∈ restricted_holidays →
  (base = "Late Summer Bank Holiday" → 1971 ≤ y) →
  ∃ k, dict_of (populate_log y "UK" obs) !! k = Some (base +:+ q) ∧
       ∀ r, r ∈ rs → dict_of (populate_log y r obs) !! k = Some base.
Proof.
  intros Hy Hin H71. unfold restricted_holidays in Hin.
  repeat (apply elem_of_cons in Hin as [Hin | Hin]; [injection Hin as -> -> -> |]);
    [ exists (_ymd2ord y JAN 2) | exists (_ymd2ord y MAR 17)
    | exists (_ymd2ord y JUL 12) | exists (next_on MON (_ymd2ord y AUG 1))
    | exists (_ymd2ord y NOV 30) | exists (next_on MON (easter_ordinal y))
    | exists (last_on MON (_ymd2ord y AUG 31)) | by apply elem_of_nil in Hin ].
  all: try (specialize (H71 eq_refl); apply Z.leb_le in H71).
  all: split; [| intros r Hr; split_log Hr; simplify_eq ].
  all: try (assigned_later Hy).
  all: apply dict_of_later; [exact Hy|];
    unfold later_log, country_specific_log, late_summer_bank_holiday_log;
    eval_guards_goal; rewrite H71; cbv zeta iota; rewrite !elem_of_app; pick_head.
Qed.

(** ** Properties of the calendar *)

(* The substitute day of the New Year Holiday in the dictionary. *)
Lemma new_year_substitute_dict sd y k :
  valid_year y → sd ∈ ["UK"; "Scotland"] →
  let jan2 := _ymd2ord y JAN 2 in
  let name := if String.eqb sd "UK" then "New Year Holiday [Scotland]"
              else "New Year Holiday" in
  dict_of (populate_log y sd true) !! k = Some (name +:+ " (Observed)") ↔
  ((weekday jan2 = SAT ∨ weekday jan2 = SUN) ∧ k = _ymd2ord y JAN 4) ∨
  (weekday jan2 = MON ∧ k = _ymd2ord y JAN 3).
Proof.
  intros Hy Hsd jan2 name.
  rewrite (dict_of_rule y sd true (new_year_holiday_log y sd true) "New Year Holiday");
    [ | done | intros ? ?; apply new_year_holiday_named | in_later
      | subst name; by destruct (String.eqb sd "UK") ].
  unfold new_year_holiday_log. rewrite bool_decide_eq_true_2 by done.
  cbv zeta. fold jan2. cbn [andb].
  assert (jan2 + 2 = _ymd2ord y JAN 4) as -> by (subst jan2; ymd_unfold; lia).
  assert (jan2 + 1 = _ymd2ord y JAN 3) as -> by (subst jan2; ymd_unfold; lia).
  assert (Hne : _ymd2ord y JAN 4 ≠ jan2 ∧ _ymd2ord y JAN 3 ≠ jan2)
    by (subst jan2; ymd_unfold; lia).
  pose proof (weekday_range jan2) as Hw.
  unfold WEEKEND, SAT, SUN, MON in *.
  subst name. destruct (String.eqb sd "UK"); cbn [String.append];
    case_bool_decide as Hwe; rewrite ?elem_of_cons, ?elem_of_nil in Hwe;
    [ | destruct (Z.eqb_spec (weekday jan2) 0) | | destruct (Z.eqb_spec (weekday jan2) 0) ];
    rewrite ?elem_of_cons, ?elem_of_nil; naive_solver lia.
Qed.

(* What the New Year's Day rule assigns. *)
Lemma new_years_day_assigns y s :
  valid_year y → 1974 ≤ y → observed s = true →
  let jan1 := _ymd2ord y JAN 1 in
  (weekday jan1 = SAT →
     new_years_day y s
     = Returns tt (puts [(jan1, "New Year's Day");
                         (_ymd2ord y JAN 3, "New Year's Day (Observed)")] s)) ∧
  (weekday jan1 = SUN →
     new_years_day y s
     = Returns tt (puts [(jan1, "New Year's Day");
                         (_ymd2ord y JAN 2, "New Year's Day (Observed)")] s)) ∧
  (weekday jan1 ≠ SAT → weekday jan1 ≠ SUN →
     new_years_day y s = Returns tt (puts [(jan1, "New Year's Day")] s)).
Proof.
  intros Hy H74 Hobs jan1.
  rewrite new_years_day_puts by done. rewrite Hobs.
  unfold new_years_day_log. rewrite (proj2 (Z.leb_le _ _) H74).
  cbv zeta. fold jan1. cbn [andb].
  assert (_ymd2ord y JAN 2 = jan1 + 1) as -> by (subst jan1; ymd_unfold; lia).
  assert (_ymd2ord y JAN 3 = jan1 + 2) as -> by (subst jan1; ymd_unfold; lia).
  repeat split.
  - intros H. rewrite H. reflexivity.
  - intros H. rewrite H. reflexivity.
  - intros Hsat Hsun.
    rewrite (proj2 (Z.eqb_neq _ _) Hsat), (proj2 (Z.eqb_neq _ _) Hsun). reflexivity.
Qed.

(** C3, as amended. In a year from 1974 on and with [observed] set, the
    dictionary that [_populate] returns has New Year's Day on 1 January, and:
    when 1 January is a Saturday, exactly one "New Year's Day (Observed)", on
    3 January, two days later; when it is a Sunday, the rule assigns the
    observed day to 2 January, one day later, and the dictionary has it
    there, and there only, for every subdivision but "UK" and "Scotland":
    for these two the New Year Holiday, whose rule runs later, is on
    2 January and the dictionary has no observed New Year's Day; when
    1 January is a week day the dictionary has none. In each case the rule
    assigns 1 January and at most one more date. *)
Theorem new_years_day_observed (hook : Z → M unit) sd y :
  valid_year y → 1974 ≤ y → sd ∈ subdivisions →
  let jan1 := _ymd2ord y JAN 1 in
  let observed_name := "New Year's Day (Observed)" in
  ∃ m, holiday_map hook sd true y = Some m ∧
    m !! jan1 = Some "New Year's Day" ∧
    (weekday jan1 = SAT →
       _ymd2ord y JAN 3 = jan1 + 2 ∧
       ∀ k, m !! k = Some observed_name ↔ k = _ymd2ord y JAN 3) ∧
    (weekday jan1 = SUN → sd ∉ ["UK"; "Scotland"] →
       _ymd2ord y JAN 2 = jan1 + 1 ∧
       ∀ k, m !! k = Some observed_name ↔ k = _ymd2ord y JAN 2) ∧
    (weekday jan1 = SUN → sd ∈ ["UK"; "Scotland"] →
       m !! _ymd2ord y JAN 2
       = Some (if String.eqb sd "UK" then "New Year Holiday [Scotland]"
               else "New Year Holiday") ∧
       ∀ k, m !! k ≠ Some observed_name) ∧
    (weekday jan1 ≠ SAT → weekday jan1 ≠ SUN → ∀ k, m !! k ≠ Some observed_name) ∧
    ∀ s, observed s = true →
      (weekday jan1 = SAT →
         new_years_day y s
         = Returns tt (puts [(jan1, "New Year's Day");
                             (_ymd2ord y JAN 3, observed_name)] s)) ∧
      (weekday jan1 = SUN →
         new_years_day y s
         = Returns tt (puts [(jan1, "New Year's Day");
                             (_ymd2ord y JAN 2, observed_name)] s)) ∧
      (weekday jan1 ≠ SAT → weekday jan1 ≠ SUN →
         new_years_day y s = Returns tt (puts [(jan1, "New Year's Day")] s)).
Proof.
  intros Hy H74 Hsd jan1 observed_name.
  eexists. split; [by apply holiday_map_log|].
  pose proof (observed_new_years_day_dict sd y) as Hdict.
  cbv zeta in Hdict. fold jan1 observed_name in Hdict.
  split; [|split; [|split; [|split; [|split]]]].
  - rewrite dict_of_earlier by (done || subst jan1; lia).
    apply dict_of_lookup_last.
    + unfold new_years_day_log. rewrite (proj2 (Z.leb_le _ _) H74). set_solver.
    + intros n' H. unfold_logs. split_log H; simplify_eq; try done; lia.
  - intros Hsat. split; [subst jan1; ymd_unfold; lia|].
    intros k. rewrite Hdict by done. split.
    + intros [[_ ->] | (Hsun & _)]; [done|]. rewrite Hsun in Hsat. discriminate.
    + intros ->. by left.
  - intros Hsun Hnot. split; [subst jan1; ymd_unfold; lia|].
    intros k. rewrite Hdict by done. split.
    + intros [[Hsat _] | (_ & -> & _)]; [|done]. rewrite Hsun in Hsat. discriminate.
    + intros ->. by right.
  - intros Hsun Hin. split.
    + apply dict_of_later; [done|].
      unfold later_log. apply elem_of_app. left.
      unfold new_year_holiday_log. rewrite bool_decide_eq_true_2 by done.
      cbv zeta. destruct (String.eqb sd "UK"); apply list_elem_of_here.
    + intros k H. apply Hdict in H as [[Hsat _] | (_ & _ & Hnot)]; [|done..].
      rewrite Hsun in Hsat. discriminate.
  - intros Hsat Hsun k H. apply Hdict in H as [[? _] | (? & _)]; done.
  - intros s Hobs. by apply new_years_day_assigns.
Qed.

Section Properties.

Context (hook : Z → M unit).

(** C1. The holidays of 2022 for "UK" with [observed] set include the
    Platinum Jubilee on 3 June, the State Funeral on 19 September, the
    Spring Bank Holiday on 2 June, New Year's Day on 1 January, which is a
    Saturday, and "New Year's Day (Observed)" on 3 January. *)
Theorem uk_2022 :
  ∃ m, holiday_map hook "UK" true 2022 = Some m ∧
    m !! _ymd2ord 2022 JUN 3 = Some "Platinum Jubilee of Elizabeth II" ∧
    m !! _ymd2ord 2022 SEP 19 = Some "State Funeral of Queen Elizabeth II" ∧
    m !! _ymd2ord 2022 JUN 2 = Some "Spring Bank Holiday" ∧
    m !! _ymd2ord 2022 JAN 1 = Some "New Year's Day" ∧
    weekday (_ymd2ord 2022 JAN 1) = SAT ∧
    m !! _ymd2ord 2022 JAN 3 = Some "New Year's Day (Observed)".
Proof.
  exists (dict_of (populate_log 2022 "UK" true)).
  split; [vm_compute; reflexivity|].
  repeat split; vm_compute; reflexivity.
Qed.

(** C2, as amended. For "UK" and "Scotland" with [observed] set, the New Year
    Holiday rule assigns 2 January and then a substitute two days later, on
    4 January, when 2 January is a Saturday or a Sunday, one day later, on
    3 January, when 2 January is a Monday, and no substitute otherwise. The
    substitute is a Monday when 2 January is a Saturday and a Tuesday in the
    two other cases; the dictionary holds it on that day and on no other. *)
Theorem new_year_holiday_substitute sd y s :
  valid_year y → sd ∈ ["UK"; "Scotland"] → subdiv s = sd → observed s = true →
  let jan2 := _ymd2ord y JAN 2 in
  let name := if String.eqb sd "UK" then "New Year Holiday [Scotland]"
              else "New Year Holiday" in
  let substitute := name +:+ " (Observed)" in
  (weekday jan2 = SAT ∨ weekday jan2 = SUN →
     new_year_holiday y s
     = Returns tt (puts [(jan2, name); (_ymd2ord y JAN 4, substitute)] s)) ∧
  (weekday jan2 = MON →
     new_year_holiday y s
     = Returns tt (puts [(jan2, name); (_ymd2ord y JAN 3, substitute)] s)) ∧
  (weekday jan2 ≠ SAT → weekday jan2 ≠ SUN → weekday jan2 ≠ MON →
     new_year_holiday y s = Returns tt (puts [(jan2, name)] s)) ∧
  (weekday jan2 = SAT → weekday (_ymd2ord y JAN 4) = MON) ∧
  (weekday jan2 = SUN → weekday (_ymd2ord y JAN 4) = TUE) ∧
  (weekday jan2 = MON → weekday (_ymd2ord y JAN 3) = TUE) ∧
  ∃ m, holiday_map hook sd true y = Some m ∧
    ∀ k, m !! k = Some substitute ↔
         ((weekday jan2 = SAT ∨ weekday jan2 = SUN) ∧ k = _ymd2ord y JAN 4) ∨
         (weekday jan2 = MON ∧ k = _ymd2ord y JAN 3).
Proof.
  intros Hy Hsd Hs Hobs jan2 name substitute.
  assert (Hsd' : sd ∈ subdivisions) by (unfold subdivisions; set_solver).
  assert (E4 : _ymd2ord y JAN 4 = jan2 + 2) by (subst jan2; ymd_unfold; lia).
  assert (E3 : _ymd2ord y JAN 3 = jan2 + 1) by (subst jan2; ymd_unfold; lia).
  rewrite new_year_holiday_puts by done. rewrite Hs, Hobs.
  unfold new_year_holiday_log. rewrite bool_decide_eq_true_2 by done.
  cbv zeta. fold jan2. cbn [andb]. rewrite E4, E3.
  assert (En : (if String.eqb sd "UK" then "New Year Holiday" +:+ " [Scotland]"
                else "New Year Holiday") = name)
    by (subst name; by destruct (String.eqb sd "UK")).
  rewrite En. fold substitute.
  split; [|split; [|split; [|split; [|split; [|split]]]]].
  - intros Hwe. rewrite bool_decide_eq_true_2; [done|].
    unfold WEEKEND. destruct Hwe as [-> | ->]; set_solver.
  - intros Hmon. rewrite bool_decide_eq_false_2.
    + by rewrite Hmon.
    + rewrite Hmon. unfold WEEKEND, MON, SAT, SUN. set_solver.
  - intros Hsat Hsun Hmon. rewrite bool_decide_eq_false_2.
    + by rewrite (proj2 (Z.eqb_neq _ _) Hmon).
    + unfold WEEKEND. set_solver.
  - intros H. rewrite weekday_shift, H. reflexivity.
  - intros H. rewrite weekday_shift, H. reflexivity.
  - intros H. rewrite weekday_shift, H. reflexivity.
  - eexists. split; [by apply holiday_map_log|]. intros k.
    rewrite <- E4, <- E3. by apply new_year_substitute_dict.
Qed.

(** C4. For every year and either value of [observed], the dates of the
    dictionary for "UK" are those of the dictionaries for "England",
    "Northern Ireland", "Scotland" and "Wales" put together. The names of
    a single region have no bracket. The name of a rule that is guarded by
    the subdivision is held for "UK" with its suffix only, never bare, and on
    the very dates on which a region that passes the guard holds the bare
    name; a region that does not pass the guard does not hold it at all; for
    "UK" no other name has a bracket. Each guarded rule has its entry, the
    Late Summer Bank Holiday from 1971 on: for "UK" with the suffix, and on
    the same date with the bare name for each region that passes the
    guard. *)
Theorem subdivision_union obs y :
  valid_year y →
  ∃ uk en ni sc wa,
    holiday_map hook "UK" obs y = Some uk ∧
    holiday_map hook "England" obs y = Some en ∧
    holiday_map hook "Northern Ireland" obs y = Some ni ∧
    holiday_map hook "Scotland" obs y = Some sc ∧
    holiday_map hook "Wales" obs y = Some wa ∧
    dom uk = dom en ∪ dom ni ∪ dom sc ∪ dom wa ∧
    (∀ base q rs,
       (base, q, rs) ∈ restricted_holidays →
       (base = "Late Summer Bank Holiday" → 1971 ≤ y) →
       ∃ k, uk !! k = Some (base +:+ q) ∧
            ∀ r m, (r, m) ∈ [("England", en); ("Northern Ireland", ni);
                             ("Scotland", sc); ("Wales", wa)] →
                   r ∈ rs → m !! k = Some base) ∧
    (∀ k n, uk !! k = Some n →
       String.index 0 "[" n = None ∨ n ∈ qualified_names) ∧
    ∀ r m, (r, m) ∈ [("England", en); ("Northern Ireland", ni);
                     ("Scotland", sc); ("Wales", wa)] →
      (∀ k n, m !! k = Some n → String.index 0 "[" n = None) ∧
      ∀ base q rs sfx,
        (base, q, rs) ∈ restricted_holidays → sfx ∈ [""; " (Observed)"] →
        (∀ k, uk !! k ≠ Some (base +:+ sfx)) ∧
        (r ∈ rs → ∀ k, m !! k = Some (base +:+ sfx) ↔
                       uk !! k = Some (base +:+ q +:+ sfx)) ∧
        (r ∉ rs → ∀ k, m !! k ≠ Some (base +:+ sfx)).
Proof.
  intros Hy. do 5 eexists.
  repeat (split; [apply holiday_map_log; [done | unfold subdivisions; set_solver] |]).
  split; [apply subdivision_dates|].
  split.
  { intros base q rs Hin H71.
    destruct (restricted_present y obs base q rs Hy Hin H71) as (k & Huk & Hreg).
    exists k. split; [done|]. intros r m Hrm Hr.
    assert (m = dict_of (populate_log y r obs)) as ->
      by (split_log Hrm; simplify_eq; done).
    by apply Hreg. }
  split; [intros k n H; by apply dict_of_lookup_Some, uk_qualified in H|].
  intros r m Hrm.
  assert (Hr : r ∈ regions ∧ m = dict_of (populate_log y r obs)).
  { unfold regions. split_log Hrm; simplify_eq; (split; [set_solver | done]). }
  destruct Hr as [Hr ->]. split.
  - intros k n H. apply dict_of_lookup_Some in H. by eapply region_undecorated.
  - intros base q rs sfx Hin Hsfx.
    destruct (restricted_dicts y obs base q rs sfx Hy Hin Hsfx) as [Huk Hreg].
    split; [done|]. by apply Hreg.
Qed.

(** C5. For every year and every subdivision, each special occasion declared
    for the year is in the dictionary, on its date and under its name; the
    names of the special occasions of the other years are not in it, and no
    special occasion has an observed day. *)
Theorem special_occasions sd obs y :
  valid_year y → sd ∈ subdivisions →
  ∃ m, holiday_map hook sd obs y = Some m ∧
    (∀ month day name,
       (month, day, name) ∈ default [] (special_holidays !! y) →
       m !! _ymd2ord y month day = Some name) ∧
    (∀ y' l month day name,
       y' ≠ y → special_holidays !! y' = Some l → (month, day, name) ∈ l →
       ∀ k, m !! k ≠ Some name) ∧
    (∀ y' l month day name,
       special_holidays !! y' = Some l → (month, day, name) ∈ l →
       ∀ k, m !! k ≠ Some (name +:+ " (Observed)")).
Proof.
  intros Hy Hsd. eexists. split; [by apply holiday_map_log|]. split; [|split].
  - intros mo d name Hin.
    destruct (special_holidays !! y) as [l|] eqn:E; cbn in Hin;
      [| by apply elem_of_nil in Hin].
    apply special_holidays_elem in E.
    unfold subdivisions in Hsd.
    split_log E; simplify_eq; split_log Hin; simplify_eq;
      split_log Hsd; simplify_eq; destruct obs; vm_compute; reflexivity.
  - intros y' l mo d name Hne E Hin k H.
    apply dict_of_lookup_Some, rule_names in H as [H | [H _]].
    + apply special_log_elem in H as (mo2 & d2 & H & _).
      apply special_holidays_elem in E.
      split_log E; simplify_eq; split_log Hin; simplify_eq;
        split_log H; simplify_eq.
    + apply H. by eapply special_names_elem.
  - intros y' l mo d name E Hin k H.
    apply dict_of_lookup_Some, rule_names in H as [H | [_ H]].
    + apply special_log_elem in H as (mo2 & d2 & H & _).
      apply special_holidays_elem in E.
      split_log E; simplify_eq; split_log Hin; simplify_eq;
        split_log H; simplify_eq.
    + apply H. apply list_elem_of_fmap. exists name. split; [done|].
      by eapply special_names_elem.
Qed.

(** C6. For every subdivision the Spring Bank Holiday is on 4 June in 2012
    and on 2 June in 2022; in every other year from 1971 on it is on the
    last Monday of May, that is the Monday among 25 to 31 May; before 1971
    there is none. *)
Theorem spring_bank_holiday_date sd obs y :
  valid_year y → sd ∈ subdivisions →
  ∃ m, holiday_map hook sd obs y = Some m ∧
    (y = 2012 → ∀ k, m !! k = Some "Spring Bank Holiday" ↔ k = _ymd2ord 2012 JUN 4) ∧
    (y = 2022 → ∀ k, m !! k = Some "Spring Bank Holiday" ↔ k = _ymd2ord 2022 JUN 2) ∧
    (1971 ≤ y → y ≠ 2012 → y ≠ 2022 →
       ∀ k, m !! k = Some "Spring Bank Holiday" ↔
            weekday k = MON ∧ _ymd2ord y MAY 25 ≤ k ≤ _ymd2ord y MAY 31) ∧
    (y < 1971 → ∀ k, m !! k ≠ Some "Spring Bank Holiday").
Proof.
  intros Hy Hsd. eexists. split; [by apply holiday_map_log|].
  assert (Hrule : ∀ k, dict_of (populate_log y sd obs) !! k = Some "Spring Bank Holiday"
                       ↔ (k, "Spring Bank Holiday") ∈ spring_bank_holiday_log y).
  { intros k.
    apply (dict_of_rule y sd obs (spring_bank_holiday_log y) "Spring Bank Holiday");
      [done | intros ? ?; apply spring_bank_holiday_named | in_later | done]. }
  split; [|split; [|split]].
  - intros -> k. rewrite Hrule.
    unfold spring_bank_holiday_log. change (2012 =? 2012) with true. cbv iota.
    rewrite list_elem_of_singleton. split; [by intros [= ->] | by intros ->].
  - intros -> k. rewrite Hrule.
    unfold spring_bank_holiday_log.
    change (2022 =? 2012) with false. change (2022 =? 2022) with true. cbv iota.
    rewrite list_elem_of_singleton. split; [by intros [= ->] | by intros ->].
  - intros H71 H12 H22 k. rewrite Hrule.
    unfold spring_bank_holiday_log.
    rewrite (proj2 (Z.eqb_neq _ _) H12), (proj2 (Z.eqb_neq _ _) H22),
      (proj2 (Z.leb_le _ _) H71).
    rewrite list_elem_of_singleton.
    pose proof (last_on_spec MON (_ymd2ord y MAY 31) ltac:(cbv; intuition discriminate))
      as [Hwd Hr].
    assert (_ymd2ord y MAY 25 = _ymd2ord y MAY 31 - 6) as -> by (ymd_unfold; lia).
    split.
    + by intros [= ->].
    + intros [Hk Hk']. f_equal. apply weekday_inj; [congruence | lia].
  - intros H71 k. rewrite Hrule.
    unfold spring_bank_holiday_log. intros H.
    split_log H; prop_of_bool; lia.
Qed.

(** C7. In 2020 the May Day entry is on 8 May, and there only, whatever the
    subdivision, "Scotland" included; and the dictionary for "Scotland" has
    no Late Summer Bank Holiday, in 2020 as in every other year. *)
Theorem scotland_2020 :
  (∀ sd obs, sd ∈ subdivisions →
     ∃ m, holiday_map hook sd obs 2020 = Some m ∧
          ∀ k, m !! k = Some "May Day" ↔ k = _ymd2ord 2020 MAY 8) ∧
  (∀ y obs, valid_year y →
     ∃ m, holiday_map hook "Scotland" obs y = Some m ∧
          ∀ k n, m !! k = Some n →
                 String.prefix "Late Summer Bank Holiday" n = false).
Proof.
  split.
  - intros sd obs Hsd.
    assert (Hy : valid_year 2020) by (unfold valid_year, MINYEAR, MAXYEAR; lia).
    eexists. split; [by apply holiday_map_log|]. intros k.
    rewrite (dict_of_rule 2020 sd obs (may_day_log 2020) "May Day");
      [ | done | intros ? ?; apply may_day_named | in_later | done ].
    unfold may_day_log.
    change (1978 <=? 2020) with true. change (2020 =? 2020) with true. cbv iota.
    rewrite list_elem_of_singleton. split; [by intros [= ->] | by intros ->].
  - intros y obs Hy.
    eexists. split; [apply holiday_map_log; [done | unfold subdivisions; set_solver]|].
    intros k n H. apply dict_of_lookup_Some in H.
    destruct (String.prefix "Late Summer Bank Holiday" n) eqn:Hp; [|done].
    apply late_summer_bank_holiday_named in H; [|done].
    unfold late_summer_bank_holiday_log in H. eval_guards H.
    by apply elem_of_nil in H.
Qed.

(** C8. For "UK" and "Scotland" the Summer Bank Holiday is on the first
    Monday of August, that is the Monday among 1 to 7 August; when 1 August
    is a Monday it is on 1 August and not on 8 August. *)
Theorem summer_bank_holiday_first_monday sd obs y :
  valid_year y → sd ∈ ["UK"; "Scotland"] →
  let name := if String.eqb sd "UK" then "Summer Bank Holiday [Scotland]"
              else "Summer Bank Holiday" in
  ∃ m, holiday_map hook sd obs y = Some m ∧
    (∀ k, m !! k = Some name ↔
          weekday k = MON ∧ _ymd2ord y AUG 1 ≤ k ≤ _ymd2ord y AUG 7) ∧
    (weekday (_ymd2ord y AUG 1) = MON →
       m !! _ymd2ord y AUG 1 = Some name ∧ m !! _ymd2ord y AUG 8 ≠ Some name).
Proof.
  intros Hy Hsd name.
  assert (Hsd' : sd ∈ subdivisions) by (unfold subdivisions; set_solver).
  eexists. split; [by apply holiday_map_log|].
  assert (Hiff : ∀ k, dict_of (populate_log y sd obs) !! k = Some name ↔
          weekday k = MON ∧ _ymd2ord y AUG 1 ≤ k ≤ _ymd2ord y AUG 7).
  { intros k.
    rewrite (dict_of_rule y sd obs (summer_bank_holiday_log y sd) "Summer Bank Holiday");
      [ | done | intros ? ?; apply summer_bank_holiday_named | in_later
        | subst name; by destruct (String.eqb sd "UK") ].
    unfold summer_bank_holiday_log. rewrite bool_decide_eq_true_2 by done.
    subst name. cbv zeta. cbn [String.append].
    rewrite list_elem_of_singleton.
    pose proof (next_on_spec MON (_ymd2ord y AUG 1) ltac:(cbv; intuition discriminate))
      as [Hwd Hr].
    assert (_ymd2ord y AUG 7 = _ymd2ord y AUG 1 + 6) as -> by (ymd_unfold; lia).
    split.
    - destruct (String.eqb sd "UK"); intros [= ->]; done.
    - intros [Hk Hk'].
      assert (k = next_on MON (_ymd2ord y AUG 1)) as ->
        by (apply weekday_inj; [congruence | lia]).
      by destruct (String.eqb sd "UK"). }
  split; [done|]. intros Hmon. split.
  - apply Hiff. split; [done|]. ymd_unfold; lia.
  - intros H. apply Hiff in H as [_ H]. ymd_unfold; lia.
Qed.

(** C9. [easter] returns the Easter of the anonymous Gregorian algorithm,
    which is a Sunday. Good Friday is two days before it, for every
    subdivision; Easter Monday is one day after it for every subdivision but
    "Scotland", for which the dictionary has no Easter Monday. *)
Theorem easter_holidays sd obs y :
  valid_year y → sd ∈ subdivisions →
  ∃ m, holiday_map hook sd obs y = Some m ∧
    (∀ s, easter y s = Returns (easter_ordinal y) s) ∧
    easter_fields y = anonymous_gregorian y ∧
    weekday (easter_ordinal y) = SUN ∧
    (∀ k, m !! k = Some "Good Friday" ↔ k = easter_ordinal y - 2) ∧
    (sd ≠ "Scotland" →
       ∀ k, m !! k = Some (if String.eqb sd "UK"
                           then "Easter Monday [England/Wales/Northern Ireland]"
                           else "Easter Monday")
            ↔ k = easter_ordinal y + 1) ∧
    (sd = "Scotland" →
       ∀ k n, m !! k = Some n → String.prefix "Easter Monday" n = false).
Proof.
  intros Hy Hsd. eexists. split; [by apply holiday_map_log|].
  split; [intros s; by apply easter_returns|].
  split; [by apply easter_fields_anonymous_gregorian|].
  split; [by destruct (easter_ordinal_spec y) as (p & _ & _ & _ & Hsun)|].
  split; [|split].
  - intros k.
    rewrite (dict_of_rule y sd obs (good_friday_log y) "Good Friday");
      [ | done | intros ? ?; apply good_friday_named | in_later | done ].
    unfold good_friday_log. rewrite good_friday_date, list_elem_of_singleton.
    split; [by intros [= ->] | by intros ->].
  - intros Hns k.
    rewrite (dict_of_rule y sd obs (easter_monday_log y sd) "Easter Monday");
      [ | done | intros ? ?; apply easter_monday_named | in_later
        | by destruct (String.eqb sd "UK") ].
    unfold easter_monday_log.
    destruct (String.eqb_spec sd "Scotland"); [done|]. cbn [negb].
    rewrite easter_monday_date, list_elem_of_singleton.
    destruct (String.eqb sd "UK"); (split; [by intros [= ->] | by intros ->]).
  - intros -> k n H. apply dict_of_lookup_Some in H.
    destruct (String.prefix "Easter Monday" n) eqn:Hp; [|done].
    apply easter_monday_named in H; [|done].
    unfold easter_monday_log in H. eval_guards H.
    by apply elem_of_nil in H.
Qed.

(** C10. For every subdivision and either value of [observed], the
    dictionary has New Year's Day, on 1 January, in the years from 1974 on;
    before 1974 it has no entry of that name, observed or not. *)
Theorem new_years_day_since_1974 sd obs y :
  valid_year y → sd ∈ subdivisions →
  ∃ m, holiday_map hook sd obs y = Some m ∧
    (1974 ≤ y → m !! _ymd2ord y JAN 1 = Some "New Year's Day") ∧
    (y < 1974 →
       ∀ k n, m !! k = Some n → String.prefix "New Year's Day" n = false).
Proof.
  intros Hy Hsd. eexists. split; [by apply holiday_map_log|]. split.
  - intros H74. rewrite dict_of_earlier by (done || lia).
    apply dict_of_lookup_last.
    + unfold new_years_day_log. rewrite (proj2 (Z.leb_le _ _) H74). set_solver.
    + intros n' H. unfold_logs. split_log H; simplify_eq; try done; lia.
  - intros H74 k n H. apply dict_of_lookup_Some in H.
    destruct (String.prefix "New Year's Day" n) eqn:Hp; [|done].
    apply new_years_day_named in H; [|done].
    unfold new_years_day_log in H.
    rewrite (proj2 (Z.leb_gt _ _) H74) in H. by apply elem_of_nil in H.
Qed.

End Properties.

(** ** Instances

    The subdivisions of the class never reach [IsleOfMan._additional_holidays];
    the instances below run [_populate] with a hook that adds nothing. *)

(* Membership in a list that is written out. *)
Ltac in_list := repeat first [apply list_elem_of_here | apply list_elem_of_further].

Lemma valid_year_2022 : valid_year 2022.
Proof. unfold valid_year, MINYEAR, MAXYEAR. lia. Defined.

Lemma valid_year_2023 : valid_year 2023.
Proof. unfold valid_year, MINYEAR, MAXYEAR. lia. Defined.

Lemma valid_year_2012 : valid_year 2012.
Proof. unfold valid_year, MINYEAR, MAXYEAR. lia. Defined.

(** Counterexample to C2 as stated, in 2022: 2 January 2022 is a Sunday, and
    for "UK" the substitute of the New Year Holiday is held on 4 January, a
    Tuesday; no Monday holds it. *)
Lemma new_year_holiday_2022_on_tuesday :
  ∃ m, holiday_map no_additional_holidays "UK" true 2022 = Some m ∧
    weekday (_ymd2ord 2022 JAN 2) = SUN ∧
    m !! _ymd2ord 2022 JAN 4 = Some "New Year Holiday [Scotland] (Observed)" ∧
    weekday (_ymd2ord 2022 JAN 4) = TUE ∧
    ¬ ∃ k, weekday k = MON ∧
           m !! k = Some "New Year Holiday [Scotland] (Observed)".
Proof.
  assert (Hsd : "UK" ∈ ["UK"; "Scotland"]) by apply list_elem_of_here.
  pose proof (λ k, new_year_substitute_dict "UK" 2022 k valid_year_2022 Hsd)
    as Hentry.
  cbv zeta in Hentry. change (String.eqb "UK" "UK") with true in Hentry.
  cbv iota in Hentry.
  eexists. split.
  { apply holiday_map_log; [apply valid_year_2022 | apply list_elem_of_here]. }
  split; [reflexivity|]. split.
  { apply Hentry. left. split; [right|]; reflexivity. }
  split; [reflexivity|].
  intros (k & Hmon & Hk). apply Hentry in Hk as [[_ ->] | [Hk _]].
  - vm_compute in Hmon. discriminate.
  - vm_compute in Hk. discriminate.
Qed.

Lemma new_year_holiday_substitute_witness :
  new_year_holiday 2022 (mkSelf "UK" true ∅)
  = Returns tt
      (puts [(_ymd2ord 2022 JAN 2, "New Year Holiday [Scotland]");
             (_ymd2ord 2022 JAN 4, "New Year Holiday [Scotland] (Observed)")]
            (mkSelf "UK" true ∅)).
Proof.
  pose proof (new_year_holiday_substitute no_additional_holidays "UK" 2022
                (mkSelf "UK" true ∅) valid_year_2022
                (list_elem_of_here _ _) eq_refl eq_refl) as H.
  cbv zeta in H. destruct H as (H & _).
  apply H. right. reflexivity.
Defined.

(** Counterexample to C3 as stated, for "UK" in 2023: 1 January 2023 is a
    Sunday, and the dictionary has no "New Year's Day (Observed)"; 2 January
    is the New Year Holiday. *)
Lemma uk_2023_without_observed_day :
  ∃ m, holiday_map no_additional_holidays "UK" true 2023 = Some m ∧
    weekday (_ymd2ord 2023 JAN 1) = SUN ∧
    m !! _ymd2ord 2023 JAN 2 = Some "New Year Holiday [Scotland]" ∧
    ∀ k, m !! k ≠ Some "New Year's Day (Observed)".
Proof.
  eexists. split.
  { apply holiday_map_log; [apply valid_year_2023 | apply list_elem_of_here]. }
  split; [reflexivity|]. split; [vm_compute; reflexivity|].
  intros k H.
  apply observed_new_years_day_dict in H as [[Hsat _] | (_ & _ & Hnot)];
    [ | | apply valid_year_2023 | lia ].
  - vm_compute in Hsat. discriminate.
  - apply Hnot. apply list_elem_of_here.
Qed.

Lemma new_years_day_observed_witness :
  ∃ m, holiday_map no_additional_holidays "England" true 2023 = Some m ∧
    weekday (_ymd2ord 2023 JAN 1) = SUN ∧
    m !! _ymd2ord 2023 JAN 2 = Some "New Year's Day (Observed)".
Proof.
  assert (H74 : 1974 ≤ 2023) by lia.
  assert (Hsd : "England" ∈ subdivisions) by (unfold subdivisions; in_list).
  pose proof (new_years_day_observed no_additional_holidays "England" 2023
                valid_year_2023 H74 Hsd) as H.
  cbv zeta in H. destruct H as (m & Hm & _ & _ & Hsun & _).
  exists m. split; [exact Hm|]. split; [reflexivity|].
  assert (Hnot : "England" ∉ ["UK"; "Scotland"])
    by (apply (bool_decide_unpack _); vm_compute; exact I).
  destruct (Hsun eq_refl Hnot) as [_ Hk]. apply Hk. reflexivity.
Defined.

Lemma subdivision_union_witness :
  ∃ uk en ni sc wa,
    holiday_map no_additional_holidays "UK" true 2022 = Some uk ∧
    holiday_map no_additional_holidays "England" true 2022 = Some en ∧
    holiday_map no_additional_holidays "Northern Ireland" true 2022 = Some ni ∧
    holiday_map no_additional_holidays "Scotland" true 2022 = Some sc ∧
    holiday_map no_additional_holidays "Wales" true 2022 = Some wa ∧
    dom uk = dom en ∪ dom ni ∪ dom sc ∪ dom wa ∧
    ∃ k, uk !! k = Some "St. Andrew's Day [Scotland]" ∧
         sc !! k = Some "St. Andrew's Day".
Proof.
  destruct (subdivision_union no_additional_holidays true 2022 valid_year_2022)
    as (uk & en & ni & sc & wa & Huk & Hen & Hni & Hsc & Hwa & Hdom & Hpres & _).
  exists uk, en, ni, sc, wa. repeat (split; [assumption|]).
  assert (Hin : ("St. Andrew's Day", " [Scotland]", ["Scotland"]) ∈ restricted_holidays)
    by (unfold restricted_holidays; in_list).
  assert (H71 : "St. Andrew's Day" = "Late Summer Bank Holiday" → 1971 ≤ 2022)
    by (intros _; lia).
  destruct (Hpres _ _ _ Hin H71) as (k & Hk & Hreg).
  exists k. split; [exact Hk|].
  assert (Hsc' : ("Scotland", sc) ∈ [("England", en); ("Northern Ireland", ni);
                                     ("Scotland", sc); ("Wales", wa)]) by in_list.
  assert (Hrs : "Scotland" ∈ ["Scotland"]) by in_list.
  exact (Hreg "Scotland" sc Hsc' Hrs).
Defined.

Lemma special_occasions_witness :
  ∃ m, holiday_map no_additional_holidays "Scotland" true 2022 = Some m ∧
    m !! _ymd2ord 2022 JUN 3 = Some "Platinum Jubilee of Elizabeth II".
Proof.
  assert (Hsd : "Scotland" ∈ subdivisions) by (unfold subdivisions; in_list).
  destruct (special_occasions no_additional_holidays "Scotland" true 2022
              valid_year_2022 Hsd) as (m & Hm & Hin & _).
  exists m. split; [exact Hm|].
  apply Hin. vm_compute. apply list_elem_of_here.
Defined.

Lemma spring_bank_holiday_date_witness :
  ∃ m, holiday_map no_additional_holidays "England" true 2012 = Some m ∧
    m !! _ymd2ord 2012 JUN 4 = Some "Spring Bank Holiday".
Proof.
  assert (Hsd : "England" ∈ subdivisions) by (unfold subdivisions; in_list).
  destruct (spring_bank_holiday_date no_additional_holidays "England" true 2012
              valid_year_2012 Hsd) as (m & Hm & H12 & _).
  exists m. split; [exact Hm|]. apply (H12 eq_refl). reflexivity.
Defined.

Lemma scotland_2020_witness :
  ∃ m, holiday_map no_additional_holidays "Scotland" true 2020 = Some m ∧
    m !! _ymd2ord 2020 MAY 8 = Some "May Day".
Proof.
  assert (Hsd : "Scotland" ∈ subdivisions) by (unfold subdivisions; in_list).
  destruct (proj1 (scotland_2020 no_additional_holidays) "Scotland" true Hsd)
    as (m & Hm & Hmay).
  exists m. split; [exact Hm|]. apply Hmay. reflexivity.
Defined.

Lemma summer_bank_holiday_first_monday_witness :
  weekday (_ymd2ord 2022 AUG 1) = MON ∧
  ∃ m, holiday_map no_additional_holidays "Scotland" true 2022 = Some m ∧
    m !! _ymd2ord 2022 AUG 1 = Some "Summer Bank Holiday".
Proof.
  split; [reflexivity|].
  assert (Hsd : "Scotland" ∈ ["UK"; "Scotland"])
    by (apply list_elem_of_further, list_elem_of_here).
  pose proof (summer_bank_holiday_first_monday no_additional_holidays
                "Scotland" true 2022 valid_year_2022 Hsd) as H.
  cbv zeta in H. destruct H as (m & Hm & _ & Hmon).
  exists m. split; [exact Hm|]. apply Hmon. reflexivity.
Defined.

Lemma easter_holidays_witness :
  ∃ m, holiday_map no_additional_holidays "England" true 2023 = Some m ∧
    easter_ordinal 2023 = _ymd2ord 2023 APR 9 ∧
    m !! _ymd2ord 2023 APR 7 = Some "Good Friday" ∧
    m !! _ymd2ord 2023 APR 10 = Some "Easter Monday".
Proof.
  assert (Hsd : "England" ∈ subdivisions) by (unfold subdivisions; in_list).
  destruct (easter_holidays no_additional_holidays "England" true 2023
              valid_year_2023 Hsd) as (m & Hm & _ & _ & _ & Hgf & Hem & _).
  exists m. split; [exact Hm|]. split; [reflexivity|]. split.
  - apply Hgf. reflexivity.
  - apply Hem; [discriminate | reflexivity].
Defined.

Lemma new_years_day_since_1974_witness :
  ∃ m, holiday_map no_additional_holidays "Wales" true 2022 = Some m ∧
    m !! _ymd2ord 2022 JAN 1 = Some "New Year's Day".
Proof.
  assert (Hsd : "Wales" ∈ subdivisions) by (unfold subdivisions; in_list).
  destruct (new_years_day_since_1974 no_additional_holidays "Wales" true 2022
              valid_year_2022 Hsd) as (m & Hm & H74 & _).
  exists m. split; [exact Hm|]. apply H74. lia.
Defined.

(** ** Further lemmas on the rules and on the dictionary *)

(* Assignments over a dictionary: what they assign, over what was there. *)
Lemma foldl_insert_union (ws : list (Z * string)) (m : gmap Z string) :
  foldl (λ m w, <[w.1 := w.2]> m) m ws = dict_of ws ∪ m.
Proof.
  unfold dict_of. revert m. induction ws as [|[k n] ws IH]; intros m; cbn.
  - by rewrite (left_id_L ∅ (∪)).
  - rewrite (IH (<[k:=n]> m)), (IH (<[k:=n]> ∅)).
    rewrite (insert_union_singleton_l m), insert_empty.
    by rewrite (assoc_L (∪)).
Qed.

Lemma holiday_map_dict hook sd obs y :
  valid_year y → sd ≠ "Isle of Man" →
  holiday_map hook sd obs y = Some (dict_of (populate_log y sd obs)).
Proof. intros Hy Hsd. unfold holiday_map, holidays. by rewrite populate_puts. Qed.

Lemma christmas_day_named y sd obs k n :
  (k, n) ∈ populate_log y sd obs → String.prefix "Christmas Day" n = true →
  (k, n) ∈ christmas_day_log y obs.
Proof. named_tac "Christmas Day". Qed.

Lemma boxing_day_named y sd obs k n :
  (k, n) ∈ populate_log y sd obs → String.prefix "Boxing Day" n = true →
  (k, n) ∈ boxing_day_log y obs.
Proof. named_tac "Boxing Day". Qed.

(* Where the rules put their dates. *)
Lemma rule_dates y sd obs k n :
  valid_year y →
  (k, n) ∈ (new_years_day_log y obs ++ later_log y sd obs)%list →
  _ymd2ord y JAN 1 ≤ k ≤ _ymd2ord y JAN 4 ∨
  _ymd2ord y MAR 17 ≤ k ≤ _ymd2ord y APR 26 ∨
  _ymd2ord y MAY 1 ≤ k ≤ _ymd2ord y MAY 14 ∨
  (k, n) ∈ spring_bank_holiday_log y ∨
  k = _ymd2ord y JUL 12 ∨
  _ymd2ord y AUG 1 ≤ k ≤ _ymd2ord y AUG 31 ∨
  k = _ymd2ord y NOV 30 ∨
  _ymd2ord y DEC 25 ≤ k ≤ _ymd2ord y DEC 28.
Proof.
  intros Hy H. apply elem_of_app in H as [H | H].
  { left. unfold new_years_day_log in H. split_log H; simplify_eq; ymd_unfold; lia. }
  apply later_log_calendar in H. unfold calendar_slots in H.
  cbn [fmap list_fmap concat snd] in H. rewrite !elem_of_app, elem_of_nil in H.
  destruct_or! H; [ | | | | | by auto 10 | | | | | | ].
  - apply (proj1 (new_year_holiday_slot y sd obs Hy)) in H. left. ymd_unfold; lia.
  - apply (proj1 (st_patricks_day_slot y sd obs Hy)) in H. right; left. ymd_cases y; lia.
  - assert (Hin : (k, n) ∈ (good_friday_log y ++ easter_monday_log y sd)%list)
      by (rewrite elem_of_app; eauto).
    apply (proj1 (easter_slot y sd Hy)) in Hin. right; left. ymd_cases y; lia.
  - assert (Hin : (k, n) ∈ (good_friday_log y ++ easter_monday_log y sd)%list)
      by (rewrite elem_of_app; eauto).
    apply (proj1 (easter_slot y sd Hy)) in Hin. right; left. ymd_cases y; lia.
  - apply (proj1 (may_day_slot y Hy)) in H. auto 10.
  - apply (proj1 (battle_of_the_boyne_slot y sd Hy)) in H. do 4 right; left. lia.
  - apply (proj1 (summer_bank_holiday_slot y sd Hy)) in H. do 5 right; left.
    ymd_unfold; lia.
  - apply (proj1 (late_summer_bank_holiday_slot y sd Hy)) in H. do 5 right; left.
    ymd_unfold; lia.
  - apply (proj1 (st_andrews_day_slot y sd Hy)) in H. do 6 right; left. lia.
  - assert (Hin : (k, n) ∈ (christmas_day_log y obs ++ boxing_day_log y obs)%list)
      by (rewrite elem_of_app; eauto).
    apply (proj1 (christmas_slot y obs Hy)) in Hin. auto 10.
  - assert (Hin : (k, n) ∈ (christmas_day_log y obs ++ boxing_day_log y obs)%list)
      by (rewrite elem_of_app; eauto).
    apply (proj1 (christmas_slot y obs Hy)) in Hin. auto 10.
Qed.

Lemma special_log_valid y k n : (k, n) ∈ special_log y → valid_year y.
Proof.
  unfold special_log. intros H.
  destruct (special_holidays !! y) as [l|] eqn:E; [by eapply special_holidays_valid|].
  by apply elem_of_nil in H.
Qed.

(* special occasions never share their date with a rule *)
Lemma dict_of_special y sd obs k n :
  (k, n) ∈ special_log y → dict_of (populate_log y sd obs) !! k = Some n.
Proof.
  intros H. pose proof (special_log_valid _ _ _ H) as Hy.
  unfold populate_log, dict_of. rewrite foldl_app.
  rewrite foldl_insert_lookup_None.
  - apply special_log_elem in H as (mo & d & H & ->).
    split_log H; simplify_eq; vm_compute; reflexivity.
  - intros Hin. apply list_elem_of_fmap in Hin as ([k' n'] & -> & Hin). cbn in H.
    assert (Hin' : (k', n') ∈ (new_years_day_log y obs ++ later_log y sd obs)%list)
      by (unfold later_log; rewrite !elem_of_app in *; tauto).
    apply (rule_dates y sd obs k' n' Hy) in Hin'. clear Hin.
    apply special_log_elem in H as (mo & d & H & Hk).
    split_log H; simplify_eq; destruct_or! Hin';
      try (vm_compute in Hin'; by intuition);
      try (vm_compute in Hin';
           apply list_elem_of_singleton in Hin'; discriminate).
Qed.

(* Every assignment but the observed New Year's Day is in the dictionary. *)
Lemma dict_of_populate_log y sd obs k n :
  valid_year y →
  (k, n) ∈ populate_log y sd obs → n ≠ "New Year's Day (Observed)" →
  dict_of (populate_log y sd obs) !! k = Some n.
Proof.
  intros Hy H Hn. pose proof H as Hin. rewrite populate_log_later in Hin.
  rewrite !elem_of_app in Hin. destruct Hin as [[Hin | Hin] | Hin].
  - by apply dict_of_special.
  - unfold new_years_day_log in Hin.
    assert (Hk : k = _ymd2ord y JAN 1 ∧ n = "New Year's Day")
      by (split_log Hin; simplify_eq; done).
    destruct Hk as [-> ->].
    rewrite dict_of_earlier by (done || lia).
    apply dict_of_lookup_last.
    + unfold new_years_day_log. split_log Hin; simplify_eq; set_solver.
    + intros n' H'. unfold new_years_day_log in H'.
      split_log H'; simplify_eq; try done; lia.
  - by apply dict_of_later.
Qed.

Lemma is_observed_spec n :
  is_observed n = true ↔ ∃ b, n = b +:+ " (Observed)".
Proof.
  split.
  - induction n as [|a n IH]; [done|]. intros H.
    apply orb_prop in H as [H | H].
    + apply String.eqb_eq in H. by exists "".
    + destruct (IH H) as [b ->]. by exists (String a b).
  - intros [b ->]. induction b as [|a b IH]; [done|].
    change (String.eqb (String a (b +:+ " (Observed)")) " (Observed)"
            || is_observed (b +:+ " (Observed)") = true).
    rewrite IH. apply orb_true_r.
Qed.

(* The entries that the observed flag adds, and the days of the week on
   which they fall. *)
Lemma populate_log_observed y sd obs k n :
  valid_year y →
  (k, n) ∈ populate_log y sd obs → is_observed n = true →
  obs = true ∧ (weekday k = MON ∨ weekday k = TUE).
Proof.
  intros Hy H Hobs. unfold populate_log in H.
  apply elem_of_app in H as [H | H].
  { apply special_log_elem in H as (mo & d & H & Hk).
    split_log H; simplify_eq; vm_compute in Hobs; discriminate. }
  unfold country_specific_log in H. rewrite !elem_of_app in H.
  destruct_or! H; unfold_logs; split_log H; simplify_eq;
    repeat match type of Hobs with
           | context [if ?c then _ else _] => destruct c
           end;
    try (vm_compute in Hobs; discriminate);
    (split; [by destruct obs|]);
    clear Hobs; arith y Hy.
Qed.

Lemma populate_log_mono y sd k n :
  (k, n) ∈ populate_log y sd false → (k, n) ∈ populate_log y sd true.
Proof.
  unfold populate_log, country_specific_log. rewrite !elem_of_app.
  assert (Hnyd : (k, n) ∈ new_years_day_log y false → (k, n) ∈ new_years_day_log y true).
  { unfold new_years_day_log. intros H. split_log H; simplify_eq. apply list_elem_of_here. }
  assert (Hnyh : (k, n) ∈ new_year_holiday_log y sd false
                 → (k, n) ∈ new_year_holiday_log y sd true).
  { unfold new_year_holiday_log. intros H. split_log H; simplify_eq; apply list_elem_of_here. }
  assert (Hstp : (k, n) ∈ st_patricks_day_log y sd false
                 → (k, n) ∈ st_patricks_day_log y sd true).
  { unfold st_patricks_day_log. intros H. split_log H; simplify_eq; apply list_elem_of_here. }
  assert (Hchr : (k, n) ∈ christmas_day_log y false → (k, n) ∈ christmas_day_log y true).
  { unfold christmas_day_log. intros H. split_log H; simplify_eq. apply list_elem_of_here. }
  assert (Hbox : (k, n) ∈ boxing_day_log y false → (k, n) ∈ boxing_day_log y true).
  { unfold boxing_day_log. intros H. split_log H; simplify_eq. apply list_elem_of_here. }
  tauto.
Qed.

Lemma populate_log_added y sd k n :
  (k, n) ∈ populate_log y sd true →
  (k, n) ∈ populate_log y sd false ∨ is_observed n = true.
Proof.
  unfold populate_log, country_specific_log. rewrite !elem_of_app.
  assert (Hnyd : (k, n) ∈ new_years_day_log y true →
                 (k, n) ∈ new_years_day_log y false ∨ is_observed n = true).
  { unfold new_years_day_log. intros H.
    split_log H; simplify_eq; first [left; apply list_elem_of_here | by right]. }
  assert (Hnyh : (k, n) ∈ new_year_holiday_log y sd true →
                 (k, n) ∈ new_year_holiday_log y sd false ∨ is_observed n = true).
  { unfold new_year_holiday_log. intros H.
    split_log H; simplify_eq;
      first [left; apply list_elem_of_here | right; by destruct (String.eqb sd "UK")]. }
  assert (Hstp : (k, n) ∈ st_patricks_day_log y sd true →
                 (k, n) ∈ st_patricks_day_log y sd false ∨ is_observed n = true).
  { unfold st_patricks_day_log. intros H.
    split_log H; simplify_eq;
      first [left; apply list_elem_of_here | right; by destruct (String.eqb sd "UK")]. }
  assert (Hchr : (k, n) ∈ christmas_day_log y true →
                 (k, n) ∈ christmas_day_log y false ∨ is_observed n = true).
  { unfold christmas_day_log. intros H.
    split_log H; simplify_eq; first [left; apply list_elem_of_here | by right]. }
  assert (Hbox : (k, n) ∈ boxing_day_log y true →
                 (k, n) ∈ boxing_day_log y false ∨ is_observed n = true).
  { unfold boxing_day_log. intros H.
    split_log H; simplify_eq; first [left; apply list_elem_of_here | by right]. }
  tauto.
Qed.

Lemma populate_log_within_year y sd obs k n :
  valid_year y → (k, n) ∈ populate_log y sd obs →
  _ymd2ord y JAN 1 ≤ k ≤ _ymd2ord y DEC 31.
Proof.
  intros Hy H. rewrite populate_log_later, <- app_assoc in H.
  apply elem_of_app in H as [H | H].
  - apply special_log_elem in H as (mo & d & H & ->).
    split_log H; simplify_eq; vm_compute; split; discriminate.
  - apply (rule_dates y sd obs k n Hy) in H.
    destruct_or! H; try (ymd_cases y; lia).
    apply (proj1 (spring_bank_holiday_slot y Hy)) in H. ymd_cases y; lia.
Qed.

(* The seven tests of the May Day rule come down to the first Monday on
   or after the day that the rule starts from. *)
Lemma may_day_log_next_on y :
  1978 ≤ y → y ≠ 2020 →
  may_day_log y =
  [(next_on MON (if y =? 1995 then _ymd2ord y MAY 8 else _ymd2ord y MAY 1), "May Day")].
Proof.
  intros H78 H20. unfold may_day_log.
  rewrite (proj2 (Z.leb_le _ _) H78), (proj2 (Z.eqb_neq _ _) H20). cbv zeta.
  set (dt := if y =? 1995 then _ymd2ord y MAY 8 else _ymd2ord y MAY 1).
  pose proof (weekday_range dt) as Hw.
  assert (Hc : weekday dt = 0 ∨ weekday dt = 1 ∨ weekday dt = 2 ∨ weekday dt = 3
               ∨ weekday dt = 4 ∨ weekday dt = 5 ∨ weekday dt = 6) by lia.
  unfold next_on, MON, TUE, WED, THU, FRI, SAT, SUN.
  destruct Hc as [E | [E | [E | [E | [E | [E | E]]]]]]; rewrite E;
    cbn [Z.eqb Pos.eqb app]; repeat f_equal; try reflexivity.
  change ((7 - 0 + 0) mod 7) with 0. lia.
Qed.

Lemma weekend_cases d :
  weekday d ∈ WEEKEND ↔ weekday d = SAT ∨ weekday d = SUN.
Proof. unfold WEEKEND. rewrite !elem_of_cons, elem_of_nil. tauto. Qed.

(* A subdivision that no test names gets the rules of "England". *)
Lemma populate_log_unlisted y sd obs :
  sd ∉ ["UK"; "Scotland"; "Northern Ireland"] →
  populate_log y sd obs = populate_log y "England" obs.
Proof.
  intros Hsd. rewrite !not_elem_of_cons in Hsd. destruct Hsd as (Huk & Hsc & Hni & _).
  assert (E1 : bool_decide (sd ∈ ["UK"; "Scotland"]) = false).
  { apply bool_decide_eq_false_2. rewrite !elem_of_cons, elem_of_nil. tauto. }
  assert (E2 : bool_decide (sd ∈ ["UK"; "Northern Ireland"]) = false).
  { apply bool_decide_eq_false_2. rewrite !elem_of_cons, elem_of_nil. tauto. }
  assert (E3 : String.eqb sd "UK" = false) by by apply String.eqb_neq.
  assert (E4 : String.eqb sd "Scotland" = false) by by apply String.eqb_neq.
  unfold_logs. rewrite E1, E2, E3, E4. reflexivity.
Qed.

Lemma days_before_year_succ y :
  _days_before_year (y + 1)
  = _days_before_year y + 365 + (if _is_leap y then 1 else 0).
Proof.
  pose proof (leap_days y) as H. unfold _days_before_year. cbv zeta.
  replace (y + 1 - 1) with y by lia.
  rewrite Z.div_div in H by lia. change (100 * 4) with 400 in H. lia.
Qed.

Lemma days_before_year_mono a b :
  1 ≤ a ≤ b → _days_before_year a ≤ _days_before_year b.
Proof.
  intros H. unfold _days_before_year. cbv zeta.
  replace ((a - 1) / 100) with ((a - 1) / 4 / 25)
    by (rewrite Z.div_div by lia; reflexivity).
  replace ((a - 1) / 400) with ((a - 1) / 4 / 25 / 4)
    by (rewrite !Z.div_div by lia; reflexivity).
  replace ((b - 1) / 100) with ((b - 1) / 4 / 25)
    by (rewrite Z.div_div by lia; reflexivity).
  replace ((b - 1) / 400) with ((b - 1) / 4 / 25 / 4)
    by (rewrite !Z.div_div by lia; reflexivity).
  Z.div_mod_to_equations. lia.
Qed.

(* The last day of a year comes before the first day of every later year. *)
Lemma year_order y1 y2 :
  valid_year y1 → y1 < y2 → _ymd2ord y1 DEC 31 < _ymd2ord y2 JAN 1.
Proof.
  intros [Hlo Hhi] Hlt. unfold MINYEAR in Hlo.
  pose proof (days_before_year_succ y1) as Hs.
  pose proof (days_before_year_mono (y1 + 1) y2 ltac:(lia)) as Hm.
  ymd_cases y1.
  assert (_days_before_month y2 1 = 0) as -> by reflexivity.
  destruct (_is_leap y1) eqn:E.
  - assert (_days_before_month y1 12 = 335)
      by (unfold _days_before_month; rewrite E; reflexivity). lia.
  - assert (_days_before_month y1 12 = 334)
      by (unfold _days_before_month; rewrite E; reflexivity). lia.
Qed.

Lemma seq_returns (c1 c2 : M unit) ws s :
  c1 s = Returns tt (puts ws s) → (c1;; c2) s = c2 (puts ws s).
Proof. intros H. unfold mbind, M_bind. by rewrite H. Qed.

(* The number of entries of a dictionary whose assignments have distinct
   dates. *)
Lemma dict_of_size ws : NoDup ws.*1 → size (dict_of ws) = length ws.
Proof.
  intros Hnd. rewrite <- size_dom, dict_of_dom, size_list_to_set by done.
  by rewrite length_fmap.
Qed.

Lemma may_day_log_one y :
  valid_year y → 1978 ≤ y →
  ∃ k, may_day_log y = [(k, "May Day")] ∧ _ymd2ord y MAY 1 ≤ k ≤ _ymd2ord y MAY 14.
Proof.
  intros Hy H78.
  assert (Hex : ∃ k, may_day_log y = [(k, "May Day")]).
  { unfold may_day_log. rewrite (proj2 (Z.leb_le _ _) H78).
    destruct (Z.eqb_spec y 2020) as [-> | H20]; [by eexists|].
    pose proof (may_day_log_next_on y H78 H20) as E. unfold may_day_log in E.
    rewrite (proj2 (Z.leb_le _ _) H78), (proj2 (Z.eqb_neq _ _) H20) in E.
    rewrite E. by eexists. }
  destruct Hex as (k & E). exists k. split; [done|].
  apply (proj1 (may_day_slot y Hy) k "May Day"). rewrite E. apply list_elem_of_here.
Qed.

(** *** The dates of [datetime.date] *)

Lemma days_in_month_cases y :
  ∃ b, b = (if _is_leap y then 1 else 0) ∧
       _days_in_month y 1 = 31 ∧ _days_in_month y 2 = 28 + b ∧
       _days_in_month y 3 = 31 ∧ _days_in_month y 4 = 30 ∧
       _days_in_month y 5 = 31 ∧ _days_in_month y 6 = 30 ∧
       _days_in_month y 7 = 31 ∧ _days_in_month y 8 = 31 ∧
       _days_in_month y 9 = 30 ∧ _days_in_month y 10 = 31 ∧
       _days_in_month y 11 = 30 ∧ _days_in_month y 12 = 31.
Proof.
  unfold _days_in_month.
  destruct (_is_leap y); [exists 1 | exists 0]; vm_compute; intuition discriminate.
Qed.

Lemma check_date_fields_spec y m d :
  _check_date_fields y m d = true ↔
  valid_year y ∧ 1 ≤ m ≤ 12 ∧ 1 ≤ d ≤ _days_in_month y m.
Proof.
  unfold _check_date_fields, valid_year.
  rewrite !andb_true_iff, !Z.leb_le. tauto.
Qed.

(* The day of the year, from 1 to 365 or 366, and the month and the day that
   it comes from. *)
Lemma day_of_year_cases y m d :
  1 ≤ m ≤ 12 → 1 ≤ d ≤ _days_in_month y m →
  ∃ b, b = (if _is_leap y then 1 else 0) ∧ 0 ≤ b ≤ 1 ∧
    1 ≤ _days_before_month y m + d ≤ 365 + b ∧
    ∀ m' d', 1 ≤ m' ≤ 12 → 1 ≤ d' ≤ _days_in_month y m' →
      _days_before_month y m + d = _days_before_month y m' + d' → m = m' ∧ d = d'.
Proof.
  intros Hm Hd.
  destruct (days_before_month_cases y)
    as (b & Hb & Hb01 & B1 & B2 & B3 & B4 & B5 & B6 & B7 & B8 & B9 & B10 & B11 & B12).
  destruct (days_in_month_cases y)
    as (b' & Hb' & D1 & D2 & D3 & D4 & D5 & D6 & D7 & D8 & D9 & D10 & D11 & D12).
  assert (b' = b) as -> by congruence.
  exists b. split; [done|]. split; [done|].
  assert (Hc : m = 1 ∨ m = 2 ∨ m = 3 ∨ m = 4 ∨ m = 5 ∨ m = 6 ∨ m = 7 ∨ m = 8
               ∨ m = 9 ∨ m = 10 ∨ m = 11 ∨ m = 12) by lia.
  split.
  - destruct_or! Hc; subst m; lia.
  - intros m' d' Hm' Hd' E.
    assert (Hc' : m' = 1 ∨ m' = 2 ∨ m' = 3 ∨ m' = 4 ∨ m' = 5 ∨ m' = 6 ∨ m' = 7
                  ∨ m' = 8 ∨ m' = 9 ∨ m' = 10 ∨ m' = 11 ∨ m' = 12) by lia.
    destruct_or! Hc; subst m; destruct_or! Hc'; subst m'; lia.
Qed.

(** ** Further properties of the calendar *)

Section Further.

Context (hook : Z → M unit).

(** X1. [_populate] returns exactly in the years that [datetime.date]
    accepts, 1 to 9999, and leaves [self.subdiv] and [self.observed] as they
    were; in every other year it raises: ValueError when the year is a C
    int, and OverflowError when it is not. *)
Theorem populate_returns_iff_valid_year sd obs y :
  sd ≠ "Isle of Man" →
  (valid_year y ∧ ∃ m, holidays hook sd obs y = Returns tt (mkSelf sd obs m)) ∨
  (¬ valid_year y ∧ INT_MIN ≤ y ≤ INT_MAX ∧
     holidays hook sd obs y = Raises ValueError) ∨
  ((y < INT_MIN ∨ INT_MAX < y) ∧ holidays hook sd obs y = Raises OverflowError).
Proof.
  intros Hsd.
  destruct (Z_le_dec MINYEAR y) as [Hlo | Hlo], (Z_le_dec y MAXYEAR) as [Hhi | Hhi].
  { left. assert (Hy : valid_year y) by done. split; [done|].
    unfold holidays. rewrite populate_puts by done. eexists. reflexivity. }
  all: right; assert (Hy : ¬ valid_year y) by (intros [? ?]; done).
  all: unfold holidays; rewrite populate_raises by done.
  all: unfold year_error, fits_int, MINYEAR, MAXYEAR in *.
  all: destruct (Z.leb_spec INT_MIN y), (Z.leb_spec y INT_MAX); cbn [andb];
    unfold INT_MIN, INT_MAX in *;
    first [ left; split; [done|]; split; [lia | reflexivity]
          | right; split; [lia | reflexivity] ].
Qed.

(** X2. Every date of the dictionary of a year lies in that year, from
    1 January to 31 December: no observed day runs into another year. *)
Theorem holidays_within_year sd obs y :
  valid_year y → sd ≠ "Isle of Man" →
  ∃ m, holiday_map hook sd obs y = Some m ∧
    ∀ k n, m !! k = Some n → _ymd2ord y JAN 1 ≤ k ≤ _ymd2ord y DEC 31.
Proof.
  intros Hy Hsd. eexists. split; [by apply holiday_map_dict|].
  intros k n H. apply dict_of_lookup_Some in H. by eapply populate_log_within_year.
Qed.

(** X3. An entry whose name ends in " (Observed)" is there only when
    [observed] is set, and it falls on a Monday or on a Tuesday. *)
Theorem observed_on_monday_or_tuesday sd obs y :
  valid_year y → sd ≠ "Isle of Man" →
  ∃ m, holiday_map hook sd obs y = Some m ∧
    ∀ k n, m !! k = Some n → is_observed n = true →
      obs = true ∧ (weekday k = MON ∨ weekday k = TUE).
Proof.
  intros Hy Hsd. eexists. split; [by apply holiday_map_dict|].
  intros k n H Hobs. apply dict_of_lookup_Some in H.
  by eapply populate_log_observed.
Qed.

(** X4. The flag [observed] only adds entries: the dictionary without it
    is contained in the dictionary with it, every further entry has a name
    that ends in " (Observed)", and without the flag no name ends so. *)
Theorem observed_flag_only_adds sd y :
  valid_year y → sd ≠ "Isle of Man" →
  ∃ plain full,
    holiday_map hook sd false y = Some plain ∧
    holiday_map hook sd true y = Some full ∧
    plain ⊆ full ∧
    (∀ k n, full !! k = Some n → plain !! k = Some n ∨ is_observed n = true) ∧
    (∀ k n, plain !! k = Some n → is_observed n = false).
Proof.
  intros Hy Hsd. do 2 eexists.
  split; [by apply holiday_map_dict|]. split; [by apply holiday_map_dict|].
  assert (Hplain : ∀ k n, dict_of (populate_log y sd false) !! k = Some n →
                          is_observed n = false).
  { intros k n H. apply dict_of_lookup_Some in H.
    destruct (is_observed n) eqn:E; [|done].
    by destruct (populate_log_observed y sd false k n Hy H E) as [? _]. }
  split; [|split; [|done]].
  - apply map_subseteq_spec. intros k n H.
    pose proof (Hplain k n H) as Hn. apply dict_of_lookup_Some in H.
    apply dict_of_populate_log; [done | by apply populate_log_mono |].
    intros ->. done.
  - intros k n H. apply dict_of_lookup_Some in H.
    destruct (is_observed n) eqn:E; [by right | left].
    apply populate_log_added in H as [H | H]; [|congruence].
    apply dict_of_populate_log; [done..|]. intros ->. done.
Qed.

(* The entries of a rule that runs after the New Year's Day rule. *)
Lemma christmas_day_dict sd obs y k n :
  valid_year y → String.prefix "Christmas Day" n = true →
  dict_of (populate_log y sd obs) !! k = Some n ↔ (k, n) ∈ christmas_day_log y obs.
Proof.
  intros Hy Hp.
  apply (dict_of_rule y sd obs (christmas_day_log y obs) "Christmas Day");
    [done | intros ? ?; apply christmas_day_named | in_later | done].
Qed.

Lemma boxing_day_dict sd obs y k n :
  valid_year y → String.prefix "Boxing Day" n = true →
  dict_of (populate_log y sd obs) !! k = Some n ↔ (k, n) ∈ boxing_day_log y obs.
Proof.
  intros Hy Hp.
  apply (dict_of_rule y sd obs (boxing_day_log y obs) "Boxing Day");
    [done | intros ? ?; apply boxing_day_named | in_later | done].
Qed.

(** X5. Christmas Day is on 25 December for every subdivision. Its
    observed day is on 27 December, and it is there exactly when [observed]
    is set and 25 December is a Saturday or a Sunday; it is a Monday in the
    one case and a Tuesday in the other. *)
Theorem christmas_day_entries sd obs y :
  valid_year y → sd ≠ "Isle of Man" →
  let dec25 := _ymd2ord y DEC 25 in
  let dec27 := _ymd2ord y DEC 27 in
  ∃ m, holiday_map hook sd obs y = Some m ∧
    (∀ k, m !! k = Some "Christmas Day" ↔ k = dec25) ∧
    (∀ k, m !! k = Some "Christmas Day (Observed)" ↔
          obs = true ∧ (weekday dec25 = SAT ∨ weekday dec25 = SUN) ∧ k = dec27) ∧
    (weekday dec25 = SAT → weekday dec27 = MON) ∧
    (weekday dec25 = SUN → weekday dec27 = TUE).
Proof.
  intros Hy Hsd dec25 dec27. eexists. split; [by apply holiday_map_dict|].
  assert (E : dec27 = dec25 + 2) by (subst dec25 dec27; ymd_unfold; lia).
  split; [|split; [|split]].
  - intros k. rewrite christmas_day_dict by done.
    unfold christmas_day_log. cbv zeta. fold dec25 dec27.
    repeat match goal with |- context [if ?c then _ else _] => destruct c end;
      rewrite ?elem_of_cons, ?elem_of_nil; naive_solver.
  - intros k. rewrite christmas_day_dict by done.
    unfold christmas_day_log. cbv zeta. fold dec25 dec27.
    destruct obs; cbn [andb];
      destruct (Z.eqb_spec (weekday dec25) SAT) as [Hsat | Hsat];
      destruct (Z.eqb_spec (weekday dec25) SUN) as [Hsun | Hsun];
      rewrite ?elem_of_cons, ?elem_of_nil; naive_solver.
  - intros H. rewrite E, weekday_shift, H. reflexivity.
  - intros H. rewrite E, weekday_shift, H. reflexivity.
Qed.

(** X6. Boxing Day is on 26 December for every subdivision. Its observed
    day is on 28 December, and it is there exactly when [observed] is set
    and 26 December is a Saturday or a Sunday; it is a Monday in the one
    case and a Tuesday in the other. *)
Theorem boxing_day_entries sd obs y :
  valid_year y → sd ≠ "Isle of Man" →
  let dec26 := _ymd2ord y DEC 26 in
  let dec28 := _ymd2ord y DEC 28 in
  ∃ m, holiday_map hook sd obs y = Some m ∧
    (∀ k, m !! k = Some "Boxing Day" ↔ k = dec26) ∧
    (∀ k, m !! k = Some "Boxing Day (Observed)" ↔
          obs = true ∧ (weekday dec26 = SAT ∨ weekday dec26 = SUN) ∧ k = dec28) ∧
    (weekday dec26 = SAT → weekday dec28 = MON) ∧
    (weekday dec26 = SUN → weekday dec28 = TUE).
Proof.
  intros Hy Hsd dec26 dec28. eexists. split; [by apply holiday_map_dict|].
  assert (E : dec28 = dec26 + 2) by (subst dec26 dec28; ymd_unfold; lia).
  split; [|split; [|split]].
  - intros k. rewrite boxing_day_dict by done.
    unfold boxing_day_log. cbv zeta. fold dec26 dec28.
    repeat match goal with |- context [if ?c then _ else _] => destruct c end;
      rewrite ?elem_of_cons, ?elem_of_nil; naive_solver.
  - intros k. rewrite boxing_day_dict by done.
    unfold boxing_day_log. cbv zeta. fold dec26 dec28.
    destruct obs; cbn [andb];
      destruct (Z.eqb_spec (weekday dec26) SAT) as [Hsat | Hsat];
      destruct (Z.eqb_spec (weekday dec26) SUN) as [Hsun | Hsun];
      rewrite ?elem_of_cons, ?elem_of_nil; naive_solver.
  - intros H. rewrite E, weekday_shift, H. reflexivity.
  - intros H. rewrite E, weekday_shift, H. reflexivity.
Qed.

(** X7. For "UK" and "Northern Ireland" St. Patrick's Day is on 17 March,
    for "UK" with the suffix " [Northern Ireland]". Its observed day is
    there exactly when [observed] is set and 17 March is a Saturday or a
    Sunday, on 19 March in the one case and on 18 March in the other, always
    a Monday. The other subdivisions have no St. Patrick's Day. *)
Theorem st_patricks_day_entries sd obs y :
  valid_year y → sd ≠ "Isle of Man" →
  let mar17 := _ymd2ord y MAR 17 in
  let name := if String.eqb sd "UK" then "St. Patrick's Day [Northern Ireland]"
              else "St. Patrick's Day" in
  ∃ m, holiday_map hook sd obs y = Some m ∧
    (sd ∈ ["UK"; "Northern Ireland"] →
       (∀ k, m !! k = Some name ↔ k = mar17) ∧
       (∀ k, m !! k = Some (name +:+ " (Observed)") ↔
             obs = true ∧
             ((weekday mar17 = SAT ∧ k = _ymd2ord y MAR 19) ∨
              (weekday mar17 = SUN ∧ k = _ymd2ord y MAR 18))) ∧
       (∀ k, m !! k = Some (name +:+ " (Observed)") → weekday k = MON)) ∧
    (sd ∉ ["UK"; "Northern Ireland"] →
       ∀ k n, m !! k = Some n → String.prefix "St. Patrick's Day" n = false).
Proof.
  intros Hy Hsd mar17 name. eexists. split; [by apply holiday_map_dict|].
  assert (Hrule : ∀ k n, String.prefix "St. Patrick's Day" n = true →
            dict_of (populate_log y sd obs) !! k = Some n
            ↔ (k, n) ∈ st_patricks_day_log y sd obs).
  { intros k n Hp.
    apply (dict_of_rule y sd obs (st_patricks_day_log y sd obs) "St. Patrick's Day");
      [done | intros ? ?; apply st_patricks_day_named | in_later | done]. }
  assert (E19 : _ymd2ord y MAR 19 = mar17 + 2) by (subst mar17; ymd_unfold; lia).
  assert (E18 : _ymd2ord y MAR 18 = mar17 + 1) by (subst mar17; ymd_unfold; lia).
  pose proof (next_on_spec MON mar17 ltac:(cbv; intuition discriminate)) as [Hmon Hr].
  assert (Hsat : weekday mar17 = SAT → next_on MON mar17 = mar17 + 2)
    by (intros H; unfold next_on; rewrite H; reflexivity).
  assert (Hsun : weekday mar17 = SUN → next_on MON mar17 = mar17 + 1)
    by (intros H; unfold next_on; rewrite H; reflexivity).
  assert (Hlog : sd ∈ ["UK"; "Northern Ireland"] →
            st_patricks_day_log y sd obs =
            (mar17, name) ::
            (if obs && bool_decide (weekday mar17 ∈ WEEKEND)
             then [(next_on MON mar17, name +:+ " (Observed)")] else [])).
  { intros Hin. unfold st_patricks_day_log. rewrite bool_decide_eq_true_2 by done.
    subst name. by destruct (String.eqb sd "UK"). }
  assert (Hp : String.prefix "St. Patrick's Day" name = true
               ∧ String.prefix "St. Patrick's Day" (name +:+ " (Observed)") = true
               ∧ name ≠ name +:+ " (Observed)")
    by (subst name; by destruct (String.eqb sd "UK")).
  destruct Hp as (Hp1 & Hp2 & Hne).
  split.
  - intros Hin. specialize (Hlog Hin). rewrite E19, E18.
    clearbody name mar17.
    assert (Hobs : ∀ k, dict_of (populate_log y sd obs) !! k = Some (name +:+ " (Observed)") ↔
             obs = true ∧ ((weekday mar17 = SAT ∧ k = mar17 + 2) ∨
                           (weekday mar17 = SUN ∧ k = mar17 + 1))).
    { intros k. rewrite Hrule, Hlog by done.
      destruct obs; cbn [andb]; [case_bool_decide as Hwe; rewrite weekend_cases in Hwe |];
        rewrite ?elem_of_cons, ?elem_of_nil.
      - split.
        + intros [[= -> ?] | [[= ->] | []]]; [done|].
          split; [done|]. destruct Hwe as [Hw | Hw]; [left | right]; split; auto.
        + intros [_ [[Hw ->] | [Hw ->]]]; right; left; f_equal; symmetry; auto.
      - split.
        + intros [[= -> ?] | []]. done.
        + intros [_ [[Hw _] | [Hw _]]]; exfalso; apply Hwe; auto.
      - split.
        + intros [[= -> ?] | []]. done.
        + intros [? _]. done. }
    split; [|split; [done|]].
    + intros k. rewrite Hrule, Hlog by done.
      destruct (obs && _); rewrite ?elem_of_cons, ?elem_of_nil.
      * split; [intros [[= -> ] | [[= _ ?] | []]]; done | intros ->; by left].
      * split; [intros [[= -> ] | []]; done | intros ->; by left].
    + intros k Hk. apply Hobs in Hk as [_ [[Hw ->] | [Hw ->]]].
      * by rewrite <- Hsat.
      * by rewrite <- Hsun.
  - intros Hin k n H. apply dict_of_lookup_Some in H.
    destruct (String.prefix "St. Patrick's Day" n) eqn:Hp; [|done].
    apply st_patricks_day_named in H; [|done].
    unfold st_patricks_day_log in H. rewrite bool_decide_eq_false_2 in H by done.
    by apply elem_of_nil in H.
Qed.

(** X8. For "UK" and "Northern Ireland" the Battle of the Boyne is on
    12 July and has no observed day, also when 12 July is on a week end and
    [observed] is set; the other subdivisions do not have it. *)
Theorem battle_of_the_boyne_entry sd obs y :
  valid_year y → sd ≠ "Isle of Man" →
  let name := if String.eqb sd "UK" then "Battle of the Boyne [Northern Ireland]"
              else "Battle of the Boyne" in
  ∃ m, holiday_map hook sd obs y = Some m ∧
    (sd ∈ ["UK"; "Northern Ireland"] →
       ∀ k n, String.prefix "Battle of the Boyne" n = true →
              (m !! k = Some n ↔ k = _ymd2ord y JUL 12 ∧ n = name)) ∧
    (sd ∉ ["UK"; "Northern Ireland"] →
       ∀ k n, m !! k = Some n → String.prefix "Battle of the Boyne" n = false).
Proof.
  intros Hy Hsd name. eexists. split; [by apply holiday_map_dict|].
  assert (Hrule : ∀ k n, String.prefix "Battle of the Boyne" n = true →
            dict_of (populate_log y sd obs) !! k = Some n
            ↔ (k, n) ∈ battle_of_the_boyne_log y sd).
  { intros k n Hp.
    apply (dict_of_rule y sd obs (battle_of_the_boyne_log y sd) "Battle of the Boyne");
      [done | intros ? ?; apply battle_of_the_boyne_named | in_later | done]. }
  split.
  - intros Hin k n Hp. rewrite Hrule by done.
    unfold battle_of_the_boyne_log. rewrite bool_decide_eq_true_2 by done.
    cbv zeta. fold name. rewrite list_elem_of_singleton.
    assert (En : (if String.eqb sd "UK" then "Battle of the Boyne" +:+ " [Northern Ireland]"
                  else "Battle of the Boyne") = name)
      by (subst name; by destruct (String.eqb sd "UK")).
    rewrite En. clearbody name.
    split; [by intros [= -> ->] | by intros [-> ->]].
  - intros Hin k n H. apply dict_of_lookup_Some in H.
    destruct (String.prefix "Battle of the Boyne" n) eqn:Hp; [|done].
    apply battle_of_the_boyne_named in H; [|done].
    unfold battle_of_the_boyne_log in H. rewrite bool_decide_eq_false_2 in H by done.
    by apply elem_of_nil in H.
Qed.

(** X9. For "UK" and "Scotland" St. Andrew's Day is on 30 November and
    has no observed day, also when 30 November is on a week end and
    [observed] is set; the other subdivisions do not have it. *)
Theorem st_andrews_day_entry sd obs y :
  valid_year y → sd ≠ "Isle of Man" →
  let name := if String.eqb sd "UK" then "St. Andrew's Day [Scotland]"
              else "St. Andrew's Day" in
  ∃ m, holiday_map hook sd obs y = Some m ∧
    (sd ∈ ["UK"; "Scotland"] →
       ∀ k n, String.prefix "St. Andrew's Day" n = true →
              (m !! k = Some n ↔ k = _ymd2ord y NOV 30 ∧ n = name)) ∧
    (sd ∉ ["UK"; "Scotland"] →
       ∀ k n, m !! k = Some n → String.prefix "St. Andrew's Day" n = false).
Proof.
  intros Hy Hsd name. eexists. split; [by apply holiday_map_dict|].
  assert (Hrule : ∀ k n, String.prefix "St. Andrew's Day" n = true →
            dict_of (populate_log y sd obs) !! k = Some n
            ↔ (k, n) ∈ st_andrews_day_log y sd).
  { intros k n Hp.
    apply (dict_of_rule y sd obs (st_andrews_day_log y sd) "St. Andrew's Day");
      [done | intros ? ?; apply st_andrews_day_named | in_later | done]. }
  split.
  - intros Hin k n Hp. rewrite Hrule by done.
    unfold st_andrews_day_log. rewrite bool_decide_eq_true_2 by done.
    cbv zeta. rewrite list_elem_of_singleton.
    assert (En : (if String.eqb sd "UK" then "St. Andrew's Day" +:+ " [Scotland]"
                  else "St. Andrew's Day") = name)
      by (subst name; by destruct (String.eqb sd "UK")).
    rewrite En. clearbody name.
    split; [by intros [= -> ->] | by intros [-> ->]].
  - intros Hin k n H. apply dict_of_lookup_Some in H.
    destruct (String.prefix "St. Andrew's Day" n) eqn:Hp; [|done].
    apply st_andrews_day_named in H; [|done].
    unfold st_andrews_day_log in H. rewrite bool_decide_eq_false_2 in H by done.
    by apply elem_of_nil in H.
Qed.

(** X10. May Day: none before 1978; from 1978 on the first Monday of May,
    that is the Monday among 1 to 7 May, but for 1995, when it is on 8 May,
    a Monday, and 2020, when it is on 8 May, a Friday. The seven tests on the
    week day in the rule always give one date. *)
Theorem may_day_first_monday sd obs y :
  valid_year y → sd ≠ "Isle of Man" →
  ∃ m, holiday_map hook sd obs y = Some m ∧
    (y < 1978 → ∀ k n, m !! k = Some n → String.prefix "May Day" n = false) ∧
    (1978 ≤ y → y ≠ 1995 → y ≠ 2020 →
       ∀ k, m !! k = Some "May Day" ↔
            weekday k = MON ∧ _ymd2ord y MAY 1 ≤ k ≤ _ymd2ord y MAY 7) ∧
    (y = 1995 → weekday (_ymd2ord 1995 MAY 8) = MON ∧
       ∀ k, m !! k = Some "May Day" ↔ k = _ymd2ord 1995 MAY 8) ∧
    (y = 2020 → weekday (_ymd2ord 2020 MAY 8) = FRI ∧
       ∀ k, m !! k = Some "May Day" ↔ k = _ymd2ord 2020 MAY 8).
Proof.
  intros Hy Hsd. eexists. split; [by apply holiday_map_dict|].
  assert (Hrule : ∀ k n, String.prefix "May Day" n = true →
            dict_of (populate_log y sd obs) !! k = Some n ↔ (k, n) ∈ may_day_log y).
  { intros k n Hp.
    apply (dict_of_rule y sd obs (may_day_log y) "May Day");
      [done | intros ? ?; apply may_day_named | in_later | done]. }
  split; [|split; [|split]].
  - intros H78 k n H. apply dict_of_lookup_Some in H.
    destruct (String.prefix "May Day" n) eqn:Hp; [|done].
    apply may_day_named in H; [|done]. unfold may_day_log in H.
    rewrite (proj2 (Z.leb_gt _ _) H78) in H. by apply elem_of_nil in H.
  - intros H78 H95 H20 k. rewrite Hrule, may_day_log_next_on by done.
    rewrite (proj2 (Z.eqb_neq _ _) H95), list_elem_of_singleton.
    pose proof (next_on_spec MON (_ymd2ord y MAY 1) ltac:(cbv; intuition discriminate))
      as [Hwd Hr].
    assert (_ymd2ord y MAY 7 = _ymd2ord y MAY 1 + 6) as -> by (ymd_unfold; lia).
    split.
    + by intros [= ->].
    + intros [Hk Hk']. f_equal. apply weekday_inj; [congruence | lia].
  - intros ->. split; [reflexivity|]. intros k.
    rewrite Hrule, may_day_log_next_on by done.
    rewrite list_elem_of_singleton.
    split; [by intros [= ->] | by intros ->].
  - intros ->. split; [reflexivity|]. intros k. rewrite Hrule by done.
    unfold may_day_log.
    change (1978 <=? 2020) with true. change (2020 =? 2020) with true. cbv iota.
    rewrite list_elem_of_singleton. split; [by intros [= ->] | by intros ->].
Qed.

(** X11. For every subdivision but "Scotland" the Late Summer Bank Holiday
    is, from 1971 on, on the last Monday of August, that is the Monday among
    25 to 31 August, for "UK" with the suffix
    " [England/Wales/Northern Ireland]"; before 1971 there is none. *)
Theorem late_summer_last_monday sd obs y :
  valid_year y → sd ≠ "Isle of Man" → sd ≠ "Scotland" →
  let name := if String.eqb sd "UK"
              then "Late Summer Bank Holiday [England/Wales/Northern Ireland]"
              else "Late Summer Bank Holiday" in
  ∃ m, holiday_map hook sd obs y = Some m ∧
    (1971 ≤ y →
       ∀ k n, String.prefix "Late Summer Bank Holiday" n = true →
         (m !! k = Some n ↔
          n = name ∧ weekday k = MON ∧ _ymd2ord y AUG 25 ≤ k ≤ _ymd2ord y AUG 31)) ∧
    (y < 1971 →
       ∀ k n, m !! k = Some n → String.prefix "Late Summer Bank Holiday" n = false).
Proof.
  intros Hy Hsd Hsc name. eexists. split; [by apply holiday_map_dict|].
  assert (Hrule : ∀ k n, String.prefix "Late Summer Bank Holiday" n = true →
            dict_of (populate_log y sd obs) !! k = Some n
            ↔ (k, n) ∈ late_summer_bank_holiday_log y sd).
  { intros k n Hp.
    apply (dict_of_rule y sd obs (late_summer_bank_holiday_log y sd)
             "Late Summer Bank Holiday");
      [done | intros ? ?; apply late_summer_bank_holiday_named | in_later | done]. }
  assert (Hns : String.eqb sd "Scotland" = false) by by apply String.eqb_neq.
  split.
  - intros H71 k n Hp. rewrite Hrule by done.
    unfold late_summer_bank_holiday_log.
    rewrite Hns, (proj2 (Z.leb_le _ _) H71). cbn [negb andb]. cbv zeta.
    assert (En : (if String.eqb sd "UK"
                  then "Late Summer Bank Holiday" +:+ " [England/Wales/Northern Ireland]"
                  else "Late Summer Bank Holiday") = name)
      by (subst name; by destruct (String.eqb sd "UK")).
    rewrite En. clearbody name. rewrite list_elem_of_singleton.
    pose proof (last_on_spec MON (_ymd2ord y AUG 31) ltac:(cbv; intuition discriminate))
      as [Hwd Hr].
    assert (_ymd2ord y AUG 25 = _ymd2ord y AUG 31 - 6) as -> by (ymd_unfold; lia).
    split.
    + by intros [= -> ->].
    + intros (-> & Hk & Hk'). f_equal. apply weekday_inj; [congruence | lia].
  - intros H71 k n H. apply dict_of_lookup_Some in H.
    destruct (String.prefix "Late Summer Bank Holiday" n) eqn:Hp; [|done].
    apply late_summer_bank_holiday_named in H; [|done].
    unfold late_summer_bank_holiday_log in H.
    rewrite (proj2 (Z.leb_gt _ _) H71), andb_false_r in H. by apply elem_of_nil in H.
Qed.

(** X12. For "UK" and "Scotland" the New Year Holiday is on 2 January in
    every year, also before 1974 and also when the observed New Year's Day
    has been assigned to that day before it; the other subdivisions have no
    New Year Holiday. *)
Theorem new_year_holiday_on_jan_2 sd obs y :
  valid_year y → sd ≠ "Isle of Man" →
  let name := if String.eqb sd "UK" then "New Year Holiday [Scotland]"
              else "New Year Holiday" in
  ∃ m, holiday_map hook sd obs y = Some m ∧
    (sd ∈ ["UK"; "Scotland"] → ∀ k, m !! k = Some name ↔ k = _ymd2ord y JAN 2) ∧
    (sd ∉ ["UK"; "Scotland"] →
       ∀ k n, m !! k = Some n → String.prefix "New Year Holiday" n = false).
Proof.
  intros Hy Hsd name. eexists. split; [by apply holiday_map_dict|].
  assert (Hrule : ∀ k n, String.prefix "New Year Holiday" n = true →
            dict_of (populate_log y sd obs) !! k = Some n
            ↔ (k, n) ∈ new_year_holiday_log y sd obs).
  { intros k n Hp.
    apply (dict_of_rule y sd obs (new_year_holiday_log y sd obs) "New Year Holiday");
      [done | intros ? ?; apply new_year_holiday_named | in_later | done]. }
  split.
  - intros Hin k.
    assert (Hp : String.prefix "New Year Holiday" name = true
                 ∧ name ≠ name +:+ " (Observed)")
      by (subst name; by destruct (String.eqb sd "UK")).
    destruct Hp as [Hp Hne]. rewrite Hrule by done.
    unfold new_year_holiday_log. rewrite bool_decide_eq_true_2 by done. cbv zeta.
    assert (En : (if String.eqb sd "UK" then "New Year Holiday" +:+ " [Scotland]"
                  else "New Year Holiday") = name)
      by (subst name; by destruct (String.eqb sd "UK")).
    rewrite En. clearbody name.
    destruct (obs && bool_decide _); [|destruct (obs && _)];
      rewrite ?elem_of_cons, ?elem_of_nil.
    + split; [intros [[= ->] | [[= _ ?] | []]]; done | intros ->; by left].
    + split; [intros [[= ->] | [[= _ ?] | []]]; done | intros ->; by left].
    + split; [intros [[= ->] | []]; done | intros ->; by left].
  - intros Hin k n H. apply dict_of_lookup_Some in H.
    destruct (String.prefix "New Year Holiday" n) eqn:Hp; [|done].
    apply new_year_holiday_named in H; [|done].
    unfold new_year_holiday_log in H. rewrite bool_decide_eq_false_2 in H by done.
    by apply elem_of_nil in H.
Qed.

(** X13. [easter] returns a Sunday from 22 March to 25 April. Good Friday
    is a Friday from 20 March to 23 April, and Easter Monday a Monday from
    23 March to 26 April. *)
Theorem easter_dates_range sd obs y :
  valid_year y → sd ≠ "Isle of Man" →
  ∃ e m, (∀ s, easter y s = Returns e s) ∧
    holiday_map hook sd obs y = Some m ∧
    weekday e = SUN ∧ _ymd2ord y MAR 22 ≤ e ≤ _ymd2ord y APR 25 ∧
    (∀ k, m !! k = Some "Good Friday" →
       weekday k = FRI ∧ _ymd2ord y MAR 20 ≤ k ≤ _ymd2ord y APR 23) ∧
    (∀ k n, m !! k = Some n → String.prefix "Easter Monday" n = true →
       weekday k = MON ∧ _ymd2ord y MAR 23 ≤ k ≤ _ymd2ord y APR 26).
Proof.
  intros Hy Hsd. exists (easter_ordinal y). eexists.
  split; [intros s; by apply easter_returns|].
  split; [by apply holiday_map_dict|].
  destruct (easter_ordinal_spec y) as (p & Hp & _ & He & Hsun).
  split; [done|]. split; [ymd_cases y; lia|]. split.
  - intros k H. apply dict_of_lookup_Some in H.
    apply good_friday_named in H; [|done]. unfold good_friday_log in H.
    apply list_elem_of_singleton in H as [= ->]. rewrite good_friday_date.
    split.
    + replace (easter_ordinal y - 2) with (easter_ordinal y + -2) by lia.
      rewrite weekday_shift, Hsun. reflexivity.
    + ymd_cases y; lia.
  - intros k n H Hn. apply dict_of_lookup_Some in H.
    apply easter_monday_named in H; [|done]. unfold easter_monday_log in H.
    destruct (negb _); [|by apply elem_of_nil in H].
    apply list_elem_of_singleton in H as [= -> _]. rewrite easter_monday_date.
    split.
    + rewrite weekday_shift, Hsun. reflexivity.
    + ymd_cases y; lia.
Qed.

(* [_populate] is its rules and then [_additional_holidays]. *)
Lemma populate_then_additional y s :
  valid_year y →
  _populate hook y s
  = _additional_holidays hook y (puts (populate_log y (subdiv s) (observed s)) s).
Proof.
  intros Hy. unfold _populate, populate_log.
  rewrite (seq_returns _ _ _ _ (HolidayBase_populate_puts y _ Hy)).
  rewrite (seq_returns _ _ _ _ (new_years_day_puts y _ Hy)).
  rewrite (seq_returns _ _ _ _ (new_year_holiday_puts y _ Hy)).
  rewrite (seq_returns _ _ _ _ (st_patricks_day_puts y _ Hy)).
  rewrite (seq_returns _ _ _ _ (battle_of_the_boyne_puts y _ Hy)).
  rewrite (seq_returns _ _ _ _ (summer_bank_holiday_puts y _ Hy)).
  rewrite (seq_returns _ _ _ _ (st_andrews_day_puts y _ Hy)).
  rewrite (seq_returns _ _ _ _ (christmas_day_puts y _ Hy)).
  rewrite (seq_returns _ _ _ _ (country_specific_puts y _ Hy)).
  by rewrite !puts_app.
Qed.

Lemma populate_union y s :
  valid_year y → subdiv s ≠ "Isle of Man" →
  _populate hook y s
  = Returns tt (mkSelf (subdiv s) (observed s)
                  (dict_of (populate_log y (subdiv s) (observed s)) ∪ entries s)).
Proof.
  intros Hy Hsd. rewrite populate_puts by done.
  unfold puts. by rewrite foldl_insert_union.
Qed.

(** X14. [_populate] does not check [self.subdiv] against
    [subdivisions]: a subdivision that is none of "UK", "Scotland", "Northern
    Ireland" and "Isle of Man" gets the holidays of "England", in every
    year; so "Wales" has the holidays of "England". *)
Theorem unlisted_subdivision_as_england sd obs y :
  sd ∉ ["UK"; "Scotland"; "Northern Ireland"; "Isle of Man"] →
  holiday_map hook sd obs y = holiday_map hook "England" obs y.
Proof.
  intros Hsd.
  assert (Hiom : sd ≠ "Isle of Man") by (intros ->; apply Hsd; set_solver).
  assert (Hsd' : sd ∉ ["UK"; "Scotland"; "Northern Ireland"]) by set_solver.
  destruct (Z_le_dec MINYEAR y) as [Hlo | Hlo], (Z_le_dec y MAXYEAR) as [Hhi | Hhi].
  - assert (Hy : valid_year y) by done.
    rewrite !holiday_map_dict by done. by rewrite populate_log_unlisted.
  - rewrite !holiday_map_None; [done | by intros [? ?]..].
  - rewrite !holiday_map_None; [done | by intros [? ?]..].
  - rewrite !holiday_map_None; [done | by intros [? ?]..].
Qed.

(** X15. [_populate] on an object that already has entries keeps those on
    other dates and assigns the holidays of the year over the rest; a second
    run for the same year changes nothing. *)
Theorem populate_keeps_other_entries y s :
  valid_year y → subdiv s ≠ "Isle of Man" →
  ∃ m, holiday_map hook (subdiv s) (observed s) y = Some m ∧
    _populate hook y s
    = Returns tt (mkSelf (subdiv s) (observed s) (m ∪ entries s)) ∧
    (_populate hook y;; _populate hook y) s = _populate hook y s.
Proof.
  intros Hy Hsd. eexists. split; [by apply holiday_map_dict|].
  split; [by apply populate_union|].
  unfold mbind, M_bind. rewrite populate_union by done.
  rewrite populate_union by done. cbn [subdiv observed entries].
  by rewrite (assoc_L (∪)), (idemp_L (∪)).
Qed.

(** X16. The holidays of two different years have no date in common, and
    [_populate] for the one year and then for the other gives the same
    object in either order: the entries of both years over those that the
    object had. *)
Theorem populate_two_years y1 y2 s :
  valid_year y1 → valid_year y2 → y1 ≠ y2 → subdiv s ≠ "Isle of Man" →
  ∃ m1 m2,
    holiday_map hook (subdiv s) (observed s) y1 = Some m1 ∧
    holiday_map hook (subdiv s) (observed s) y2 = Some m2 ∧
    m1 ##ₘ m2 ∧
    (_populate hook y1;; _populate hook y2) s
    = Returns tt (mkSelf (subdiv s) (observed s) (m1 ∪ m2 ∪ entries s)) ∧
    (_populate hook y2;; _populate hook y1) s
    = (_populate hook y1;; _populate hook y2) s.
Proof.
  intros Hy1 Hy2 Hne Hsd. do 2 eexists.
  split; [by apply holiday_map_dict|]. split; [by apply holiday_map_dict|].
  set (m1 := dict_of (populate_log y1 (subdiv s) (observed s))).
  set (m2 := dict_of (populate_log y2 (subdiv s) (observed s))).
  assert (Hdisj : m1 ##ₘ m2).
  { apply map_disjoint_spec. intros k n1 n2 H1 H2.
    apply dict_of_lookup_Some, (populate_log_within_year _ _ _ _ _ Hy1) in H1.
    apply dict_of_lookup_Some, (populate_log_within_year _ _ _ _ _ Hy2) in H2.
    destruct (Z.lt_total y1 y2) as [Hlt | [? | Hlt]]; [|done|].
    - pose proof (year_order y1 y2 Hy1 Hlt). lia.
    - pose proof (year_order y2 y1 Hy2 Hlt). lia. }
  split; [done|].
  unfold mbind, M_bind. rewrite !populate_union by done.
  cbn [subdiv observed entries]. rewrite ?populate_union by done.
  cbn [subdiv observed entries]. fold m1 m2.
  rewrite !(assoc_L (∪)), (map_union_comm m2 m1) by done. done.
Qed.

(** X17. For "Isle of Man" [_populate] first runs the rules of the class,
    which give the entries of "England", and then hands the object to
    [IsleOfMan._additional_holidays]; for every other subdivision that method
    is not reached, and the result does not depend on it. *)
Theorem isle_of_man_populate obs y :
  valid_year y →
  (∃ en, holiday_map hook "England" obs y = Some en ∧
     holidays hook "Isle of Man" obs y = hook y (mkSelf "Isle of Man" obs en)) ∧
  (∀ sd, sd ≠ "Isle of Man" →
     holidays hook sd obs y = holidays no_additional_holidays sd obs y).
Proof.
  intros Hy. split.
  - eexists. split; [by apply holiday_map_dict|].
    unfold holidays. rewrite populate_then_additional by done.
    cbn [subdiv observed]. rewrite populate_log_unlisted by set_solver.
    reflexivity.
  - intros sd Hsd. unfold holidays. by rewrite !populate_puts.
Qed.

(** X18. The number of holidays of a year from 1978 on that has no special
    occasion, without observed days: 13 for "UK", 9 for "Scotland", 10 for
    "Northern Ireland" and 8 for every other subdivision. *)
Theorem holiday_counts sd y :
  valid_year y → sd ≠ "Isle of Man" → 1978 ≤ y → special_holidays !! y = None →
  ∃ m, holiday_map hook sd false y = Some m ∧
    size m = if String.eqb sd "UK" then 13%nat
             else if String.eqb sd "Scotland" then 9%nat
             else if String.eqb sd "Northern Ireland" then 10%nat
             else 8%nat.
Proof.
  intros Hy Hsd H78 Hsp. eexists. split; [by apply holiday_map_dict|].
  assert (Hcase : sd = "UK" ∨ sd = "Scotland" ∨ sd = "Northern Ireland"
                  ∨ sd ∉ ["UK"; "Scotland"; "Northern Ireland"]).
  { destruct (decide (sd = "UK")); [by auto|].
    destruct (decide (sd = "Scotland")); [by auto|].
    destruct (decide (sd = "Northern Ireland")); [by auto|].
    do 3 right. rewrite !not_elem_of_cons. auto using not_elem_of_nil. }
  assert (Hlen : ∀ sd', sd' ∈ ["UK"; "Scotland"; "Northern Ireland"; "England"] →
            NoDup (populate_log y sd' false).*1 ∧
            length (populate_log y sd' false) =
              if String.eqb sd' "UK" then 13%nat
              else if String.eqb sd' "Scotland" then 9%nat
              else if String.eqb sd' "Northern Ireland" then 10%nat
              else 8%nat).
  { intros sd' Hsd'.
    destruct (may_day_log_one y Hy H78) as (kmay & Emay & Hmay).
    assert (Especial : special_log y = []) by (unfold special_log; by rewrite Hsp).
    assert (H12 : y ≠ 2012) by (intros ->; done).
    assert (H22 : y ≠ 2022) by (intros ->; done).
    assert (Espring : spring_bank_holiday_log y
                      = [(last_on MON (_ymd2ord y MAY 31), "Spring Bank Holiday")]).
    { unfold spring_bank_holiday_log.
      rewrite (proj2 (Z.eqb_neq _ _) H12), (proj2 (Z.eqb_neq _ _) H22).
      by rewrite (proj2 (Z.leb_le _ _)) by lia. }
    unfold populate_log, country_specific_log.
    rewrite Especial, Emay, Espring.
    unfold new_years_day_log, new_year_holiday_log, st_patricks_day_log,
      battle_of_the_boyne_log, summer_bank_holiday_log, st_andrews_day_log,
      christmas_day_log, good_friday_log, easter_monday_log,
      late_summer_bank_holiday_log, boxing_day_log.
    rewrite !(proj2 (Z.leb_le _ _)) by lia.
    rewrite good_friday_date, easter_monday_date.
    destruct (easter_ordinal_spec y) as (p & Hp & _ & He & _).
    pose proof (next_on_spec MON (_ymd2ord y AUG 1) ltac:(cbv; intuition discriminate))
      as [_ Hsummer].
    pose proof (last_on_spec MON (_ymd2ord y MAY 31) ltac:(cbv; intuition discriminate))
      as [_ Hspring].
    pose proof (last_on_spec MON (_ymd2ord y AUG 31) ltac:(cbv; intuition discriminate))
      as [_ Hlate].
    split_log Hsd'; simplify_eq; eval_guards_goal; cbn [andb app fmap list_fmap fst];
      (split; [|reflexivity]);
      repeat (apply NoDup_cons; split;
                [rewrite ?elem_of_cons, elem_of_nil; ymd_cases y; lia|]);
      apply NoDup_nil_2. }
  destruct_or! Hcase.
  - subst sd. destruct (Hlen "UK" ltac:(set_solver)) as [Hnd Hl].
    by rewrite dict_of_size.
  - subst sd. destruct (Hlen "Scotland" ltac:(set_solver)) as [Hnd Hl].
    by rewrite dict_of_size.
  - subst sd. destruct (Hlen "Northern Ireland" ltac:(set_solver)) as [Hnd Hl].
    by rewrite dict_of_size.
  - rewrite populate_log_unlisted by done.
    destruct (Hlen "England" ltac:(set_solver)) as [Hnd Hl].
    rewrite dict_of_size, Hl by done.
    rewrite !not_elem_of_cons in Hcase. destruct Hcase as (Huk & Hsc & Hni & _).
    rewrite (proj2 (String.eqb_neq _ _) Huk), (proj2 (String.eqb_neq _ _) Hsc),
      (proj2 (String.eqb_neq _ _) Hni). reflexivity.
Qed.

End Further.

(** X19. [UnitedKingdom.__init__] hands on keyword arguments that name a
    subdivision: a [subdiv] that is true is kept, one that is false is
    replaced by "UK", also when a [state] is given, and without [subdiv]
    "UK" is added unless [state] is true. No other keyword is touched, and
    the result needs no further default. *)
Theorem init_defaults_to_uk {V} (truth : V → bool) (none : V) (str : string → V)
    (kwargs : gmap string V) :
  truth (str "UK") = true →
  let kwargs' := __init__ truth none str kwargs in
  truth (dict_get kwargs' "subdiv" (dict_get kwargs' "state" none)) = true ∧
  (∀ key, key ≠ "subdiv" → kwargs' !! key = kwargs !! key) ∧
  (match kwargs !! "subdiv" with
   | Some v => kwargs' !! "subdiv" = Some (if truth v then v else str "UK")
   | None =>
       kwargs' !! "subdiv" =
       if truth (dict_get kwargs "state" none) then None else Some (str "UK")
   end) ∧
  __init__ truth none str kwargs' = kwargs'.
Proof.
  intros Huk kwargs'. subst kwargs'. unfold __init__.
  destruct (truth (dict_get kwargs "subdiv" (dict_get kwargs "state" none))) eqn:E;
    cbn [negb].
  - rewrite E. cbn [negb]. split; [done|]. split; [done|]. split; [|done].
    unfold dict_get in E. destruct (kwargs !! "subdiv") as [v|] eqn:Ev.
    + by rewrite E.
    + unfold dict_get. by rewrite E.
  - assert (Hget : ∀ d, dict_get (<["subdiv" := str "UK"]> kwargs) "subdiv" d = str "UK").
    { intros d. unfold dict_get. by rewrite lookup_insert_eq. }
    rewrite !Hget, Huk. cbn [negb].
    split; [done|]. split; [|split; [|done]].
    + intros key Hkey. by rewrite lookup_insert_ne.
    + rewrite lookup_insert_eq. unfold dict_get in E.
      destruct (kwargs !! "subdiv") as [v|] eqn:Ev.
      * by rewrite E.
      * unfold dict_get. by rewrite E.
Qed.

(** X20. [date] never gives one ordinal to two dates: the dates that it
    accepts are told apart by the number that stands for them, which lies
    between 1 and the ordinal of [date.max]. *)
Theorem date_injective y m d y' m' d' o s1 s1' s2 s2' :
  date y m d s1 = Returns o s1' → date y' m' d' s2 = Returns o s2' →
  1 ≤ o ≤ _MAXORDINAL ∧ y = y' ∧ m = m' ∧ d = d'.
Proof.
  unfold date. intros H1 H2.
  destruct (fits_int y && fits_int m && fits_int d); [|done].
  destruct (fits_int y' && fits_int m' && fits_int d'); [|done].
  destruct (_check_date_fields y m d) eqn:E1; [|done].
  destruct (_check_date_fields y' m' d') eqn:E2; [|done].
  injection H1 as <- _. injection H2 as H2 _.
  apply check_date_fields_spec in E1 as (Hy & Hm & Hd).
  apply check_date_fields_spec in E2 as (Hy' & Hm' & Hd').
  destruct (day_of_year_cases y m d Hm Hd) as (b & Hb & Hb01 & Hr & Hinj).
  destruct (day_of_year_cases y' m' d' Hm' Hd') as (b' & Hb' & Hb01' & Hr' & _).
  pose proof (days_before_year_succ y) as Hs. rewrite <- Hb in Hs.
  pose proof (days_before_year_succ y') as Hs'. rewrite <- Hb' in Hs'.
  pose proof (days_before_year_bounds y Hy) as Hby.
  unfold _ymd2ord in *.
  assert (Hyy : y = y').
  { destruct (Z.lt_total y y') as [Hlt | [? | Hlt]]; [|done|].
    - pose proof (days_before_year_mono (y + 1) y'
                    ltac:(destruct Hy; unfold MINYEAR in *; lia)). lia.
    - pose proof (days_before_year_mono (y' + 1) y
                    ltac:(destruct Hy'; unfold MINYEAR in *; lia)). lia. }
  subst y'. split; [|split; [done|]].
  - unfold _MAXORDINAL. destruct Hy as [Hlo Hhi]. unfold MINYEAR, MAXYEAR in *.
    pose proof (days_before_year_mono (y + 1) 10000 ltac:(lia)) as Hmax.
    change (_days_before_year 10000) with 3652059 in Hmax. lia.
  - apply Hinj; [done | done | lia].
Qed.

(** ** Further instances *)

Lemma valid_year_1995 : valid_year 1995.
Proof. unfold valid_year, MINYEAR, MAXYEAR. lia. Defined.

Lemma valid_year_2021 : valid_year 2021.
Proof. unfold valid_year, MINYEAR, MAXYEAR. lia. Defined.

Lemma valid_year_2024 : valid_year 2024.
Proof. unfold valid_year, MINYEAR, MAXYEAR. lia. Defined.

Lemma populate_returns_iff_valid_year_witness :
  holidays no_additional_holidays "UK" true 10000 = Raises ValueError ∧
  holidays no_additional_holidays "UK" true 2147483648 = Raises OverflowError.
Proof.
  assert (Hsd : "UK" ≠ "Isle of Man") by discriminate.
  split.
  - destruct (populate_returns_iff_valid_year no_additional_holidays "UK" true
                10000 Hsd) as [[[_ Hhi] _] | [(_ & _ & H) | [[Hlt | Hlt] _]]].
    + exfalso. unfold MAXYEAR in Hhi. lia.
    + exact H.
    + exfalso. unfold INT_MIN in Hlt. lia.
    + exfalso. unfold INT_MAX in Hlt. lia.
  - destruct (populate_returns_iff_valid_year no_additional_holidays "UK" true
                2147483648 Hsd) as [[[_ Hhi] _] | [(_ & [_ Hhi] & _) | [_ H]]].
    + exfalso. unfold MAXYEAR in Hhi. lia.
    + exfalso. unfold INT_MAX in Hhi. lia.
    + exact H.
Defined.

Lemma holidays_within_year_witness :
  ∃ m, holiday_map no_additional_holidays "UK" true 2022 = Some m ∧
    ∀ k n, m !! k = Some n → _ymd2ord 2022 JAN 1 ≤ k ≤ _ymd2ord 2022 DEC 31.
Proof.
  apply holidays_within_year; [exact valid_year_2022 | discriminate].
Defined.

Lemma observed_on_monday_or_tuesday_witness :
  ∃ m, holiday_map no_additional_holidays "UK" true 2022 = Some m ∧
    weekday (_ymd2ord 2022 DEC 27) = TUE ∧
    m !! _ymd2ord 2022 DEC 27 = Some "Christmas Day (Observed)".
Proof.
  assert (Hsd : "UK" ≠ "Isle of Man") by discriminate.
  destruct (observed_on_monday_or_tuesday no_additional_holidays "UK" true 2022
              valid_year_2022 Hsd) as (m & Hm & _).
  exists m. split; [exact Hm|]. split; [reflexivity|].
  rewrite holiday_map_dict in Hm by (exact valid_year_2022 || exact Hsd).
  injection Hm as <-. vm_compute. reflexivity.
Defined.

Lemma observed_flag_only_adds_witness :
  ∃ plain full,
    holiday_map no_additional_holidays "Scotland" false 2023 = Some plain ∧
    holiday_map no_additional_holidays "Scotland" true 2023 = Some full ∧
    plain ⊆ full.
Proof.
  assert (Hsd : "Scotland" ≠ "Isle of Man") by discriminate.
  destruct (observed_flag_only_adds no_additional_holidays "Scotland" 2023
              valid_year_2023 Hsd) as (plain & full & Hp & Hf & Hsub & _).
  exists plain, full. repeat split; assumption.
Defined.

Lemma christmas_day_entries_witness :
  ∃ m, holiday_map no_additional_holidays "England" true 2021 = Some m ∧
    weekday (_ymd2ord 2021 DEC 25) = SAT ∧
    m !! _ymd2ord 2021 DEC 27 = Some "Christmas Day (Observed)".
Proof.
  assert (Hsd : "England" ≠ "Isle of Man") by discriminate.
  pose proof (christmas_day_entries no_additional_holidays "England" true 2021
                valid_year_2021 Hsd) as H.
  cbv zeta in H. destruct H as (m & Hm & _ & Hobs & _).
  exists m. split; [exact Hm|]. split; [reflexivity|].
  apply Hobs. split; [reflexivity|]. split; [left|]; reflexivity.
Defined.

Lemma boxing_day_entries_witness :
  ∃ m, holiday_map no_additional_holidays "England" true 2021 = Some m ∧
    weekday (_ymd2ord 2021 DEC 26) = SUN ∧
    m !! _ymd2ord 2021 DEC 28 = Some "Boxing Day (Observed)".
Proof.
  assert (Hsd : "England" ≠ "Isle of Man") by discriminate.
  pose proof (boxing_day_entries no_additional_holidays "England" true 2021
                valid_year_2021 Hsd) as H.
  cbv zeta in H. destruct H as (m & Hm & _ & Hobs & _).
  exists m. split; [exact Hm|]. split; [reflexivity|].
  apply Hobs. split; [reflexivity|]. split; [right|]; reflexivity.
Defined.

Lemma st_patricks_day_entries_witness :
  ∃ m, holiday_map no_additional_holidays "Northern Ireland" true 2024 = Some m ∧
    weekday (_ymd2ord 2024 MAR 17) = SUN ∧
    m !! _ymd2ord 2024 MAR 18 = Some "St. Patrick's Day (Observed)".
Proof.
  assert (Hsd : "Northern Ireland" ≠ "Isle of Man") by discriminate.
  pose proof (st_patricks_day_entries no_additional_holidays "Northern Ireland" true
                2024 valid_year_2024 Hsd) as H.
  cbv zeta in H. destruct H as (m & Hm & Hin & _).
  exists m. split; [exact Hm|]. split; [reflexivity|].
  assert (Hni : "Northern Ireland" ∈ ["UK"; "Northern Ireland"]) by in_list.
  destruct (Hin Hni) as (_ & Hobs & _).
  apply Hobs. split; [reflexivity|]. right. split; reflexivity.
Defined.

Lemma battle_of_the_boyne_entry_witness :
  ∃ m, holiday_map no_additional_holidays "UK" true 2022 = Some m ∧
    m !! _ymd2ord 2022 JUL 12 = Some "Battle of the Boyne [Northern Ireland]".
Proof.
  assert (Hsd : "UK" ≠ "Isle of Man") by discriminate.
  pose proof (battle_of_the_boyne_entry no_additional_holidays "UK" true 2022
                valid_year_2022 Hsd) as H.
  cbv zeta in H. destruct H as (m & Hm & Hin & _).
  exists m. split; [exact Hm|].
  assert (Huk : "UK" ∈ ["UK"; "Northern Ireland"]) by in_list.
  apply (Hin Huk); [reflexivity | split; reflexivity].
Defined.

Lemma st_andrews_day_entry_witness :
  ∃ m, holiday_map no_additional_holidays "Scotland" true 2022 = Some m ∧
    m !! _ymd2ord 2022 NOV 30 = Some "St. Andrew's Day".
Proof.
  assert (Hsd : "Scotland" ≠ "Isle of Man") by discriminate.
  pose proof (st_andrews_day_entry no_additional_holidays "Scotland" true 2022
                valid_year_2022 Hsd) as H.
  cbv zeta in H. destruct H as (m & Hm & Hin & _).
  exists m. split; [exact Hm|].
  assert (Hsc : "Scotland" ∈ ["UK"; "Scotland"]) by in_list.
  apply (Hin Hsc); [reflexivity | split; reflexivity].
Defined.

Lemma may_day_first_monday_witness :
  ∃ m, holiday_map no_additional_holidays "England" true 1995 = Some m ∧
    m !! _ymd2ord 1995 MAY 8 = Some "May Day".
Proof.
  assert (Hsd : "England" ≠ "Isle of Man") by discriminate.
  destruct (may_day_first_monday no_additional_holidays "England" true 1995
              valid_year_1995 Hsd) as (m & Hm & _ & _ & H95 & _).
  exists m. split; [exact Hm|].
  destruct (H95 eq_refl) as [_ Hk]. apply Hk. reflexivity.
Defined.

Lemma late_summer_last_monday_witness :
  ∃ m, holiday_map no_additional_holidays "Wales" true 2022 = Some m ∧
    m !! _ymd2ord 2022 AUG 29 = Some "Late Summer Bank Holiday".
Proof.
  assert (Hsd : "Wales" ≠ "Isle of Man") by discriminate.
  assert (Hsc : "Wales" ≠ "Scotland") by discriminate.
  pose proof (late_summer_last_monday no_additional_holidays "Wales" true 2022
                valid_year_2022 Hsd Hsc) as H.
  cbv zeta in H. destruct H as (m & Hm & H71 & _).
  exists m. split; [exact Hm|].
  assert (Hy : 1971 ≤ 2022) by lia.
  apply (H71 Hy); [reflexivity|].
  split; [reflexivity|]. split; [reflexivity|]. vm_compute. split; discriminate.
Defined.

Lemma new_year_holiday_on_jan_2_witness :
  ∃ m, holiday_map no_additional_holidays "Scotland" true 2023 = Some m ∧
    weekday (_ymd2ord 2023 JAN 1) = SUN ∧
    m !! _ymd2ord 2023 JAN 2 = Some "New Year Holiday".
Proof.
  assert (Hsd : "Scotland" ≠ "Isle of Man") by discriminate.
  pose proof (new_year_holiday_on_jan_2 no_additional_holidays "Scotland" true 2023
                valid_year_2023 Hsd) as H.
  cbv zeta in H. destruct H as (m & Hm & Hin & _).
  exists m. split; [exact Hm|]. split; [reflexivity|].
  assert (Hsc : "Scotland" ∈ ["UK"; "Scotland"]) by in_list.
  apply (Hin Hsc). reflexivity.
Defined.

Lemma easter_dates_range_witness :
  ∃ e m, (∀ s, easter 2024 s = Returns e s) ∧
    holiday_map no_additional_holidays "England" true 2024 = Some m ∧
    e = _ymd2ord 2024 MAR 31.
Proof.
  assert (Hsd : "England" ≠ "Isle of Man") by discriminate.
  destruct (easter_dates_range no_additional_holidays "England" true 2024
              valid_year_2024 Hsd) as (e & m & He & Hm & _).
  exists e, m. split; [exact He|]. split; [exact Hm|].
  specialize (He (mkSelf "England" true ∅)). vm_compute in He.
  injection He as <-. reflexivity.
Defined.

Lemma unlisted_subdivision_as_england_witness :
  holiday_map no_additional_holidays "Wales" true 2022
  = holiday_map no_additional_holidays "England" true 2022.
Proof.
  apply unlisted_subdivision_as_england.
  apply (bool_decide_unpack _). vm_compute. exact I.
Defined.

Lemma populate_keeps_other_entries_witness :
  (_populate no_additional_holidays 2022;; _populate no_additional_holidays 2022)
    (mkSelf "UK" true ∅)
  = _populate no_additional_holidays 2022 (mkSelf "UK" true ∅).
Proof.
  assert (Hsd : subdiv (mkSelf "UK" true ∅) ≠ "Isle of Man") by discriminate.
  destruct (populate_keeps_other_entries no_additional_holidays 2022
              (mkSelf "UK" true ∅) valid_year_2022 Hsd) as (m & _ & _ & H).
  exact H.
Defined.

Lemma populate_two_years_witness :
  (_populate no_additional_holidays 2023;; _populate no_additional_holidays 2022)
    (mkSelf "UK" true ∅)
  = (_populate no_additional_holidays 2022;; _populate no_additional_holidays 2023)
      (mkSelf "UK" true ∅).
Proof.
  assert (Hsd : subdiv (mkSelf "UK" true ∅) ≠ "Isle of Man") by discriminate.
  assert (Hne : 2022 ≠ 2023) by lia.
  destruct (populate_two_years no_additional_holidays 2022 2023
              (mkSelf "UK" true ∅) valid_year_2022 valid_year_2023 Hne Hsd)
    as (m1 & m2 & _ & _ & _ & _ & H).
  exact H.
Defined.

Lemma isle_of_man_populate_witness :
  ∃ en, holiday_map no_additional_holidays "England" true 2022 = Some en ∧
    holidays no_additional_holidays "Isle of Man" true 2022
    = Returns tt (mkSelf "Isle of Man" true en).
Proof.
  destruct (isle_of_man_populate no_additional_holidays true 2022 valid_year_2022)
    as [(en & Hen & H) _].
  exists en. split; [exact Hen | exact H].
Defined.

Lemma holiday_counts_witness :
  ∃ m, holiday_map no_additional_holidays "Scotland" false 2023 = Some m ∧
    size m = 9%nat.
Proof.
  assert (Hsd : "Scotland" ≠ "Isle of Man") by discriminate.
  assert (H78 : 1978 ≤ 2023) by lia.
  destruct (holiday_counts no_additional_holidays "Scotland" 2023
              valid_year_2023 Hsd H78 eq_refl) as (m & Hm & Hsize).
  exists m. split; [exact Hm | exact Hsize].
Defined.

Lemma init_defaults_to_uk_witness :
  __init__ truth_of None Some (<["subdiv" := Some ""]> {["state" := Some "Scotland"]})
    !! "subdiv" = Some (Some "UK").
Proof.
  destruct (init_defaults_to_uk truth_of None Some
              (<["subdiv" := Some ""]> {["state" := Some "Scotland"]}) eq_refl)
    as (_ & _ & H & _).
  exact H.
Defined.

Lemma date_injective_witness :
  1 ≤ _ymd2ord 2022 JUN 3 ≤ _MAXORDINAL.
Proof.
  destruct (date_injective 2022 JUN 3 2022 JUN 3 (_ymd2ord 2022 JUN 3)
              (mkSelf "UK" true ∅) (mkSelf "UK" true ∅)
              (mkSelf "UK" true ∅) (mkSelf "UK" true ∅) eq_refl eq_refl) as [H _].
  exact H.
Defined.
